(** * Cortex XSOAR content: DecodersHex script and SymantecDLPV2 integration

    A shallow embedding of
      - Packs/Decoders/Scripts/DecodersHex/DecodersHex.py
      - Packs/SymantecDLP/Integrations/SymantecDLPV2/SymantecDLPV2.py
    together with the properties of the hex decoder, of the pagination and
    parsing helpers and of the incident-fetch loop with its watermark.

    Layout: [Py] holds the fragment of Python the two files rely on (values,
    exceptions, [str] methods, comparisons); [DecodersHex] and [SymantecDLPV2]
    hold the translated functions, followed by the theorems. *)

From Stdlib Require Import String Ascii List ZArith NArith Lia Bool.
From Stdlib Require Import Permutation Sorted.
From Stdlib.Strings Require Import Byte.
Import ListNotations.
#[local] Set Warnings "-register-all".
Local Open Scope string_scope.
Local Open Scope list_scope.

(** ** The Python fragment *)

Module Py.

(** Values: what [json] parsing and the command arguments produce.  JSON
    numbers are modelled as integers.  A [dict] keeps its insertion order, as
    in Python, and is an association list from string keys. *)
Inductive value : Type :=
| VNone
| VBool (b : bool)
| VInt (n : Z)
| VStr (s : string)
| VList (l : list value)
| VDict (d : list (string * value)).

Definition dict : Type := list (string * value).

(** Exceptions.  [DemistoException] prints as its message ([__str__] returns
    [str(self.message)]); the other constructors are the built-in exceptions
    that the translated code can raise, and [OtherException] stands for any
    further class raised by library code. *)
Inductive exn : Type :=
| DemistoException (message : string)
| PyException (message : string)
| ValueError (message : string)
| KeyError (key : value)
| TypeError
| AttributeError
| IndexError
| UnicodeDecodeError
| LookupError
| OtherException (cls message : string).

(** The outcome of evaluating an expression: a value or a raised exception. *)
Inductive result (A : Type) : Type :=
| Ok (a : A)
| Raise (e : exn).
Arguments Ok {A} a.
Arguments Raise {A} e.

Definition rbind {A B : Type} (r : result A) (k : A -> result B) : result B :=
  match r with
  | Ok a => k a
  | Raise e => Raise e
  end.

Declare Scope result_scope.
Delimit Scope result_scope with result.
Notation "x <- r ;; k" := (rbind r (fun x => k))
  (at level 61, r at next level, right associativity) : result_scope.

(** Truth value of an object ([if x:], [not x], [x and y], [x or y]). *)
Definition truthy (v : value) : bool :=
  match v with
  | VNone => false
  | VBool b => b
  | VInt n => negb (Z.eqb n 0)
  | VStr s => negb (String.eqb s "")
  | VList l => match l with [] => false | _ :: _ => true end
  | VDict d => match d with [] => false | _ :: _ => true end
  end.

(** *** Dictionaries *)

Fixpoint lookup (k : string) (d : dict) : option value :=
  match d with
  | [] => None
  | (k', v) :: d' => if String.eqb k k' then Some v else lookup k d'
  end.

(** [d.get(k)] and [d.get(k, default)]. *)
Definition dict_get (d : dict) (k : string) : value :=
  match lookup k d with Some v => v | None => VNone end.

Definition dict_get_default (d : dict) (k : string) (default : value) : value :=
  match lookup k d with Some v => v | None => default end.

(** [d[k]]. *)
Definition dict_item (d : dict) (k : string) : result value :=
  match lookup k d with Some v => Ok v | None => Raise (KeyError (VStr k)) end.

Fixpoint remove (k : string) (d : dict) : dict :=
  match d with
  | [] => []
  | (k', v) :: d' => if String.eqb k k' then remove k d' else (k', v) :: remove k d'
  end.

(** [d.pop(k)]: the value and the dictionary without the key. *)
Definition dict_pop (d : dict) (k : string) : result (value * dict) :=
  match lookup k d with
  | Some v => Ok (v, remove k d)
  | None => Raise (KeyError (VStr k))
  end.

(** [d[k] = v]: an existing key keeps its position, a new one goes last. *)
Fixpoint dict_set (d : dict) (k : string) (v : value) : dict :=
  match d with
  | [] => [(k, v)]
  | (k', v') :: d' =>
      if String.eqb k k' then (k', v) :: d' else (k', v') :: dict_set d' k v
  end.

(** [d.update(e)]. *)
Definition dict_update (d e : dict) : dict :=
  fold_left (fun acc kv => dict_set acc (fst kv) (snd kv)) e d.

(** A dict display [{k1: v1, ..., kn: vn}]. *)
Definition dict_of (kvs : list (string * value)) : dict := dict_update [] kvs.

(** [{k: v for k, v in d.items() if v}]. *)
Definition dict_filter_truthy (d : dict) : dict :=
  filter (fun kv => truthy (snd kv)) d.

(** Attribute access [x.get]: only a [dict] has it among the values. *)
Definition as_dict (v : value) : result dict :=
  match v with
  | VDict d => Ok d
  | _ => Raise AttributeError
  end.

(** Iteration [for x in v]: a list yields its elements, a dict its keys, a
    string its characters; the other values are not iterable. *)
Definition iterate (v : value) : result (list value) :=
  match v with
  | VList l => Ok l
  | VDict d => Ok (map (fun kv => VStr (fst kv)) d)
  | VStr s => Ok (map (fun c => VStr (String c "")) (list_ascii_of_string s))
  | _ => Raise TypeError
  end.

(** *** Equality and ordering *)

Definition num (b : bool) : Z := if b then 1%Z else 0%Z.

(** [a == b]. *)
Fixpoint py_eq (a b : value) {struct a} : bool :=
  match a, b with
  | VNone, VNone => true
  | VBool x, VBool y => Bool.eqb x y
  | VBool x, VInt n => Z.eqb (num x) n
  | VInt n, VBool x => Z.eqb n (num x)
  | VInt m, VInt n => Z.eqb m n
  | VStr s, VStr t => String.eqb s t
  | VList xs, VList ys =>
      (fix all2 (xs ys : list value) {struct xs} : bool :=
         match xs, ys with
         | [], [] => true
         | x :: xs', y :: ys' => py_eq x y && all2 xs' ys'
         | _, _ => false
         end) xs ys
  | VDict d, VDict e =>
      Nat.eqb (length d) (length e) &&
      (fix sub (d : list (string * value)) {struct d} : bool :=
         match d with
         | [] => true
         | (k, v) :: d' =>
             match lookup k e with
             | Some w => py_eq v w
             | None => false
             end && sub d'
         end) d
  | _, _ => false
  end.

(** Three-way comparison behind [<], [<=], [>], [>=]: strings compare
    lexicographically by code point, numbers by value, lists by their first
    differing elements; every other pair is unordered ([TypeError]). *)
Fixpoint py_cmp (a b : value) {struct a} : result comparison :=
  match a, b with
  | VStr s, VStr t => Ok (String.compare s t)
  | VInt m, VInt n => Ok (Z.compare m n)
  | VInt m, VBool y => Ok (Z.compare m (num y))
  | VBool x, VInt n => Ok (Z.compare (num x) n)
  | VBool x, VBool y => Ok (Z.compare (num x) (num y))
  | VList xs, VList ys =>
      (fix go (xs ys : list value) {struct xs} : result comparison :=
         match xs, ys with
         | [], [] => Ok Eq
         | [], _ :: _ => Ok Lt
         | _ :: _, [] => Ok Gt
         | x :: xs', y :: ys' => if py_eq x y then go xs' ys' else py_cmp x y
         end) xs ys
  | _, _ => Raise TypeError
  end.

(** [a >= b]. *)
Definition py_ge (a b : value) : result bool :=
  match py_cmp a b with
  | Ok Lt => Ok false
  | Ok _ => Ok true
  | Raise e => Raise e
  end.

(** *** Strings

    A [str] is modelled by a [string] with one [ascii] per code point, that is
    the strings over U+0000..U+00FF. *)

(** [needle in hay]. *)
Fixpoint contains (needle hay : string) : bool :=
  String.prefix needle hay ||
  match hay with
  | EmptyString => false
  | String _ hay' => contains needle hay'
  end.

(** [s.split(sep)] for a one-character separator. *)
Fixpoint split (sep : ascii) (s : string) : list string :=
  match s with
  | EmptyString => [EmptyString]
  | String c s' =>
      if Ascii.eqb c sep then EmptyString :: split sep s'
      else match split sep s' with
           | h :: t => String c h :: t
           | [] => [String c EmptyString]
           end
  end.

(** Decimal digits ([Nd]): the characters [int] accepts as digits. *)
Definition is_decimal (c : ascii) : bool :=
  let n := N_of_ascii c in (N.leb 48 n && N.leb n 57)%N.

(** [c.isdigit()]: the decimal digits and the characters of numeric type
    Digit, which below U+0100 are the superscripts U+00B2, U+00B3, U+00B9. *)
Definition is_digit (c : ascii) : bool :=
  let n := N_of_ascii c in
  is_decimal c || N.eqb n 178 || N.eqb n 179 || N.eqb n 185.

Fixpoint all_chars (p : ascii -> bool) (s : string) : bool :=
  match s with
  | EmptyString => true
  | String c s' => p c && all_chars p s'
  end.

(** [s.isdigit()]: non-empty and every character is a digit. *)
Definition isdigit (s : string) : bool :=
  negb (String.eqb s "") && all_chars is_digit s.

Fixpoint decimal_value (acc : Z) (s : string) : Z :=
  match s with
  | EmptyString => acc
  | String c s' => decimal_value (10 * acc + (Z.of_N (N_of_ascii c) - 48))%Z s'
  end.

(** [sys.int_info.default_max_str_digits]: the number of digits beyond which
    [int] refuses a decimal string. *)
Definition max_str_digits : Z := 4300.

(** [int(s)] on the strings the translated code passes to it, which are those
    accepted by [isdigit]: no sign, space or underscore occurs in them, and
    [int] succeeds exactly when every character is a decimal digit and there
    are no more than [max_str_digits] of them (leading zeros count).  The
    decimal digits of other scripts, which [isdigit] and [int] accept as
    well, lie beyond U+00FF and so outside the strings modelled here. *)
Definition int_of_str (s : string) : result Z :=
  if negb (String.eqb s "") && all_chars is_decimal s then
    if (Z.of_nat (String.length s) <=? max_str_digits)%Z
    then Ok (decimal_value 0 s)
    else Raise (ValueError "Exceeds the limit (4300 digits) for integer string conversion")
  else Raise (ValueError "invalid literal for int() with base 10").

(** *** Sequences *)

(** A slice bound resolved against the length [n]: [None] is the default, a
    negative bound counts from the end, and bounds are clamped to [0..n]. *)
Definition clamp (n : Z) (i : option Z) (default : Z) : Z :=
  match i with
  | None => default
  | Some i => if (i <? 0)%Z then Z.max 0 (n + i) else Z.min i n
  end.

(** [l[start:stop]]. *)
Definition py_slice {A : Type} (start stop : option Z) (l : list A) : list A :=
  let n := Z.of_nat (length l) in
  let a := clamp n start 0 in
  let b := clamp n stop n in
  firstn (Z.to_nat (b - a)) (skipn (Z.to_nat a) l).

(** [v[start:stop]] on an arbitrary object. *)
Definition slice_value (v : value) (start stop : option Z) : result value :=
  match v with
  | VList l => Ok (VList (py_slice start stop l))
  | VStr s =>
      Ok (VStr (string_of_list_ascii (py_slice start stop (list_ascii_of_string s))))
  | _ => Raise TypeError
  end.

(** [m[k]] for a dict [m] and an arbitrary key: lists and dicts cannot be
    hashed, and no other key than a string is present. *)
Definition mapping_item (m : dict) (k : value) : result value :=
  match k with
  | VStr s => dict_item m s
  | VList _ | VDict _ => Raise TypeError
  | _ => Raise (KeyError k)
  end.

(** [v[0]] and [v[-1]]. *)
Definition index_first (v : value) : result value :=
  match v with
  | VList (x :: _) => Ok x
  | VStr (String c _) => Ok (VStr (String c ""))
  | VList [] | VStr EmptyString => Raise IndexError
  | VDict _ => Raise (KeyError (VInt 0))
  | _ => Raise TypeError
  end.

Definition index_last (v : value) : result value :=
  match v with
  | VList l =>
      match rev l with x :: _ => Ok x | [] => Raise IndexError end
  | VStr s =>
      match rev (list_ascii_of_string s) with
      | c :: _ => Ok (VStr (String c ""))
      | [] => Raise IndexError
      end
  | VDict _ => Raise (KeyError (VInt (-1)))
  | _ => Raise TypeError
  end.

(** [x in l] for a list [l]. *)
Definition py_in (x : value) (l : list value) : bool := existsb (py_eq x) l.

(** A list comprehension or loop whose body may raise. *)
Fixpoint map_result {A B : Type} (f : A -> result B) (l : list A) : result (list B) :=
  match l with
  | [] => Ok []
  | x :: l' => (y <- f x ;; ys <- map_result f l' ;; Ok (y :: ys))%result
  end.

(** An [Optional[int]] as an object. *)
Definition of_optint (o : option Z) : value :=
  match o with Some n => VInt n | None => VNone end.

(** [v.get(k)] and [v.get(k, default)] on an arbitrary object. *)
Definition get (v : value) (k : string) : result value :=
  (d <- as_dict v ;; Ok (dict_get d k))%result.

Definition get_default (v : value) (k : string) (default : value) : result value :=
  (d <- as_dict v ;; Ok (dict_get_default d k default))%result.



(** [all(x.isdigit() for x in l)]: stops at the first element that is not
    made of digits; only a string has [isdigit]. *)
Fixpoint all_isdigit (l : list value) : result bool :=
  match l with
  | [] => Ok true
  | VStr s :: l' => if isdigit s then all_isdigit l' else Ok false
  | _ :: _ => Raise AttributeError
  end.

End Py.

(** ** DecodersHex.py *)

Module DecodersHex.
Import Py.
Local Open Scope result_scope.
Local Open Scope N_scope.

(** The text that [bytes.decode] produces may hold any code point, so here a
    decoded [str] is the list of its code points. *)
Definition text : Type := list N.

(** [Py_ISSPACE]: the ASCII white space that [bytes.fromhex] skips. *)
Definition is_space (c : ascii) : bool :=
  let n := N_of_ascii c in (9 <=? n) && (n <=? 13) || (n =? 32).

Definition hex_digit_value (c : ascii) : option N :=
  let n := N_of_ascii c in
  if (48 <=? n) && (n <=? 57) then Some (n - 48)
  else if (97 <=? n) && (n <=? 102) then Some (n - 87)
  else if (65 <=? n) && (n <=? 70) then Some (n - 55)
  else None.

Definition byte_of_nibbles (hi lo : N) : byte :=
  byte_of_ascii (ascii_of_N (16 * hi + lo)).

Definition non_hex : exn :=
  ValueError "non-hexadecimal number found in fromhex() arg".

(** [bytes.fromhex(s)]: white space is skipped between bytes, each byte is two
    hexadecimal digits of either case, anything else is a [ValueError]. *)
Fixpoint fromhex (s : string) : result (list byte) :=
  match s with
  | EmptyString => Ok []
  | String c s' =>
      if is_space c then fromhex s'
      else
        match hex_digit_value c, s' with
        | Some hi, String c' s'' =>
            match hex_digit_value c' with
            | Some lo => bs <- fromhex s'' ;; Ok (byte_of_nibbles hi lo :: bs)
            | None => Raise non_hex
            end
        | _, _ => Raise non_hex
        end
  end.

(** [bytes.fromhex] applied to an arbitrary object: the argument must be a
    [str]. *)
Definition bytes_fromhex (v : value) : result (list byte) :=
  match v with
  | VStr s => fromhex s
  | _ => Raise TypeError
  end.

Definition hex_char (n : N) : ascii :=
  if n <? 10 then ascii_of_N (48 + n) else ascii_of_N (87 + n).

(** [b.hex()]: two lower-case hexadecimal digits per byte. *)
Fixpoint bytes_hex (bs : list byte) : string :=
  match bs with
  | [] => EmptyString
  | b :: bs' =>
      let n := Byte.to_N b in
      String (hex_char (n / 16)) (String (hex_char (n mod 16)) (bytes_hex bs'))
  end.

(** A continuation byte [10xxxxxx]. *)
Definition is_cont (n : N) : bool := (128 <=? n) && (n <=? 191).

Definition between (lo n hi : N) : bool := (lo <=? n) && (n <=? hi).

(** The range of the second byte after the lead byte [n0] of a three- or
    four-byte sequence: it excludes over-long forms, surrogates and code points
    above U+10FFFF. *)
Definition second_byte_ok (n0 n1 : N) : bool :=
  if n0 =? 224 then between 160 n1 191
  else if n0 =? 237 then between 128 n1 159
  else if n0 =? 240 then between 144 n1 191
  else if n0 =? 244 then between 128 n1 143
  else is_cont n1.

(** The [utf-8] codec with [errors='strict']. *)
Fixpoint utf8_decode (bs : list byte) : result text :=
  match bs with
  | [] => Ok []
  | b0 :: r0 =>
      let n0 := Byte.to_N b0 in
      if n0 <? 128 then
        t <- utf8_decode r0 ;; Ok (n0 :: t)
      else if between 194 n0 223 then
        match r0 with
        | b1 :: r1 =>
            let n1 := Byte.to_N b1 in
            if is_cont n1 then
              t <- utf8_decode r1 ;; Ok ((n0 - 192) * 64 + (n1 - 128) :: t)
            else Raise UnicodeDecodeError
        | _ => Raise UnicodeDecodeError
        end
      else if between 224 n0 239 then
        match r0 with
        | b1 :: b2 :: r2 =>
            let n1 := Byte.to_N b1 in
            let n2 := Byte.to_N b2 in
            if second_byte_ok n0 n1 && is_cont n2 then
              t <- utf8_decode r2 ;;
              Ok ((n0 - 224) * 4096 + (n1 - 128) * 64 + (n2 - 128) :: t)
            else Raise UnicodeDecodeError
        | _ => Raise UnicodeDecodeError
        end
      else if between 240 n0 244 then
        match r0 with
        | b1 :: b2 :: b3 :: r3 =>
            let n1 := Byte.to_N b1 in
            let n2 := Byte.to_N b2 in
            let n3 := Byte.to_N b3 in
            if second_byte_ok n0 n1 && is_cont n2 && is_cont n3 then
              t <- utf8_decode r3 ;;
              Ok ((n0 - 240) * 262144 + (n1 - 128) * 4096
                  + (n2 - 128) * 64 + (n3 - 128) :: t)
            else Raise UnicodeDecodeError
        | _ => Raise UnicodeDecodeError
        end
      else Raise UnicodeDecodeError
  end.

(** The dictionary built by the command. *)
Record result_dict : Type := {
  Decoded : text;
  Encoded : value;
  Encoder : string;
  Decoded_To : value
}.

(** [CommandResults(outputs_prefix=..., outputs_key_field=..., outputs=...)]. *)
Record CommandResults : Type := {
  outputs_prefix : string;
  outputs_key_field : string;
  outputs : result_dict
}.

Section Script.

(** The codecs other than [utf-8], by the name given to [decode]. *)
Variable other_codec : string -> list byte -> result text.

(** [b.decode(encoding)]: the encoding must be a [str]. *)
Definition bytes_decode (b : list byte) (encoding : value) : result text :=
  match encoding with
  | VStr name =>
      if String.eqb name "utf-8" then utf8_decode b else other_codec name b
  | _ => Raise TypeError
  end.

(** [decoders_hex(encoded_text, to='utf-8')]; [to = None] below means that the
    caller left the argument out. *)
Definition decoders_hex (encoded_text : value) (to : option value) : result text :=
  let to := match to with Some t => t | None => VStr "utf-8" end in
  b <- bytes_fromhex encoded_text ;;
  decode <- bytes_decode b to ;;
  Ok decode.

Definition decoders_hex_command (args : dict) : result CommandResults :=
  let encoded_text := dict_get_default args "encoded" VNone in
  let decode_to := dict_get_default args "to" VNone in
  if negb (truthy encoded_text) then
    Raise (ValueError "Encoded text not specified")
  else
    result <- decoders_hex encoded_text (Some decode_to) ;;
    let result_dict :=
      {| Decoded := result; Encoded := encoded_text;
         Encoder := "HEX"; Decoded_To := decode_to |} in
    Ok {| outputs_prefix := "Decoders";
          outputs_key_field := "";
          outputs := result_dict |}.

End Script.

End DecodersHex.

(** ** SymantecDLPV2.py *)

Module SymantecDLPV2.
Import Py.
Local Open Scope result_scope.

(** *** Constants *)

Definition DATE_FORMAT : string := "%Y-%m-%dT%H:%M:%SZ".
Definition MAX_PAGE_SIZE : Z := 50.

Definition INCIDENT_TYPE_MAPPING : dict :=
  dict_of [("Network", VStr "NETWORK");
           ("Discover", VStr "DISCOVER");
           ("Endpoint", VStr "ENDPOINT")].

Definition INCIDENT_SEVERITY_MAPPING : dict :=
  dict_of [("Info", VInt 4); ("Low", VInt 3); ("Medium", VInt 2); ("High", VInt 1)].


Definition name_entry (n : string) : value := VDict (dict_of [("name", VStr n)]).

Definition INCIDENTS_LIST_BODY : value :=
  VList (map name_entry
           ["incidentId"; "incidentStatusId"; "creationDate"; "detectionDate";
            "severityId"; "messageSource"; "messageTypeId"; "policyVersion";
            "policyId"; "matchCount"; "detectionServerId"]).

(** *** The host platform

    The integration runs against the vendor's server, reached through
    [BaseClient._http_request], and uses helpers of [CommonServerPython],
    [dateparser] and [json].  They are not part of the integration and are
    taken as an interface: the server is an arbitrary state machine over a
    state [W]. *)

Record http_call : Type := {
  method : string;
  url_suffix : string;
  json_data : option value;
  headers : value
}.

Class Platform (W : Type) : Type := {
  (** [BaseClient._http_request]: the parsed response or an exception, and
      the server's next state. *)
  http_request : http_call -> W -> result value * W;
  (** [dateparser.parse(s).strftime(fmt)], which may read the clock. *)
  dateparser_strftime : value -> string -> W -> result value;
  (** [arg_to_number(arg)]: an integer or [None]. *)
  arg_to_number : value -> result (option Z);
  (** [argToList(arg, separator)]. *)
  argToList : value -> string -> list value;
  (** [assign_params] applied to the keyword arguments given as a dict. *)
  assign_params : dict -> dict;
  (** [json.dumps(obj)]. *)
  json_dumps : value -> result string;
  (** [str(obj)], as used by formatted string literals. *)
  format_value : value -> string;
  (** [tableToMarkdown(title, rows, removeNull=True)]. *)
  tableToMarkdown : string -> value -> result string;
  (** [remove_empty_elements(obj)]. *)
  remove_empty_elements : value -> value
}.

(** [class Client(BaseClient)]: the only attribute the requests read. *)
Record Client : Type := { _headers : value }.

(** The records handed to [demisto.incidents]. *)
Record incident : Type := {
  rawJSON : string;
  name : string;
  occurred : value
}.

Record CommandResults : Type := {
  readable_output : string;
  outputs_prefix : string;
  outputs_key_field : string;
  outputs : value
}.

Section Integration.

Context {W : Type} {P : Platform W}.

(** The state a command runs in: the server, the value kept by
    [demisto.setLastRun], and the requests issued so far (most recent last),
    which no code reads back. *)
Record host : Type := {
  server : W;
  last_run_store : dict;
  sent : list http_call
}.

(** Computations that read and change the host state and may raise; the
    state reached when an exception is raised is kept, since a handler goes
    on from it. *)
Definition M (A : Type) : Type := host -> result A * host.

Definition ret {A : Type} (a : A) : M A := fun h => (Ok a, h).

Definition raise {A : Type} (e : exn) : M A := fun h => (Raise e, h).

Definition bind {A B : Type} (m : M A) (k : A -> M B) : M B :=
  fun h =>
    match m h with
    | (Ok a, h') => k a h'
    | (Raise e, h') => (Raise e, h')
    end.

Definition lift {A : Type} (r : result A) : M A := fun h => (r, h).

(** [try: body / except DemistoException as e: handler(str(e))]. *)
Definition try_except_DemistoException {A : Type}
    (body : M A) (handler : string -> M A) : M A :=
  fun h =>
    match body h with
    | (Raise (DemistoException message), h') => handler message h'
    | other => other
    end.

Declare Scope host_scope.
Delimit Scope host_scope with host.
Notation "x <~ m ;; k" := (bind m (fun x => k))
  (at level 61, m at next level, right associativity) : host_scope.
Local Open Scope host_scope.

(** [self._http_request(...)]. *)
Definition _http_request (call : http_call) : M value :=
  fun h =>
    let (r, w) := http_request call (server h) in
    (r, {| server := w; last_run_store := last_run_store h;
           sent := sent h ++ [call] |}).

(** [demisto.setLastRun(obj)]. *)
Definition setLastRun (obj : dict) : M unit :=
  fun h =>
    (Ok tt, {| server := server h; last_run_store := obj; sent := sent h |}).

(** A loop whose body may raise and change the state. *)
Fixpoint for_each {A B : Type} (f : A -> M B) (l : list A) : M (list B) :=
  match l with
  | [] => ret []
  | x :: l' => y <~ f x ;; ys <~ for_each f l' ;; ret (y :: ys)
  end.

(** *** Client class *)

Definition create_filter_dict
    (filter_type filter_by : string) (filter_value : value) (operator : string) : dict :=
  dict_of [("filterType", VStr filter_type);
           ("operandOne", VDict (dict_of [("name", VStr filter_by)]));
           ("operandTwoValues", filter_value);
           ("operator", VStr operator)].

(** The body that [get_incidents_request] posts. *)
Definition incidents_request_data
    (creation_date status_id severity incident_type limit order_by : value) : dict :=
  let data := dict_of [("limit", limit); ("select", INCIDENTS_LIST_BODY)] in
  let data :=
    if truthy order_by then
      dict_set data "orderBy"
        (VList [VDict (dict_of [("order", VStr "ASC");
                                ("field", VDict (dict_of [("name", VStr "creationDate")]))])])
    else data in
  if truthy creation_date || truthy status_id || truthy severity || truthy incident_type then
    let filters :=
      (if truthy creation_date then
         [VDict (create_filter_dict "localDateTime" "creationDate"
                   (VList [creation_date]) "GT")]
       else [])
      ++ (if truthy status_id then
            [VDict (create_filter_dict "long" "incidentStatusId" status_id "IN")]
          else [])
      ++ (if truthy severity then
            [VDict (create_filter_dict "long" "severityId" severity "IN")]
          else [])
      ++ (if truthy incident_type then
            [VDict (create_filter_dict "string" "messageSource" incident_type "IN")]
          else []) in
    dict_set data "filter"
      (VDict (dict_of [("booleanOperator", VStr "AND");
                       ("filterType", VStr "booleanLogic");
                       ("filters", VList filters)]))
  else data.

Definition get_incidents_request (self : Client)
    (creation_date status_id severity incident_type limit order_by : value) : M value :=
  let data :=
    incidents_request_data creation_date status_id severity incident_type limit order_by in
  let headers := _headers self in
  response <~ _http_request
    {| method := "POST";
       url_suffix := "/ProtectManager/webservices/v2/incidents";
       json_data := Some (VDict data);
       headers := headers |} ;;
  ret response.

Definition get_incident_static_attributes_request (self : Client) (incident_id : value)
  : M value :=
  let headers := _headers self in
  response <~ _http_request
    {| method := "GET";
       url_suffix := "/ProtectManager/webservices/v2/incidents/"
                     ++ format_value incident_id ++ "/staticAttributes";
       json_data := None;
       headers := headers |} ;;
  ret response.

Definition get_incident_editable_attributes_request (self : Client) (incident_id : value)
  : M value :=
  let headers := _headers self in
  response <~ _http_request
    {| method := "GET";
       url_suffix := "/ProtectManager/webservices/v2/incidents/"
                     ++ format_value incident_id ++ "/editableAttributes";
       json_data := None;
       headers := headers |} ;;
  ret response.

Definition get_incident_history_request (self : Client) (incident_id : option Z)
  : M value :=
  let headers := _headers self in
  response <~ _http_request
    {| method := "GET";
       url_suffix := "/ProtectManager/webservices/v2/incidents/"
                     ++ format_value (of_optint incident_id) ++ "/history";
       json_data := None;
       headers := headers |} ;;
  ret response.

(** *** Helper functions *)

Definition get_severity_name_by_id (severity : value) : value :=
  match find (fun kv => py_eq (snd kv) severity) INCIDENT_SEVERITY_MAPPING with
  | Some (severity_name, _) => VStr severity_name
  | None => VNone
  end.

Definition parse_creation_date (creation_date : value) : M value :=
  if truthy creation_date then
    fun h => (dateparser_strftime creation_date DATE_FORMAT (server h), h)
  else ret creation_date.

(** [limit], [page] and [page_size] come from [arg_to_number]: an integer or
    [None]. *)
Definition get_incidents_of_current_page {A : Type}
    (limit page page_size : option Z) (incidents_list : list A) : result (list A) :=
  match page, page_size with
  | Some page, Some page_size =>
      if (page <=? 0)%Z then
        Raise (PyException "Chosen page number must be greater than 0")
      else
        let start := ((page - 1) * page_size)%Z in
        let end_ := (page * page_size)%Z in
        Ok (py_slice (Some start) (Some end_) incidents_list)
  | _, _ =>
      let limit :=
        match limit with
        | Some l => if (l =? 0)%Z then MAX_PAGE_SIZE else l
        | None => MAX_PAGE_SIZE
        end in
      Ok (py_slice (Some 0%Z) (Some limit) incidents_list)
  end.

Definition custom_attribute_of (raw_custom_attribute : value) : result value :=
  n <- get raw_custom_attribute "name" ;;
  index <- get raw_custom_attribute "index" ;;
  custom_attribute_value <- get raw_custom_attribute "value" ;;
  let custom_attribute := dict_of [("name", n); ("index", index)] in
  Ok (VDict (if truthy custom_attribute_value
             then dict_set custom_attribute "value" custom_attribute_value
             else custom_attribute)).

Definition get_all_group_custom_attributes (group : value) : result value :=
  n <- get group "name" ;;
  raw <- get_default group "customAttributes" (VList []) ;;
  raws <- iterate raw ;;
  custom_attributes <- map_result custom_attribute_of raws ;;
  Ok (VDict (dict_of [("name", n); ("customAttribute", VList custom_attributes)])).

Definition specific_attribute_of
    (group : value) (custom_attribute_name_list : list value)
    (raw_custom_attribute : value) : result (list value) :=
  custom_attribute_name <- get raw_custom_attribute "name" ;;
  if py_in custom_attribute_name custom_attribute_name_list then
    let custom_attribute := dict_of [("name", custom_attribute_name)] in
    custom_attribute_value <- get raw_custom_attribute "value" ;;
    let custom_attribute :=
      if truthy custom_attribute_value
      then dict_set custom_attribute "value" custom_attribute_value
      else custom_attribute in
    index <- get raw_custom_attribute "index" ;;
    let custom_attribute := dict_set custom_attribute "index" index in
    group_name <- get group "name" ;;
    Ok [VDict (dict_of [("name", group_name);
                        ("customAttribute", VDict custom_attribute)])]
  else Ok [].

Definition parse_custom_attribute
    (custom_attribute_group_list : value) (args : dict) : result (list value) :=
  let custom_attributes_flag := dict_get args "custom_attributes" in
  if py_eq custom_attributes_flag (VStr "all") then
    groups <- iterate custom_attribute_group_list ;;
    map_result get_all_group_custom_attributes groups
  else if py_eq custom_attributes_flag (VStr "custom attribute group name") then
    let custom_data := dict_get args "custom_data" in
    if negb (truthy custom_data) then
      Raise (DemistoException
               ("When choosing the group value for custom_attributes argument - the custom_data"
                ++ " list must be filled with group names. For example: custom_value=g1,g2,g3"))
    else
      let group_name_list := argToList custom_data "," in
      groups <- iterate custom_attribute_group_list ;;
      chosen <- map_result
        (fun group =>
           n <- get group "name" ;;
           if py_in n group_name_list then
             g <- get_all_group_custom_attributes group ;; Ok [g]
           else Ok [])
        groups ;;
      Ok (concat chosen)
  else if py_eq custom_attributes_flag (VStr "specific attributes") then
    let custom_data := dict_get args "custom_data" in
    if negb (truthy custom_data) then
      Raise (DemistoException
               ("When choosing the custom value for custom_attributes argument - the custom_data"
                ++ " list must be filled with custom attribute names."
                ++ " For example: custom_value=ca1,ca2,ca3"))
    else
      let custom_attribute_name_list := argToList custom_data "," in
      groups <- iterate custom_attribute_group_list ;;
      chosen <- map_result
        (fun group =>
           raw <- get_default group "customAttributes" (VList []) ;;
           raws <- iterate raw ;;
           found <- map_result
             (specific_attribute_of group custom_attribute_name_list) raws ;;
           Ok (concat found))
        groups ;;
      Ok (concat chosen)
  else Ok [].

Definition get_details_for_specific_type
    (incident_type : value) (incident_info_map_static : dict) : result dict :=
  let info := dict_get incident_info_map_static in
  if py_eq incident_type (VStr "NETWORK") then
    recipient <- index_first (info "recipientInfo") ;;
    recipientDomain <- get recipient "recipientDomain" ;;
    recipientPort <- get recipient "recipientPort" ;;
    recipientUrl <- get recipient "recipientUrl" ;;
    Ok (assign_params (dict_of
      [("messageSubject", info "messageSubject");
       ("networkSenderPort", info "networkSenderPort");
       ("recipientInfo", VDict (dict_of [("recipientDomain", recipientDomain);
                                         ("recipientPort", recipientPort);
                                         ("recipientUrl", recipientUrl)]))]))
  else if py_eq incident_type (VStr "DISCOVER") then
    Ok (assign_params (dict_of
      [("discoverName", info "discoverName");
       ("discoverRepositoryLocation", info "discoverRepositoryLocation");
       ("fileModifiedBy", info "fileModifiedBy");
       ("fileCreatedBy", info "fileCreatedBy");
       ("fileOwner", info "fileOwner");
       ("fileOwnerEmail", info "fileOwnerEmail");
       ("fileAccessDate", info "fileAccessDate");
       ("discoverServer", info "discoverServer");
       ("discoverTargetName", info "discoverTargetName");
       ("discoverScanStartDate", info "discoverScanStartDate")]))
  else if py_eq incident_type (VStr "ENDPOINT") then
    Ok (assign_params (dict_of
      [("domainUserName", info "domainUserName");
       ("endpointApplicationName", info "endpointApplicationName");
       ("endpointDeviceInstanceId", info "endpointDeviceInstanceId");
       ("endpointMachineName", info "endpointMachineName");
       ("endpointFileName", info "endpointFileName");
       ("endpointFilePath", info "endpointFilePath");
       ("fileCreatedBy", info "fileCreatedBy");
       ("fileModifiedBy", info "fileModifiedBy");
       ("endpointApplicationPath", info "endpointApplicationPath");
       ("endpointConnectionStatus", info "endpointConnectionStatus");
       ("fileAccessDate", info "fileAccessDate")]))
  else Ok [].

Definition get_common_incident_details
    (static_attributes editable_attributes : value) (args : dict)
    (incident_type : value) (isfetch : bool) : result dict :=
  incident_info_map_editable <- get_default editable_attributes "infoMap" (VDict []) ;;
  incident_info_map_static <- get_default static_attributes "infoMap" (VDict []) ;;
  incident_custom_attribute_groups <-
    get_default editable_attributes "customAttributeGroups" (VList []) ;;
  ID <- get static_attributes "incidentId" ;;
  static <- as_dict incident_info_map_static ;;
  editable <- as_dict incident_info_map_editable ;;
  severityId <- arg_to_number (dict_get editable "severityId") ;;
  customAttributeGroup <- parse_custom_attribute incident_custom_attribute_groups args ;;
  let incident_details := assign_params (dict_of
    [("ID", ID);
     ("creationDate", dict_get static "creationDate");
     ("policyId", dict_get static "policyId");
     ("severity", get_severity_name_by_id (of_optint severityId));
     ("incidentStatusId", dict_get editable "incidentStatusId");
     ("detectionDate", dict_get static "detectionDate");
     ("senderIPAddress", dict_get static "senderIPAddress");
     ("endpointMachineIpAddress", dict_get static "endpointMachineIpAddress");
     ("policyName", dict_get static "policyName");
     ("dataOwnerEmail", dict_get editable "dataOwnerEmail");
     ("dataOwnerName", dict_get editable "dataOwnerName");
     ("policyVersion", dict_get static "policyVersion");
     ("messageSource", dict_get static "messageSource");
     ("messageType", dict_get static "messageType");
     ("detectionServerName", dict_get static "detectionServerName");
     ("policyGroupName", dict_get static "policyGroupName");
     ("matchCount", dict_get static "matchCount");
     ("preventOrProtectStatusId", dict_get editable "preventOrProtectStatusId");
     ("customAttributeGroup", VList customAttributeGroup)]) in
  incident_details <-
    (if isfetch then
       incident_additional_details <-
         get_details_for_specific_type incident_type static ;;
       Ok (dict_update incident_details incident_additional_details)
     else Ok incident_details) ;;
  Ok (assign_params incident_details).

Definition partial_data_notice : string := "Notice: Incident contains partial data only".

Definition get_details_unauthorized_incident (incident_data : value) : result dict :=
  data <- as_dict incident_data ;;
  severityId <- arg_to_number (dict_get data "severityId") ;;
  let incident_details := assign_params (dict_of
    [("ID", dict_get data "incidentId");
     ("creationDate", dict_get data "creationDate");
     ("policyId", dict_get data "policyId");
     ("severity", get_severity_name_by_id (of_optint severityId));
     ("incidentStatusId", dict_get data "incidentStatusId");
     ("detectionDate", dict_get data "detectionDate");
     ("policyVersion", dict_get data "policyVersion");
     ("messageSource", dict_get data "messageSource");
     ("messageType", dict_get data "messageType");
     ("matchCount", dict_get data "matchCount");
     ("errorMessage", VStr partial_data_notice)]) in
  Ok (dict_filter_truthy incident_details).

Definition get_readable_output_incident_history (incident_history_list : value)
  : result (list value) :=
  entries <- iterate incident_history_list ;;
  map_result
    (fun incident_history =>
       h <- as_dict incident_history ;;
       Ok (VDict (assign_params (dict_of
         [("History Date", dict_get h "incidentHistoryDate");
          ("Incident History Action", dict_get h "incidentHistoryAction");
          ("DLP User Name", dict_get h "dlpUserName")]))))
    entries.

(** [x.pop(k)] with a string [k] on an arbitrary object: a dict pops the key,
    a list refuses a string index, the other values have no [pop]. *)
Definition pop (v : value) (k : string) : result value :=
  match v with
  | VDict d => r <- dict_pop d k ;; Ok (VDict (snd r))
  | VList _ => Raise TypeError
  | _ => Raise AttributeError
  end.

Definition history_keys : list string :=
  ["incidentId"; "incidentHistoryActionI18nKey"; "internationalized"].

Definition pop_history_keys (incident_history : value) : result value :=
  h <- pop incident_history "incidentId" ;;
  h <- pop h "incidentHistoryActionI18nKey" ;;
  pop h "internationalized".

Definition get_context_incident_history (incident_history_list : value)
  : result (list value) :=
  first <- index_first incident_history_list ;;
  first_id <- get first "incidentId" ;;
  incident_id <- arg_to_number first_id ;;
  entries <- iterate incident_history_list ;;
  entries <- map_result pop_history_keys entries ;;
  Ok [VDict (dict_of [("ID", of_optint incident_id);
                      ("incidentHistory", VList entries)])].

Definition custom_attribute_update (attribute : string) : result value :=
  let splitted_att := split ":" attribute in
  if negb (Nat.eqb (length splitted_att) 2) then
    Raise (DemistoException
             "Error: custom_attributes argument format is {columnIndex}:{newValue}. E.g: 1:test")
  else
    let attribute_index := nth 0 splitted_att "" in
    if negb (isdigit attribute_index) then
      Raise (DemistoException "Error: The attribute index must be an integer.")
    else
      let attribute_value := nth 1 splitted_att "" in
      columnIndex <- int_of_str attribute_index ;;
      Ok (VDict (dict_of [("columnIndex", VInt columnIndex);
                          ("value", VStr attribute_value)])).

Definition build_custom_attributes_update (custom_attributes : list string)
  : result (list value) :=
  map_result custom_attribute_update custom_attributes.

Definition get_incident_details_fetch (client : Client) (incident : value) : M dict :=
  try_except_DemistoException
    (incident_id <~ lift (get incident "incidentId") ;;
     incident_type <~ lift (get_default incident "messageSource" (VStr "")) ;;
     static_attributes <~ get_incident_static_attributes_request client incident_id ;;
     editable_attributes <~ get_incident_editable_attributes_request client incident_id ;;
     lift (get_common_incident_details static_attributes editable_attributes
             (dict_of [("custom_attributes", VStr "all")]) incident_type true))
    (fun message =>
       if contains "401" message then lift (get_details_unauthorized_incident incident)
       else raise (DemistoException message)).

(** *** Command functions *)

Definition is_incident_already_fetched_in_previous_fetch
    (last_update_time incident_creation_date : value) : result value :=
  if truthy last_update_time then
    b <- py_ge last_update_time incident_creation_date ;; Ok (VBool b)
  else Ok last_update_time.

(** [[MAPPING[x] for x in xs]]. *)
Definition map_through (mapping : dict) (xs : value) : result value :=
  items <- iterate xs ;;
  mapped <- map_result (mapping_item mapping) items ;;
  Ok (VList mapped).

(** The body of the loop over [incidents_data_list]: [items] are the elements
    still to visit, [incidents] and [last_update_time] the variables the loop
    updates. *)
Fixpoint fetch_loop (client : Client) (incidents_data_list : value)
    (items : list value) (incidents : list incident) (last_update_time : value)
  : M (list incident * value) :=
  match items with
  | [] => ret (incidents, last_update_time)
  | incident_data :: items' =>
      incident_id <~ lift (get incident_data "incidentId") ;;
      incident_creation_time <~ lift (get incident_data "creationDate") ;;
      fetched <~ lift (is_incident_already_fetched_in_previous_fetch
                         last_update_time incident_creation_time) ;;
      if truthy fetched then
        fetch_loop client incidents_data_list items' incidents last_update_time
      else
        incident_details <~ get_incident_details_fetch client incident_data ;;
        raw <~ lift (json_dumps (VDict incident_details)) ;;
        occurred_at <~ parse_creation_date incident_creation_time ;;
        let incident :=
          {| rawJSON := raw;
             name := "Symantec DLP Incident ID " ++ format_value incident_id;
             occurred := occurred_at |} in
        let incidents := incidents ++ [incident] in
        last <~ lift (index_last incidents_data_list) ;;
        last_creation <~ lift (get last "creationDate") ;;
        let last_update_time :=
          if py_eq incident_creation_time last_creation
          then incident_creation_time else last_update_time in
        fetch_loop client incidents_data_list items' incidents last_update_time
  end.

(** [sorted(incidents, key=lambda d: d['name'])]: a stable sort on the name. *)
Fixpoint insert_by_name (x : incident) (l : list incident) : list incident :=
  match l with
  | [] => [x]
  | y :: l' =>
      if String.leb (name x) (name y) then x :: y :: l'
      else y :: insert_by_name x l'
  end.

Definition sorted_by_name (l : list incident) : list incident :=
  fold_right insert_by_name [] l.

Definition last_run_key : string := "last_incident_creation_time".

(** The watermark a run starts from. *)
Definition first_update_time (fetch_time : value) (last_run : dict) : M value :=
  if truthy (VDict last_run) then ret (dict_get last_run last_run_key)
  else parse_creation_date fetch_time.

(** Returns [None] when [is_test] is set. *)
Definition fetch_incidents (client : Client) (fetch_time fetch_limit : value)
    (last_run : dict) (incident_types incident_status_id incident_severities : value)
    (is_test : bool) : M (option (list incident)) :=
  incident_severities <~
    (if truthy incident_severities
     then lift (map_through INCIDENT_SEVERITY_MAPPING incident_severities)
     else ret incident_severities) ;;
  incident_types <~
    (if truthy incident_types
     then lift (map_through INCIDENT_TYPE_MAPPING incident_types)
     else ret incident_types) ;;
  last_update_time <~ first_update_time fetch_time last_run ;;
  incidents_data_res <~
    get_incidents_request client last_update_time incident_status_id
      incident_severities incident_types fetch_limit (VBool true) ;;
  incidents_data_list <~ lift (get_default incidents_data_res "incidents" (VList [])) ;;
  items <~ lift (iterate incidents_data_list) ;;
  looped <~ fetch_loop client incidents_data_list items [] last_update_time ;;
  let incidents := fst looped in
  let last_update_time := snd looped in
  if is_test then ret None
  else
    _ <~ setLastRun (dict_of [(last_run_key, last_update_time)]) ;;
    let sorted_incidents := sorted_by_name incidents in
    ret (Some sorted_incidents).

Definition authorization_error : string :=
  "Authorization Error: make sure username and password are correctly set".

(** The statements guarded by [try] in [test_module]. *)
Definition test_module_request (client : Client) (params : dict)
    (fetch_time fetch_limit incident_type incident_status_id incident_severity : value)
  : M string :=
  _ <~ (if truthy (dict_get params "isFetch") then
          _ <~ fetch_incidents client fetch_time fetch_limit []
                 incident_type incident_status_id incident_severity true ;;
          ret tt
        else
          _ <~ get_incidents_request client VNone VNone VNone VNone
                 (VInt MAX_PAGE_SIZE) VNone ;;
          ret tt) ;;
  ret "ok".

Definition test_module (client : Client) (params : dict)
    (fetch_time fetch_limit incident_type incident_status_id incident_severity : value)
  : M string :=
  try_except_DemistoException
    (test_module_request client params fetch_time fetch_limit
       incident_type incident_status_id incident_severity)
    (fun message =>
       if contains "Forbidden" message || contains "Unauthorized" message
       then ret authorization_error
       else raise (DemistoException message)).

Definition get_incident_history_command (client : Client) (args : dict)
  : M CommandResults :=
  incident_id <~ lift (arg_to_number (dict_get args "incident_id")) ;;
  limit <~ lift (arg_to_number (dict_get_default args "limit" (VInt 50))) ;;
  incident_history_result <~ get_incident_history_request client incident_id ;;
  incident_history_result <~ lift (slice_value incident_history_result None limit) ;;
  incidents_history_hr <~
    lift (get_readable_output_incident_history incident_history_result) ;;
  incidents_history_context <~
    lift (get_context_incident_history incident_history_result) ;;
  table <~ lift (tableToMarkdown
                   ("Symantec DLP Incident " ++ format_value (of_optint incident_id)
                    ++ " history results")
                   (VList incidents_history_hr)) ;;
  ret {| readable_output := table;
         outputs_prefix := "SymantecDLP.IncidentHistory";
         outputs_key_field := "incidentId";
         outputs := remove_empty_elements (VList incidents_history_context) |}.

(** *** Further requests, helpers and commands *)


Definition check_status_ids_type (status_ids_list : list value) : result (list value) :=
  digits <- all_isdigit status_ids_list ;;
  if negb digits then Raise (ValueError "Status IDs must be integers.")
  else Ok status_ids_list.



(** One turn of the loop of [get_context_incidents_list]: the incident after
    the two [pop]s and the two [update]s. *)
Definition context_incident (incident : value) : result value :=
  d <- as_dict incident ;;
  let incident_id := dict_of [("ID", dict_get d "incidentId")] in
  severityId <- arg_to_number (dict_get d "severityId") ;;
  let incident_severity :=
    dict_of [("severity", get_severity_name_by_id (of_optint severityId))] in
  popped <- dict_pop d "severityId" ;;
  popped <- dict_pop (snd popped) "incidentId" ;;
  Ok (VDict (dict_update (dict_update (snd popped) incident_id) incident_severity)).

(** The incidents are changed in place and the list itself is returned; an
    object that is not a list gets through the loop only when it is empty. *)
Definition get_context_incidents_list (incidents_list : value) : result value :=
  entries <- iterate incidents_list ;;
  changed <- map_result context_incident entries ;;
  match incidents_list with
  | VList _ => Ok (VList changed)
  | _ => Ok incidents_list
  end.

(** [build_custom_attributes_update] on a list whose elements are arbitrary
    objects: only a string has [split]. *)
Definition build_custom_attributes_update_of (custom_attributes : list value)
  : result (list value) :=
  map_result
    (fun attribute =>
       match attribute with
       | VStr s => custom_attribute_update s
       | _ => Raise AttributeError
       end)
    custom_attributes.

Definition create_update_body (incident_ids : value)
    (data_owner_email data_owner_name note incident_status_id
     remediation_status_name remediation_location severity : value)
    (custom_attributes : list value) : result dict :=
  let data := assign_params (dict_of
    [("incidentIds", incident_ids);
     ("dataOwnerEmail", data_owner_email);
     ("dataOwnerName", data_owner_name);
     ("incidentStatusId", incident_status_id);
     ("preventOrProtectStatus", remediation_status_name);
     ("remediationLocation", remediation_location);
     ("severity", severity)]) in
  custom_attributes_list <- build_custom_attributes_update_of custom_attributes ;;
  let data :=
    if truthy (VList custom_attributes_list)
    then dict_set data "incidentCustomAttributes" (VList custom_attributes_list)
    else data in
  let data :=
    if truthy note
    then dict_set data "incidentNotes" (VList [VDict (dict_of [("note", note)])])
    else data in
  Ok data.




End Integration.

End SymantecDLPV2.

(** ** Notions used to state the properties *)

Module Notions.
Import Py.

(** The elements of [l] whose position [i], counted from [first], satisfies
    [a <= i < b]. *)
Fixpoint elements_from {A : Type} (first a b : Z) (l : list A) : list A :=
  match l with
  | [] => []
  | x :: l' =>
      if ((a <=? first) && (first <? b))%Z
      then x :: elements_from (first + 1) a b l'
      else elements_from (first + 1) a b l'
  end.

(** The elements from index [a] up to, and excluding, index [b]. *)
Definition elements_between {A : Type} (a b : Z) (l : list A) : list A :=
  elements_from 0 a b l.

(** Pagination as a statement for bounds of any sign: a page holds the
    elements between its two indices, and without a page the first [limit]
    elements are returned. *)
Definition pagination_as_claimed : Prop :=
  forall (limit : option Z) (page page_size : Z) (l : list Z),
    (1 <= page)%Z ->
    SymantecDLPV2.get_incidents_of_current_page limit (Some page) (Some page_size) l
    = Ok (elements_between ((page - 1) * page_size) (page * page_size) l).

Definition limit_as_claimed : Prop :=
  forall (limit : Z) (page_size : option Z) (l : list Z),
    limit <> 0%Z ->
    SymantecDLPV2.get_incidents_of_current_page (Some limit) None page_size l
    = Ok (elements_between 0 limit l).

(** The two parts of an attribute [{columnIndex}:{newValue}]. *)
Definition index_part (attribute : string) : string := nth 0 (split ":" attribute) "".
Definition value_part (attribute : string) : string := nth 1 (split ":" attribute) "".

(** The attribute splits on [':'] into exactly two parts and the first one
    consists of digits, in the sense of [str.isdigit]. *)
Definition well_formed_attribute (attribute : string) : bool :=
  Nat.eqb (length (split ":" attribute)) 2 && isdigit (index_part attribute).

(** The index is written with the decimal digits 0 to 9 only, and with no
    more of them than [int] converts. *)
Definition decimal_index (attribute : string) : bool :=
  all_chars is_decimal (index_part attribute)
  && (Z.of_nat (String.length (index_part attribute)) <=? max_str_digits)%Z.

(** The record [{"columnIndex": int(index), "value": value}]. *)
Definition attribute_record (attribute : string) : value :=
  VDict (dict_of [("columnIndex", VInt (decimal_value 0 (index_part attribute)));
                  ("value", VStr (value_part attribute))]).

(** SUPERSCRIPT TWO, U+00B2. *)
Definition superscript_two : ascii := ascii_of_nat 178.

(** A history entry is a dict that carries the three keys the context
    builder pops. *)
Definition carries_history_keys (entry : value) : bool :=
  match entry with
  | VDict d =>
      forallb (fun k => match lookup k d with Some _ => true | None => false end)
        SymantecDLPV2.history_keys
  | _ => false
  end.

Definition is_dict (v : value) : bool :=
  match v with VDict _ => true | _ => false end.

(** The history command as a statement about the whole list returned by the
    vendor: it succeeds only if that list is non-empty and every entry carries
    the keys. *)
Definition history_success_as_claimed : Prop :=
  forall (W : Type) (P : SymantecDLPV2.Platform W)
         (client : SymantecDLPV2.Client) (args : dict)
         (h h' : SymantecDLPV2.host) (results : SymantecDLPV2.CommandResults)
         (response : value),
    SymantecDLPV2.get_incident_history_command client args h = (Ok results, h') ->
    fst (SymantecDLPV2.http_request
           {| SymantecDLPV2.method := "GET";
              SymantecDLPV2.url_suffix :=
                "/ProtectManager/webservices/v2/incidents/"
                ++ SymantecDLPV2.format_value
                     (match SymantecDLPV2.arg_to_number (dict_get args "incident_id") with
                      | Ok n => of_optint n
                      | Raise _ => VNone
                      end)
                ++ "/history";
              SymantecDLPV2.json_data := None;
              SymantecDLPV2.headers := SymantecDLPV2._headers client |}
           (SymantecDLPV2.server h)) = Ok response ->
    exists entries,
      response = VList entries /\ entries <> []
      /\ forallb carries_history_keys entries = true.

(** What is assumed of [assign_params] where a property depends on it: a key
    bound to a non-empty string stays bound to it. *)
Definition keeps_strings (assign : dict -> dict) : Prop :=
  forall (kwargs : dict) (k s : string),
    s <> "" -> lookup k kwargs = Some (VStr s) -> lookup k (assign kwargs) = Some (VStr s).

(** The creation timestamp a watermark stands for: the string itself; a
    missing watermark, or one that is not a string, stands for the empty
    timestamp, which precedes every other. *)
Definition timestamp (watermark : value) : string :=
  match watermark with
  | VStr s => s
  | _ => ""
  end.

(** [a <= b] as creation timestamps. *)
Definition timestamp_le (a b : value) : Prop :=
  String.leb (timestamp a) (timestamp b) = true.

(** [l] is [l'] with some elements left out. *)
Inductive subsequence {A : Type} : list A -> list A -> Prop :=
| subsequence_nil : subsequence [] []
| subsequence_skip (x : A) (l l' : list A) :
    subsequence l l' -> subsequence l (x :: l')
| subsequence_take (x : A) (l l' : list A) :
    subsequence l l' -> subsequence (x :: l) (x :: l').

(** [key] bound to [v] when [present], and unbound otherwise. *)
Definition bound_when (present : bool) (v : value) : option value :=
  if present then Some v else None.

(** The string with its ASCII letters [a]-[z] in upper case. *)
Definition ascii_upper_char (c : ascii) : ascii :=
  let n := N_of_ascii c in
  if ((97 <=? n) && (n <=? 122))%N then ascii_of_N (n - 32) else c.

Fixpoint ascii_upper (s : string) : string :=
  match s with
  | EmptyString => EmptyString
  | String c s' => String (ascii_upper_char c) (ascii_upper s')
  end.

(** The number of characters of a string that [bytes.fromhex] does not skip. *)
Fixpoint digit_count (s : string) : nat :=
  match s with
  | EmptyString => 0
  | String c s' =>
      if DecodersHex.is_space c then digit_count s' else S (digit_count s')
  end.

Section OnPlatform.
Import SymantecDLPV2.
Context {W : Type} {P : Platform W}.

(** The record [snd p] was produced for the listed incident [fst p], whose
    creation date is a string strictly after [a]. *)
Definition delivered_after (a : string) (p : value * incident) : Prop :=
  exists incident_id creation_date,
    get (fst p) "incidentId" = Ok incident_id
    /\ get (fst p) "creationDate" = Ok (VStr creation_date)
    /\ String.ltb a creation_date = true
    /\ name (snd p) = ("Symantec DLP Incident ID " ++ format_value incident_id)%string.

(** The request issued by the history command. *)
Definition history_call (client : Client) (incident_id : option Z) : http_call :=
  {| method := "GET";
     url_suffix := "/ProtectManager/webservices/v2/incidents/"
                   ++ format_value (of_optint incident_id) ++ "/history";
     json_data := None;
     headers := _headers client |}.

(** Fetching the static and then the editable attributes of an incident
    raises [e] and leaves the host in [h']. *)
Definition attributes_request_raises
    (client : Client) (incident_id : value) (h : @host W) (e : exn) (h' : @host W) : Prop :=
  get_incident_static_attributes_request client incident_id h = (Raise e, h')
  \/ exists static_attributes h0,
       get_incident_static_attributes_request client incident_id h
       = (Ok static_attributes, h0)
       /\ get_incident_editable_attributes_request client incident_id h0 = (Raise e, h').

(** The request by which [fetch_incidents] lists the incidents. *)
Definition listing_call (client : Client)
    (creation_date status_id severity incident_type limit : value) : http_call :=
  {| method := "POST";
     url_suffix := "/ProtectManager/webservices/v2/incidents";
     json_data :=
       Some (VDict (incidents_request_data creation_date status_id severity
                      incident_type limit (VBool true)));
     headers := _headers client |}.

(** The filter [creationDate > creation_date]. *)
Definition creation_date_filter (creation_date : value) : value :=
  VDict (create_filter_dict "localDateTime" "creationDate" (VList [creation_date]) "GT").

(** The body of the call carries a filter whose first condition is the
    creation-date filter for [creation_date]. *)
Definition filters_on_creation_date (call : http_call) (creation_date : value) : Prop :=
  exists data others,
    json_data call = Some (VDict data)
    /\ lookup "filter" data
       = Some (VDict [("booleanOperator", VStr "AND");
                      ("filterType", VStr "booleanLogic");
                      ("filters", VList (creation_date_filter creation_date :: others))]).

(** The severities and types after their translation by the mappings. *)
Definition translated (mapping : dict) (given translated_to : value) : Prop :=
  if truthy given then map_through mapping given = Ok translated_to
  else translated_to = given.

(** The conditions of the filter in the body of a call: those listed under
    'filters' of its 'filter', none when the body has no filter. *)
Definition conditions_of (call : http_call) : list value :=
  match json_data call with
  | Some (VDict data) =>
      match lookup "filter" data with
      | Some (VDict filter) =>
          match lookup "filters" filter with
          | Some (VList conditions) => conditions
          | _ => []
          end
      | _ => []
      end
  | _ => []
  end.

(** The condition is on the field 'creationDate'. *)
Definition on_creation_date (condition : value) : bool :=
  match get condition "operandOne" with
  | Ok field => py_eq field (name_entry "creationDate")
  | Raise _ => false
  end.

(** The body of the call has no condition on the creation date. *)
Definition no_creation_date_filter (call : http_call) : Prop :=
  forallb (fun condition => negb (on_creation_date condition)) (conditions_of call) = true.

(** [w'] is the value of [last_update_time] with which a run of
    [fetch_incidents] started on [h] leaves its loop: the run starts from
    [w0], lists the incidents created after [w0] on the server of [h], and
    the loop over the incidents of the response ends with the records [out]
    and with [w']. *)
Definition run_ends_with (client : Client) (fetch_time fetch_limit : value)
    (last_run : dict) (incident_types incident_status_id incident_severities : value)
    (h : @host W) (w0 : value) (out : list incident) (w' : value) (h2 : @host W) : Prop :=
  exists severities types response incidents_data_list listed h1,
    translated INCIDENT_SEVERITY_MAPPING incident_severities severities
    /\ translated INCIDENT_TYPE_MAPPING incident_types types
    /\ first_update_time fetch_time last_run h = (Ok w0, h)
    /\ _http_request
         (listing_call client w0 incident_status_id severities types fetch_limit) h
       = (Ok response, h1)
    /\ get_default response "incidents" (VList []) = Ok incidents_data_list
    /\ iterate incidents_data_list = Ok listed
    /\ fetch_loop client incidents_data_list listed [] w0 h1 = (Ok (out, w'), h2).

(** The requests [calls] made in turn to a server in state [w], each with
    the server's reply, and the state the server is left in. *)
Fixpoint exchanges (calls : list http_call) (w : W) : list (http_call * result value) :=
  match calls with
  | [] => []
  | call :: calls' =>
      (call, fst (http_request call w)) :: exchanges calls' (snd (http_request call w))
  end.

Fixpoint server_after (calls : list http_call) (w : W) : W :=
  match calls with
  | [] => w
  | call :: calls' => server_after calls' (snd (http_request call w))
  end.

(** What a computation started on [h] exchanges with the server: the requests
    it adds to those already sent, with the replies they get. *)
Definition exchanged {A : Type} (m : @M W A) (h : @host W)
  : list (http_call * result value) :=
  exchanges (skipn (length (sent h)) (sent (snd (m h)))) (server h).

(** A failed request that a fetch absorbs: one of the per-incident detail
    requests, which are its GET requests, with '401' in the message. *)
Definition absorbed (call : http_call) (message : string) : bool :=
  String.eqb (method call) "GET" && contains "401" message.

(** The requests of a fetch: the listing of the incidents, which is a POST,
    and the per-incident detail requests, which are GETs of the static or of
    the editable attributes of an incident. *)
Definition is_listing_request (call : http_call) : Prop :=
  method call = "POST"
  /\ url_suffix call = "/ProtectManager/webservices/v2/incidents".

Definition is_detail_request (call : http_call) : Prop :=
  method call = "GET"
  /\ exists incident_id,
       url_suffix call
       = ("/ProtectManager/webservices/v2/incidents/"
          ++ format_value incident_id ++ "/staticAttributes")%string
       \/ url_suffix call
          = ("/ProtectManager/webservices/v2/incidents/"
             ++ format_value incident_id ++ "/editableAttributes")%string.

Definition fetch_request (call : http_call) : Prop :=
  is_listing_request call \/ is_detail_request call.

(** Every request a computation adds is of the given kind. *)
Definition requests_are {A : Type} (kind : http_call -> Prop) (m : @M W A) : Prop :=
  forall h, exists calls, sent (snd (m h)) = sent h ++ calls /\ Forall kind calls.

(** The computation talks to the server through its requests only, and a
    request that fails with a [DemistoException] selected by [stops] ends it
    with that exception. *)
Definition stops_at_failure {A : Type} (stops : http_call -> string -> bool)
    (m : @M W A) : Prop :=
  forall h, exists calls,
    sent (snd (m h)) = sent h ++ calls
    /\ server (snd (m h)) = server_after calls (server h)
    /\ forall call message,
         In (call, Raise (DemistoException message)) (exchanges calls (server h)) ->
         stops call message = true ->
         fst (m h) = Raise (DemistoException message).

(** A computation only adds to the requests already sent. *)
Definition extends_sent {A : Type} (m : @M W A) : Prop :=
  forall h, exists more, sent (snd (m h)) = sent h ++ more.

(** The filters on the status, the severity and the type. *)
Definition status_filter (status_id : value) : value :=
  VDict (create_filter_dict "long" "incidentStatusId" status_id "IN").

Definition severity_filter (severity : value) : value :=
  VDict (create_filter_dict "long" "severityId" severity "IN").

Definition type_filter (incident_type : value) : value :=
  VDict (create_filter_dict "string" "messageSource" incident_type "IN").



(** A computation leaves alone what [demisto.setLastRun] has stored. *)
Definition keeps_store {A : Type} (m : @M W A) : Prop :=
  forall h, last_run_store (snd (m h)) = last_run_store h.

(** The records are in non-decreasing order of their names. *)
Definition name_le (x y : incident) : Prop := String.leb (name x) (name y) = true.

(** What the context of a listed incident [d] binds a key to: the severity
    name and the id under their new keys, nothing under the two popped keys,
    and what [d] binds everywhere else. *)
Definition context_lookup (d : dict) (severity : value) (k : string) : option value :=
  if String.eqb k "severity" then Some severity
  else if String.eqb k "ID" then Some (dict_get d "incidentId")
  else if String.eqb k "incidentId" || String.eqb k "severityId" then None
  else lookup k d.

(** [changed] is the context entry made from the listed incident [incident]. *)
Definition context_of (incident changed : value) : Prop :=
  exists d d' severityId,
    incident = VDict d /\ changed = VDict d'
    /\ arg_to_number (dict_get d "severityId") = Ok severityId
    /\ forall k,
         lookup k d'
         = context_lookup d (get_severity_name_by_id (of_optint severityId)) k.

(** [popped] is the history entry [entry] without the three popped keys. *)
Definition history_entry_of (entry popped : value) : Prop :=
  exists d d',
    entry = VDict d /\ popped = VDict d'
    /\ forall k,
         lookup k d'
         = if existsb (String.eqb k) history_keys then None else lookup k d.

(** [attribute] is the custom attribute made from the raw attribute [raw]:
    its name and index, and its value when that is not empty. *)
Definition attribute_of (raw attribute : value) : Prop :=
  exists d a,
    raw = VDict d /\ attribute = VDict a
    /\ lookup "name" a = Some (dict_get d "name")
    /\ lookup "index" a = Some (dict_get d "index")
    /\ lookup "value" a = bound_when (truthy (dict_get d "value")) (dict_get d "value").

(** The raw custom attributes of a group. *)
Definition raw_attributes (group : value) : result (list value) :=
  rbind (get_default group "customAttributes" (VList [])) iterate.

(** [entry] is what is returned for the whole group [group]. *)
Definition group_of (group entry : value) : Prop :=
  exists group_name raws attributes,
    get group "name" = Ok group_name
    /\ raw_attributes group = Ok raws
    /\ entry = VDict [("name", group_name); ("customAttribute", VList attributes)]
    /\ Forall2 attribute_of raws attributes.

(** [entry] is a single custom attribute whose name is among [names]. *)
Definition chosen_attribute (names : list value) (entry : value) : Prop :=
  exists group_name a attribute_name,
    entry = VDict [("name", group_name); ("customAttribute", VDict a)]
    /\ lookup "name" a = Some attribute_name
    /\ py_in attribute_name names = true.

(** [entry] is a group whose name is among [names]. *)
Definition chosen_group (names : list value) (entry : value) : Prop :=
  exists group_name,
    get entry "name" = Ok group_name /\ py_in group_name names = true.

(** A computation that raises leaves alone what has been stored. *)
Definition keeps_store_when_raising {A : Type} (m : @M W A) : Prop :=
  forall h, (exists e, fst (m h) = Raise e) ->
            last_run_store (snd (m h)) = last_run_store h.

(** The record [snd p] was produced for the listed incident [fst p]: it is
    named after the incident's id. *)
Definition produced_for (p : value * incident) : Prop :=
  exists incident_id,
    get (fst p) "incidentId" = Ok incident_id
    /\ name (snd p) = ("Symantec DLP Incident ID " ++ format_value incident_id)%string.

(** The watermark [w'] is the creation date of one of the incidents [from],
    and equals the creation date of the last element of the listing. *)
Definition moved_to_last (incidents_data_list : value) (from : list value) (w' : value)
  : Prop :=
  exists incident_data last last_creation,
    In incident_data from
    /\ get incident_data "creationDate" = Ok w'
    /\ index_last incidents_data_list = Ok last
    /\ get last "creationDate" = Ok last_creation
    /\ py_eq w' last_creation = true.

End OnPlatform.

(** A string made of digits, as [str.isdigit] understands them. *)
Definition digit_string (v : value) : bool :=
  match v with
  | VStr s => isdigit s
  | _ => false
  end.

(** What is assumed of [assign_params] where a property depends on it: it
    binds no key that is not among its keyword arguments. *)
Definition invents_no_key (assign : dict -> dict) : Prop :=
  forall (kwargs : dict) (k : string),
    lookup k kwargs = None -> lookup k (assign kwargs) = None.

Definition count_true (bs : list bool) : nat := length (filter (fun b => b) bs).

(** The connectivity test as a statement about every failed request: an
    authorization failure of any request of the test is answered by the
    check-credentials message. *)
Definition test_module_as_claimed : Prop :=
  forall (W : Type) (P : SymantecDLPV2.Platform W) (client : SymantecDLPV2.Client)
         (params : dict)
         (fetch_time fetch_limit incident_type incident_status_id incident_severity
          : value)
         (h : SymantecDLPV2.host) (call : SymantecDLPV2.http_call) (message : string),
    In (call, Raise (DemistoException message))
       (exchanged
          (SymantecDLPV2.test_module client params fetch_time fetch_limit
             incident_type incident_status_id incident_severity) h) ->
    contains "Forbidden" message || contains "Unauthorized" message = true ->
    fst (SymantecDLPV2.test_module client params fetch_time fetch_limit
           incident_type incident_status_id incident_severity h)
    = Ok SymantecDLPV2.authorization_error.

(** The next poll as a statement for every stored value: the value a
    completed run has stored reaches the next listing request as a
    creation-date filter. *)
Definition next_poll_as_claimed : Prop :=
  forall (W : Type) (P : SymantecDLPV2.Platform W) (client : SymantecDLPV2.Client)
         (fetch_time fetch_limit incident_types incident_status_id incident_severities
          : value)
         (last_run : dict) (h h' next : SymantecDLPV2.host)
         (r : option (list SymantecDLPV2.incident)),
    SymantecDLPV2.fetch_incidents client fetch_time fetch_limit last_run
      incident_types incident_status_id incident_severities false h = (Ok r, h') ->
    exists w' call more,
      SymantecDLPV2.last_run_store h' = [(SymantecDLPV2.last_run_key, w')]
      /\ SymantecDLPV2.sent
           (snd (SymantecDLPV2.fetch_incidents client fetch_time fetch_limit
                   (SymantecDLPV2.last_run_store h') VNone VNone VNone false next))
         = SymantecDLPV2.sent next ++ call :: more
      /\ filters_on_creation_date call w'.

End Notions.

(** ** A concrete platform

    A server that replays a script of responses, and plain versions of the
    library helpers, so that the commands can be run on concrete inputs. *)

Module Sample.
Import Py.
Import SymantecDLPV2.
Local Open Scope string_scope.

Definition script : Type := list (result value).

Definition replay (call : http_call) (w : script) : result value * script :=
  match w with
  | r :: w' => (r, w')
  | [] => (Raise (DemistoException "no more responses"), [])
  end.

(** Timestamps already in [DATE_FORMAT] are returned as they are. *)
Definition strftime (v : value) (fmt : string) (w : script) : result value :=
  match v with
  | VStr s => Ok (VStr s)
  | _ => Raise TypeError
  end.

Definition to_number (v : value) : result (option Z) :=
  match v with
  | VNone => Ok None
  | VInt n => Ok (Some n)
  | VBool b => Ok (Some (num b))
  | VStr s =>
      if String.eqb s "" then Ok None
      else if isdigit s then rbind (int_of_str s) (fun n => Ok (Some n))
      else Raise (ValueError "not a valid number")
  | _ => Raise (ValueError "not a valid number")
  end.

Definition to_list (v : value) (separator : string) : list value :=
  match v with
  | VNone => []
  | VList l => l
  | VStr s =>
      if String.eqb s "" then []
      else match separator with
           | String c _ => map VStr (split c s)
           | EmptyString => [VStr s]
           end
  | _ => [v]
  end.

Definition ignored (v : value) : bool :=
  match v with
  | VNone | VStr EmptyString | VList [] | VDict [] => true
  | _ => false
  end.

Definition keep_params (kwargs : dict) : dict :=
  filter (fun kv => negb (ignored (snd kv))) kwargs.

Definition digit_char (n : N) : ascii := ascii_of_N (48 + n).

Fixpoint decimal_of_N (fuel : nat) (n : N) (acc : string) : string :=
  match fuel with
  | O => acc
  | S fuel' =>
      let acc := String (digit_char (n mod 10)) acc in
      if (n / 10 =? 0)%N then acc else decimal_of_N fuel' (n / 10)%N acc
  end.

Definition decimal (z : Z) : string :=
  let n := Z.to_N (Z.abs z) in
  let digits := decimal_of_N (S (N.to_nat (N.log2 n))) n "" in
  if (z <? 0)%Z then String "-" digits else digits.

Definition quote : string := String (ascii_of_nat 34) "".

Fixpoint dumps (v : value) : string :=
  match v with
  | VNone => "null"
  | VBool b => if b then "true" else "false"
  | VInt n => decimal n
  | VStr s => quote ++ s ++ quote
  | VList l =>
      "[" ++ (fix items (l : list value) : string :=
                match l with
                | [] => ""
                | [x] => dumps x
                | x :: l' => dumps x ++ ", " ++ items l'
                end) l ++ "]"
  | VDict d =>
      "{" ++ (fix items (d : list (string * value)) : string :=
                match d with
                | [] => ""
                | [(k, x)] => quote ++ k ++ quote ++ ": " ++ dumps x
                | (k, x) :: d' => quote ++ k ++ quote ++ ": " ++ dumps x ++ ", " ++ items d'
                end) d ++ "}"
  end.

Definition format (v : value) : string :=
  match v with
  | VNone => "None"
  | VBool b => if b then "True" else "False"
  | VInt n => decimal n
  | VStr s => s
  | _ => dumps v
  end.

#[export] Instance platform : Platform script := {
  http_request := replay;
  dateparser_strftime := strftime;
  arg_to_number := to_number;
  argToList := to_list;
  assign_params := keep_params;
  json_dumps := fun v => Ok (dumps v);
  format_value := format;
  tableToMarkdown := fun title rows => Ok (title ++ ": " ++ dumps rows);
  remove_empty_elements := fun v => v
}.

Definition client : Client := {| _headers := VDict [("Content-type", VStr "application/json")] |}.

Definition start (w : script) : host :=
  {| server := w; last_run_store := []; sent := [] |}.

(** History entries as the vendor returns them, and one that lacks the keys. *)
Definition full_entry : value :=
  VDict [("incidentId", VInt 7);
         ("incidentHistoryDate", VStr "2022-03-01T10:00:00Z");
         ("incidentHistoryActionI18nKey", VStr "incident.history.set_status");
         ("internationalized", VBool true);
         ("dlpUserName", VStr "Administrator")].

Definition bare_entry : value :=
  VDict [("incidentHistoryDate", VStr "2022-03-02T10:00:00Z")].

(** An incident as listed by the vendor. *)
Definition listed_incident : dict :=
  [("incidentId", VInt 42); ("creationDate", VStr "2022-03-01T10:00:00Z");
   ("severityId", VInt 1); ("messageSource", VStr "NETWORK")].

(** A stored watermark, and a listing with an incident created at the
    watermark and one created after it. *)
Definition stored_last_run : dict :=
  [("last_incident_creation_time", VStr "2022-03-01T10:00:00Z")].

Definition later_incident : dict :=
  [("incidentId", VInt 43); ("creationDate", VStr "2022-03-02T08:30:00Z");
   ("severityId", VInt 2); ("messageSource", VStr "ENDPOINT")].

Definition listing : value :=
  VDict [("incidents", VList [VDict listed_incident; VDict later_incident])].

Definition static_attributes : value :=
  VDict [("incidentId", VInt 43);
         ("infoMap", VDict [("creationDate", VStr "2022-03-02T08:30:00Z");
                            ("policyId", VInt 5);
                            ("messageSource", VStr "ENDPOINT")])].

Definition editable_attributes : value :=
  VDict [("infoMap", VDict [("severityId", VInt 2); ("incidentStatusId", VInt 1)])].

Definition poll : script :=
  [Ok listing; Ok static_attributes; Ok editable_attributes].

Definition polled : host :=
  {| server := poll; last_run_store := stored_last_run; sent := [] |}.

(** A first run with an empty first-fetch time against a vendor that lists
    no incident. *)
Definition nothing_listed : host :=
  start [Ok (VDict [("incidents", VList [])])].

(** A group of custom attributes, the second one without a value. *)
Definition attribute_groups : value :=
  VList [VDict [("name", VStr "Resolution");
                ("customAttributes",
                 VList [VDict [("name", VStr "Owner"); ("index", VInt 1);
                               ("value", VStr "alice")];
                        VDict [("name", VStr "Reason"); ("index", VInt 2)]])]].

(** Static attributes of a network incident without recipient information. *)
Definition network_static : value :=
  VDict [("incidentId", VInt 44);
         ("infoMap", VDict [("creationDate", VStr "2022-03-03T09:00:00Z");
                            ("messageSource", VStr "NETWORK");
                            ("messageSubject", VStr "quarterly figures")])].

End Sample.

(** * Properties *)

(** ** The Python fragment and the host monad *)

Module PyFacts.
Import Py.

Lemma rbind_Ok_inv {A B : Type} (r : result A) (k : A -> result B) (b : B) :
  rbind r k = Ok b -> exists a, r = Ok a /\ k a = Ok b.
Proof. destruct r as [a|e]; cbn; [eauto | discriminate]. Qed.

Lemma rbind_Raise_inv {A B : Type} (r : result A) (k : A -> result B) (e : exn) :
  rbind r k = Raise e -> r = Raise e \/ exists a, r = Ok a /\ k a = Raise e.
Proof. destruct r as [a|e']; cbn; [eauto | intros [= ->]; auto]. Qed.

Lemma map_result_Ok_inv {A B : Type} (f : A -> result B) (l : list A) :
  forall r, map_result f l = Ok r -> Forall2 (fun x y => f x = Ok y) l r.
Proof.
  induction l as [|x l IH]; cbn [map_result]; intros r H.
  - injection H as <-. constructor.
  - apply rbind_Ok_inv in H as (y & Hy & H).
    apply rbind_Ok_inv in H as (ys & Hys & H). injection H as <-.
    constructor; auto.
Qed.

Lemma map_result_Raise_inv {A B : Type} (f : A -> result B) (l : list A) (e : exn) :
  map_result f l = Raise e -> exists x, In x l /\ f x = Raise e.
Proof.
  induction l as [|x l IH]; cbn [map_result]; intros H.
  - discriminate.
  - apply rbind_Raise_inv in H as [H | (y & Hy & H)].
    + exists x. split; [left; reflexivity | exact H].
    + apply rbind_Raise_inv in H as [H | (ys & Hys & H)]; [|discriminate].
      destruct (IH H) as (x' & Hin & Hx'). exists x'. split; [right|]; assumption.
Qed.

Lemma map_result_total {A B : Type} (f : A -> result B) (l : list A) :
  (forall x, In x l -> exists y, f x = Ok y) -> exists r, map_result f l = Ok r.
Proof.
  induction l as [|x l IH]; cbn [map_result]; intros H.
  - eexists. reflexivity.
  - destruct (H x (or_introl eq_refl)) as (y & ->).
    destruct IH as (r & ->); [intros; apply H; right; assumption|].
    eexists. reflexivity.
Qed.

Lemma lookup_remove (k k' : string) (d : dict) :
  lookup k (remove k' d) = if String.eqb k k' then None else lookup k d.
Proof.
  induction d as [|[k0 v] d IH]; cbn [remove lookup].
  - destruct (String.eqb k k'); reflexivity.
  - destruct (String.eqb_spec k' k0) as [->|Hne].
    + rewrite IH. destruct (String.eqb k k0); reflexivity.
    + cbn [lookup]. rewrite IH.
      destruct (String.eqb_spec k k0) as [->|Hne'].
      * destruct (String.eqb_spec k0 k') as [->|_]; [contradiction | reflexivity].
      * reflexivity.
Qed.

End PyFacts.

(** ** The hex decoder *)

Module DecodersHexFacts.
Import Py.
Import DecodersHex.

(** Decoding the two digits written for a byte gives the byte back. *)
Lemma fromhex_two_digits (b : byte) (s : string) :
  fromhex (String (hex_char (Byte.to_N b / 16))
             (String (hex_char (Byte.to_N b mod 16)) s))
  = rbind (fromhex s) (fun bs => Ok (b :: bs)).
Proof. destruct b; reflexivity. Qed.

Lemma fromhex_bytes_hex (bs : list byte) : fromhex (bytes_hex bs) = Ok bs.
Proof.
  induction bs as [|b bs IH].
  - reflexivity.
  - change (bytes_hex (b :: bs))
      with (String (hex_char (Byte.to_N b / 16))
              (String (hex_char (Byte.to_N b mod 16)) (bytes_hex bs))).
    rewrite fromhex_two_digits, IH. reflexivity.
Qed.

(** With the encoding left out, [decoders_hex] of a hex dump is the UTF-8
    decoding of the dumped bytes, whether that succeeds or raises. *)
Lemma decoders_hex_of_hex other_codec (bs : list byte) :
  decoders_hex other_codec (VStr (bytes_hex bs)) None = utf8_decode bs.
Proof.
  unfold decoders_hex. cbn [bytes_fromhex]. rewrite fromhex_bytes_hex.
  cbn. destruct (utf8_decode bs); reflexivity.
Qed.

(** C5: for every byte sequence [bs] that is valid UTF-8, with decoding [t],
    [decoders_hex] with its default encoding applied to the hexadecimal
    encoding of [bs] returns exactly [t]. *)
Theorem decoders_hex_roundtrip other_codec (bs : list byte) (t : text) :
  utf8_decode bs = Ok t ->
  decoders_hex other_codec (VStr (bytes_hex bs)) None = Ok t.
Proof. intros H. rewrite decoders_hex_of_hex. exact H. Qed.

(** The euro sign: bytes E2 82 AC, dumped as "e282ac", decode to U+20AC. *)
Lemma decoders_hex_roundtrip_witness :
  utf8_decode [xe2; x82; xac] = Ok [8364%N]
  /\ bytes_hex [xe2; x82; xac] = "e282ac"
  /\ decoders_hex (fun _ _ => Raise LookupError) (VStr "e282ac") None = Ok [8364%N].
Proof.
  split; [reflexivity | split; [reflexivity |]].
  exact (decoders_hex_roundtrip (fun _ _ => Raise LookupError)
           [xe2; x82; xac] [8364%N] eq_refl).
Defined.

(** Without an encoding that is a [str], [decode] raises. *)
Lemma bytes_decode_None other_codec (b : list byte) :
  bytes_decode other_codec b VNone = Raise TypeError.
Proof. reflexivity. Qed.

(** C8: when the arguments have no ['to'] key the command passes [None] as
    the encoding and raises; for a non-empty hex string the exception is the
    [TypeError] of [decode(None)], although [decoders_hex] called without the
    encoding decodes the same string as UTF-8. *)
Theorem decoders_hex_command_without_to other_codec (args : dict) :
  lookup "to" args = None ->
  (exists e, decoders_hex_command other_codec args = Raise e)
  /\ (forall s b,
        dict_get_default args "encoded" VNone = VStr s -> s <> "" ->
        fromhex s = Ok b ->
        decoders_hex_command other_codec args = Raise TypeError
        /\ decoders_hex other_codec (VStr s) (Some VNone) = Raise TypeError
        /\ decoders_hex other_codec (VStr s) None = utf8_decode b).
Proof.
  intros Hto. unfold decoders_hex_command.
  assert (Hd : dict_get_default args "to" VNone = VNone).
  { unfold dict_get_default. rewrite Hto. reflexivity. }
  rewrite Hd. split.
  - destruct (negb (truthy (dict_get_default args "encoded" VNone))).
    + eexists. reflexivity.
    + unfold decoders_hex.
      destruct (bytes_fromhex (dict_get_default args "encoded" VNone)) as [b|e]; cbn.
      * eexists. reflexivity.
      * eexists. reflexivity.
  - intros s b Henc Hne Hhex. rewrite Henc.
    assert (Ht : truthy (VStr s) = true).
    { cbn. destruct (String.eqb_spec s ""); [contradiction | reflexivity]. }
    rewrite Ht. unfold decoders_hex. cbn [negb bytes_fromhex]. rewrite Hhex. cbn.
    repeat split; try reflexivity.
    destruct (utf8_decode b); reflexivity.
Qed.

Lemma decoders_hex_command_without_to_witness :
  decoders_hex_command (fun _ _ => Raise LookupError) [("encoded", VStr "6869")]
  = Raise TypeError
  /\ decoders_hex (fun _ _ => Raise LookupError) (VStr "6869") None = Ok [104%N; 105%N].
Proof.
  destruct (decoders_hex_command_without_to (fun _ _ => Raise LookupError)
              [("encoded", VStr "6869")] eq_refl) as [_ H].
  destruct (H "6869" [x68; x69] eq_refl ltac:(discriminate) eq_refl) as (H1 & _ & H3).
  split; [exact H1 | exact H3].
Defined.

End DecodersHexFacts.

(** ** Slices and pagination *)

Module PaginationFacts.
Import Py.
Import SymantecDLPV2.
Import Notions.
Local Open Scope Z_scope.

Lemma elements_from_firstn_skipn {A : Type} (l : list A) :
  forall first a b,
    elements_from first a b l
    = firstn (Z.to_nat (b - Z.max a first)) (skipn (Z.to_nat (a - first)) l).
Proof.
  induction l as [|x l IH]; intros first a b; cbn [elements_from].
  - rewrite skipn_nil, firstn_nil. reflexivity.
  - rewrite IH. destruct (Z.leb_spec a first) as [Ha|Ha].
    + replace (Z.to_nat (a - first)) with 0%nat by lia.
      replace (Z.to_nat (a - (first + 1))) with 0%nat by lia.
      cbn [skipn andb]. destruct (Z.ltb_spec first b) as [Hb|Hb].
      * replace (Z.to_nat (b - Z.max a first))
          with (S (Z.to_nat (b - Z.max a (first + 1)))) by lia.
        reflexivity.
      * replace (Z.to_nat (b - Z.max a first)) with 0%nat by lia.
        replace (Z.to_nat (b - Z.max a (first + 1))) with 0%nat by lia.
        reflexivity.
    + cbn [andb].
      replace (Z.to_nat (a - first)) with (S (Z.to_nat (a - (first + 1)))) by lia.
      cbn [skipn]. replace (Z.max a (first + 1)) with (Z.max a first) by lia.
      reflexivity.
Qed.

(** A slice with bounds that are not negative holds the elements at the
    positions between the bounds. *)
Lemma py_slice_elements_between {A : Type} (a b : Z) (l : list A) :
  0 <= a -> 0 <= b ->
  py_slice (Some a) (Some b) l = elements_between a b l.
Proof.
  intros Ha Hb. unfold elements_between, py_slice, clamp.
  rewrite elements_from_firstn_skipn.
  destruct (Z.ltb_spec a 0) as [?|_]; [lia|].
  destruct (Z.ltb_spec b 0) as [?|_]; [lia|].
  replace (a - 0) with a by lia. replace (Z.max a 0) with a by lia.
  set (n := Z.of_nat (length l)).
  destruct (Z.le_gt_cases n a) as [Hn|Hn].
  - rewrite (skipn_all2 (n := Z.to_nat (Z.min a n))) by lia.
    rewrite (skipn_all2 (n := Z.to_nat a)) by lia.
    rewrite !firstn_nil. reflexivity.
  - replace (Z.min a n) with a by lia.
    destruct (Z.le_gt_cases b n) as [Hbn|Hbn].
    + replace (Z.min b n) with b by lia. reflexivity.
    + replace (Z.min b n) with n by lia.
      rewrite !firstn_all2; [reflexivity | |]; rewrite length_skipn; lia.
Qed.

(** A negative [page_size] or [limit] is taken from the end of the list:
    page 1 of size -2 of a three-element list is its first element, and limit
    -1 drops the last element, where no index lies between the bounds. *)
Lemma pagination_negative_size :
  get_incidents_of_current_page None (Some 1) (Some (-2)) [10; 20; 30] = Ok [10]
  /\ elements_between ((1 - 1) * -2) (1 * -2) [10; 20; 30] = []
  /\ get_incidents_of_current_page (Some (-1)) None None [10; 20; 30] = Ok [10; 20]
  /\ elements_between 0 (-1) [10; 20; 30] = []
  /\ ~ pagination_as_claimed
  /\ ~ limit_as_claimed.
Proof.
  repeat split; try reflexivity.
  - intros H. specialize (H None 1 (-2) [10; 20; 30] ltac:(lia)). discriminate H.
  - intros H. specialize (H (-1) None [10; 20; 30] ltac:(lia)). discriminate H.
Qed.

(** C7 (amended): with [page >= 1] and [page_size >= 0] the function returns
    the elements from index [(page-1)*page_size] up to, excluding,
    [page*page_size]; with [page <= 0] and a [page_size] it raises; when
    [page] or [page_size] is [None] it returns the first [limit] elements for
    a [limit] that is not negative, 50 standing for a missing or zero
    [limit]. *)
Theorem get_incidents_of_current_page_spec {A : Type}
    (limit page page_size : option Z) (l : list A) :
  (forall p ps, page = Some p -> page_size = Some ps -> 1 <= p -> 0 <= ps ->
     get_incidents_of_current_page limit page page_size l
     = Ok (elements_between ((p - 1) * ps) (p * ps) l))
  /\ (forall p ps, page = Some p -> page_size = Some ps -> p <= 0 ->
        get_incidents_of_current_page limit page page_size l
        = Raise (PyException "Chosen page number must be greater than 0"))
  /\ (page = None \/ page_size = None ->
      (forall n, limit = Some n -> 0 < n ->
         get_incidents_of_current_page limit page page_size l
         = Ok (elements_between 0 n l))
      /\ (limit = None \/ limit = Some 0 ->
          get_incidents_of_current_page limit page page_size l
          = Ok (elements_between 0 MAX_PAGE_SIZE l))).
Proof.
  repeat split.
  - intros p ps -> -> Hp Hps. unfold get_incidents_of_current_page.
    destruct (Z.leb_spec p 0) as [?|_]; [lia|].
    rewrite py_slice_elements_between by nia. reflexivity.
  - intros p ps -> -> Hp. unfold get_incidents_of_current_page.
    destruct (Z.leb_spec p 0) as [_|?]; [reflexivity | lia].
  - intros n -> Hn.
    assert (E : get_incidents_of_current_page (Some n) page page_size l
                = Ok (py_slice (Some 0) (Some n) l)).
    { unfold get_incidents_of_current_page.
      destruct (Z.eqb_spec n 0) as [?|_]; [lia|].
      destruct H as [-> | ->]; [reflexivity | destruct page; reflexivity]. }
    rewrite E, py_slice_elements_between by lia. reflexivity.
  - intros Hl.
    assert (E : get_incidents_of_current_page limit page page_size l
                = Ok (py_slice (Some 0) (Some MAX_PAGE_SIZE) l)).
    { unfold get_incidents_of_current_page.
      destruct Hl as [-> | ->]; cbn [Z.eqb];
        (destruct H as [-> | ->]; [reflexivity | destruct page; reflexivity]). }
    rewrite E, py_slice_elements_between by (unfold MAX_PAGE_SIZE; lia). reflexivity.
Qed.

Lemma get_incidents_of_current_page_spec_witness :
  get_incidents_of_current_page None (Some 2) (Some 2) [10; 20; 30; 40; 50] = Ok [30; 40]
  /\ get_incidents_of_current_page (Some 2) (Some 0) (Some 2) [10; 20; 30]
     = Raise (PyException "Chosen page number must be greater than 0")
  /\ get_incidents_of_current_page (Some 2) None (Some 2) [10; 20; 30] = Ok [10; 20]
  /\ get_incidents_of_current_page (Some 0) (Some 1) None [10; 20; 30] = Ok [10; 20; 30].
Proof.
  pose proof (get_incidents_of_current_page_spec None (Some 2) (Some 2)
                [10; 20; 30; 40; 50]) as (H1 & _ & _).
  pose proof (get_incidents_of_current_page_spec (Some 2) (Some 0) (Some 2)
                [10; 20; 30]) as (_ & H2 & _).
  pose proof (get_incidents_of_current_page_spec (Some 2) None (Some 2)
                [10; 20; 30]) as (_ & _ & H3).
  pose proof (get_incidents_of_current_page_spec (Some 0) (Some 1) None
                [10; 20; 30]) as (_ & _ & H4).
  split; [exact (H1 2 2 eq_refl eq_refl ltac:(lia) ltac:(lia))|].
  split; [exact (H2 0 2 eq_refl eq_refl ltac:(lia))|].
  split; [exact (proj1 (H3 (or_introl eq_refl)) 2 eq_refl ltac:(lia))|].
  exact (proj2 (H4 (or_intror eq_refl)) (or_intror eq_refl)).
Defined.

End PaginationFacts.

(** ** Parsing of custom-attribute updates *)

Module CustomAttributeFacts.
Import Py.
Import SymantecDLPV2.
Import Notions.

Lemma isdigit_not_empty (s : string) : isdigit s = true -> String.eqb s "" = false.
Proof.
  unfold isdigit. destruct (String.eqb s ""); [discriminate | reflexivity].
Qed.

(** A well-formed attribute with a decimal index gives its record. *)
Lemma custom_attribute_update_decimal (attribute : string) :
  well_formed_attribute attribute = true ->
  decimal_index attribute = true ->
  custom_attribute_update attribute = Ok (attribute_record attribute).
Proof.
  unfold well_formed_attribute, decimal_index, custom_attribute_update.
  intros Hwf Hdec. apply andb_prop in Hwf as [Hlen Hdig].
  apply andb_prop in Hdec as [Hdec Hmax].
  fold (index_part attribute). fold (value_part attribute).
  rewrite Hlen, Hdig. cbn [negb]. unfold int_of_str.
  rewrite (isdigit_not_empty _ Hdig), Hdec, Hmax. reflexivity.
Qed.

(** Only an attribute that is not well formed raises a [DemistoException]. *)
Lemma custom_attribute_update_DemistoException (attribute message : string) :
  custom_attribute_update attribute = Raise (DemistoException message) ->
  well_formed_attribute attribute = false.
Proof.
  unfold well_formed_attribute, custom_attribute_update.
  fold (index_part attribute).
  destruct (Nat.eqb (length (split ":" attribute)) 2); [|reflexivity].
  destruct (isdigit (index_part attribute)); [|reflexivity].
  cbn [negb]. destruct (int_of_str (index_part attribute)) as [n|e] eqn:E.
  - discriminate.
  - unfold int_of_str in E.
    destruct (negb (String.eqb (index_part attribute) "")
              && all_chars is_decimal (index_part attribute));
      [destruct (Z.of_nat (String.length (index_part attribute)) <=? max_str_digits)%Z;
       [discriminate|]|];
      injection E as <-; discriminate.
Qed.

(** An attribute that is not well formed raises a [DemistoException]. *)
Lemma custom_attribute_update_malformed (attribute : string) :
  well_formed_attribute attribute = false ->
  exists message,
    custom_attribute_update attribute = Raise (DemistoException message).
Proof.
  unfold well_formed_attribute, custom_attribute_update.
  fold (index_part attribute).
  destruct (Nat.eqb (length (split ":" attribute)) 2); cbn [negb andb].
  - intros ->. cbn [negb]. eexists. reflexivity.
  - intros _. eexists. reflexivity.
Qed.

(** On attributes that are well formed with decimal indices the function
    returns one record per attribute, in the order of the input. *)
Lemma build_custom_attributes_update_decimal (custom_attributes : list string) :
  forallb well_formed_attribute custom_attributes = true ->
  forallb decimal_index custom_attributes = true ->
  build_custom_attributes_update custom_attributes
  = Ok (map attribute_record custom_attributes).
Proof.
  unfold build_custom_attributes_update.
  induction custom_attributes as [|a l IH]; intros Hwf Hdec.
  - reflexivity.
  - cbn [forallb] in Hwf, Hdec.
    apply andb_prop in Hwf as [Ha Hl]. apply andb_prop in Hdec as [Da Dl].
    cbn [map_result map]. rewrite (custom_attribute_update_decimal a Ha Da).
    cbn [rbind]. rewrite (IH Hl Dl). reflexivity.
Qed.

(** A [DemistoException] comes from an attribute that is not well formed. *)
Lemma build_custom_attributes_update_DemistoException
    (custom_attributes : list string) (message : string) :
  build_custom_attributes_update custom_attributes = Raise (DemistoException message) ->
  forallb well_formed_attribute custom_attributes = false.
Proof.
  unfold build_custom_attributes_update.
  induction custom_attributes as [|a l IH]; cbn [map_result forallb].
  - discriminate.
  - destruct (custom_attribute_update a) as [r|e] eqn:E; cbn [rbind].
    + destruct (map_result custom_attribute_update l) as [rs|e'] eqn:E'; cbn [rbind].
      * discriminate.
      * intros [= ->]. rewrite (IH eq_refl). apply andb_false_r.
    + intros [= ->]. rewrite (custom_attribute_update_DemistoException _ _ E).
      reflexivity.
Qed.

(** A value that itself contains [':'] is rejected. *)
Example custom_attribute_update_extra_colon :
  custom_attribute_update "1:a:b"
  = Raise (DemistoException
             "Error: custom_attributes argument format is {columnIndex}:{newValue}. E.g: 1:test")
  /\ build_custom_attributes_update ["1:test"; "12:two words"]
     = Ok [VDict [("columnIndex", VInt 1); ("value", VStr "test")];
           VDict [("columnIndex", VInt 12); ("value", VStr "two words")]].
Proof. split; reflexivity. Qed.

(** C10, at the index U+00B2: the attribute splits into two parts and
    [isdigit] accepts its index, so no [DemistoException] is raised, but
    [int] rejects the index and the function raises a [ValueError] instead of
    returning a record. *)
Theorem build_custom_attributes_update_superscript_index :
  let attribute := String superscript_two ":x" in
  split ":" attribute = [String superscript_two ""; "x"]
  /\ isdigit (index_part attribute) = true
  /\ well_formed_attribute attribute = true
  /\ build_custom_attributes_update [attribute]
     = Raise (ValueError "invalid literal for int() with base 10")
  /\ build_custom_attributes_update ["7:y"; attribute; "no colon"]
     = Raise (ValueError "invalid literal for int() with base 10").
Proof. repeat split. Qed.

End CustomAttributeFacts.

(** ** The host monad *)

Module HostFacts.
Import Py.
Import SymantecDLPV2.

Section WithPlatform.
Context {W : Type} {P : Platform W}.
Local Abbreviation M := (@M W).
Local Abbreviation host := (@host W).

Lemma bind_Ok_inv {A B : Type} (m : M A) (k : A -> M B) (h h' : host) (b : B) :
  bind m k h = (Ok b, h') ->
  exists a h1, m h = (Ok a, h1) /\ k a h1 = (Ok b, h').
Proof.
  unfold bind. destruct (m h) as [[a|e] h1]; intros H.
  - exists a, h1. split; [reflexivity | exact H].
  - discriminate.
Qed.

Lemma lift_inv {A : Type} (r r' : result A) (h h' : host) :
  lift r h = (r', h') -> r = r' /\ h' = h.
Proof. unfold lift. intros [= -> ->]. split; reflexivity. Qed.

Lemma ret_inv {A : Type} (a : A) (r : result A) (h h' : host) :
  ret a h = (r, h') -> r = Ok a /\ h' = h.
Proof. unfold ret. intros [= <- <-]. split; reflexivity. Qed.

End WithPlatform.

End HostFacts.

(** ** The incident history *)

Module HistoryFacts.
Import Py.
Import SymantecDLPV2.
Import Notions.
Import PyFacts.
Import HostFacts.

Section WithPlatform.
Context {W : Type} {P : Platform W}.
Local Abbreviation M := (@M W).
Local Abbreviation host := (@host W).

Lemma pop_dict (d : dict) (k : string) :
  pop (VDict d) k
  = match lookup k d with
    | Some _ => Ok (VDict (remove k d))
    | None => Raise (KeyError (VStr k))
    end.
Proof. unfold pop, dict_pop. destruct (lookup k d); reflexivity. Qed.

(** The three [pop]s on a dict, one key after the other. *)
Lemma pop_history_keys_dict (d : dict) :
  pop_history_keys (VDict d)
  = match lookup "incidentId" d with
    | None => Raise (KeyError (VStr "incidentId"))
    | Some _ =>
        match lookup "incidentHistoryActionI18nKey" d with
        | None => Raise (KeyError (VStr "incidentHistoryActionI18nKey"))
        | Some _ =>
            match lookup "internationalized" d with
            | None => Raise (KeyError (VStr "internationalized"))
            | Some _ =>
                Ok (VDict (remove "internationalized"
                             (remove "incidentHistoryActionI18nKey"
                                (remove "incidentId" d))))
            end
        end
    end.
Proof.
  unfold pop_history_keys. rewrite pop_dict.
  destruct (lookup "incidentId" d); [|reflexivity].
  cbn [rbind]. rewrite pop_dict, lookup_remove. cbn [String.eqb Ascii.eqb Bool.eqb].
  destruct (lookup "incidentHistoryActionI18nKey" d); [|reflexivity].
  cbn [rbind]. rewrite pop_dict, !lookup_remove. cbn [String.eqb Ascii.eqb Bool.eqb].
  destruct (lookup "internationalized" d); reflexivity.
Qed.

Lemma pop_history_keys_Ok (entry popped : value) :
  pop_history_keys entry = Ok popped -> carries_history_keys entry = true.
Proof.
  destruct entry as [| | | | |d]; try discriminate.
  rewrite pop_history_keys_dict. cbn [carries_history_keys history_keys forallb].
  destruct (lookup "incidentId" d); [|discriminate].
  destruct (lookup "incidentHistoryActionI18nKey" d); [|discriminate].
  destruct (lookup "internationalized" d); [reflexivity | discriminate].
Qed.

Lemma pop_history_keys_missing (d : dict) :
  carries_history_keys (VDict d) = false ->
  exists k, In k history_keys /\ pop_history_keys (VDict d) = Raise (KeyError (VStr k)).
Proof.
  rewrite pop_history_keys_dict. cbn [carries_history_keys history_keys forallb].
  destruct (lookup "incidentId" d).
  - destruct (lookup "incidentHistoryActionI18nKey" d).
    + destruct (lookup "internationalized" d); [discriminate|].
      intros _. eexists. split; [|reflexivity]. cbn; auto.
    + intros _. eexists. split; [|reflexivity]. cbn; auto.
  - intros _. eexists. split; [|reflexivity]. cbn; auto.
Qed.

Lemma pop_history_keys_carried (entry : value) :
  carries_history_keys entry = true -> exists popped, pop_history_keys entry = Ok popped.
Proof.
  destruct entry as [| | | | |d]; try discriminate.
  rewrite pop_history_keys_dict. cbn [carries_history_keys history_keys forallb].
  destruct (lookup "incidentId" d); [|discriminate].
  destruct (lookup "incidentHistoryActionI18nKey" d); [|discriminate].
  destruct (lookup "internationalized" d); [|discriminate].
  intros _. eexists. reflexivity.
Qed.

Lemma pop_all_Ok (entries popped : list value) :
  map_result pop_history_keys entries = Ok popped ->
  forallb carries_history_keys entries = true.
Proof.
  intros H. apply map_result_Ok_inv in H.
  induction H as [|x y l l' Hxy _ IH]; cbn [forallb].
  - reflexivity.
  - rewrite (pop_history_keys_Ok _ _ Hxy), IH. reflexivity.
Qed.

Lemma pop_all_missing (entries : list value) :
  forallb is_dict entries = true ->
  forallb carries_history_keys entries = false ->
  exists k, In k history_keys
            /\ map_result pop_history_keys entries = Raise (KeyError (VStr k)).
Proof.
  induction entries as [|x l IH]; cbn [forallb map_result]; intros Hd Hc.
  - discriminate.
  - apply andb_prop in Hd as [Hx Hl].
    destruct x as [| | | | |d]; try discriminate.
    destruct (carries_history_keys (VDict d)) eqn:E.
    + destruct (pop_history_keys_carried _ E) as (y & ->).
      destruct (IH Hl Hc) as (k & Hk & ->). exists k. split; [assumption | reflexivity].
    + destruct (pop_history_keys_missing _ E) as (k & Hk & ->).
      exists k. split; [assumption | reflexivity].
Qed.

(** C9 (amended): [get_context_incident_history] raises on the empty list;
    it succeeds only on a non-empty list whose entries all carry the three
    popped keys, and on a non-empty list of dicts with an entry that lacks
    one of them it raises the [KeyError] of [pop] once the first incident id
    has been read; hence [get_incident_history_command] only succeeds when
    the list returned by the vendor, cut to its first [limit] entries, is
    non-empty and all the entries that are left carry those keys. *)
Theorem incident_history_requirements :
  get_context_incident_history (VList []) = Raise IndexError
  /\ (forall entries context,
        get_context_incident_history (VList entries) = Ok context ->
        entries <> [] /\ forallb carries_history_keys entries = true)
  /\ (forall first entries incident_id,
        forallb is_dict (first :: entries) = true ->
        rbind (get first "incidentId") arg_to_number = Ok incident_id ->
        forallb carries_history_keys (first :: entries) = false ->
        exists k, In k history_keys
                  /\ get_context_incident_history (VList (first :: entries))
                     = Raise (KeyError (VStr k)))
  /\ (forall client args h results h',
        get_incident_history_command client args h = (Ok results, h') ->
        exists incident_id limit response entries,
          arg_to_number (dict_get args "incident_id") = Ok incident_id
          /\ arg_to_number (dict_get_default args "limit" (VInt 50)) = Ok limit
          /\ fst (http_request (history_call client incident_id) (server h)) = Ok response
          /\ slice_value response None limit = Ok (VList entries)
          /\ entries <> []
          /\ forallb carries_history_keys entries = true).
Proof.
  split; [reflexivity|]. split; [|split].
  - intros entries context H. unfold get_context_incident_history in H.
    destruct entries as [|x l]; [discriminate|]. split; [discriminate|].
    cbn [index_first rbind] in H.
    apply rbind_Ok_inv in H as (first_id & _ & H).
    apply rbind_Ok_inv in H as (incident_id & _ & H).
    cbn [iterate rbind] in H.
    apply rbind_Ok_inv in H as (popped & Hpop & _).
    exact (pop_all_Ok _ _ Hpop).
  - intros first entries incident_id Hd Hid Hc.
    destruct (pop_all_missing _ Hd Hc) as (k & Hk & Hpop).
    exists k. split; [assumption|].
    unfold get_context_incident_history. cbn [index_first rbind].
    apply rbind_Ok_inv in Hid as (first_id & -> & Hid). cbn [rbind].
    rewrite Hid. cbn [iterate rbind]. rewrite Hpop. reflexivity.
  - intros client args h results h' H. unfold get_incident_history_command in H.
    apply bind_Ok_inv in H as (incident_id & h0 & Hid & H).
    apply lift_inv in Hid as [Hid ->].
    apply bind_Ok_inv in H as (limit & h0 & Hlimit & H).
    apply lift_inv in Hlimit as [Hlimit ->].
    apply bind_Ok_inv in H as (response & h1 & Hreq & H).
    apply bind_Ok_inv in H as (sliced & h0 & Hslice & H).
    apply lift_inv in Hslice as [Hslice ->].
    apply bind_Ok_inv in H as (hr & h0 & Hhr & H).
    apply lift_inv in Hhr as [_ ->].
    apply bind_Ok_inv in H as (context & h0 & Hctx & _).
    apply lift_inv in Hctx as [Hctx ->].
    unfold get_incident_history_request in Hreq.
    apply bind_Ok_inv in Hreq as (response' & h2 & Hreq & Hret).
    apply ret_inv in Hret as [[= <-] ->].
    unfold _http_request in Hreq. fold (history_call client incident_id) in Hreq.
    destruct (http_request (history_call client incident_id) (server h))
      as [r w] eqn:Ehttp.
    injection Hreq as -> _.
    unfold get_context_incident_history in Hctx.
    apply rbind_Ok_inv in Hctx as (first & Hfirst & Hctx).
    apply rbind_Ok_inv in Hctx as (first_id & Hget & Hctx).
    apply rbind_Ok_inv in Hctx as (n & _ & Hctx).
    apply rbind_Ok_inv in Hctx as (items & Hiter & Hctx).
    apply rbind_Ok_inv in Hctx as (popped & Hpop & _).
    assert (Hlist : exists entries,
               sliced = VList entries /\ items = entries /\ entries <> []).
    { destruct sliced as [| | |s|l|d]; try discriminate.
      - destruct s as [|c s]; [discriminate|]. injection Hfirst as <-. discriminate.
      - destruct l as [|x l]; [discriminate|]. injection Hiter as <-.
        exists (x :: l). repeat split. discriminate. }
    destruct Hlist as (entries & -> & -> & Hne).
    exists incident_id, limit, response, entries. rewrite Ehttp.
    repeat split; try assumption. exact (pop_all_Ok _ _ Hpop).
Qed.

End WithPlatform.

Lemma incident_history_requirements_witness :
  get_context_incident_history (P := Sample.platform) (VList [Sample.full_entry])
  = Ok [VDict [("ID", VInt 7);
               ("incidentHistory",
                VList [VDict [("incidentHistoryDate", VStr "2022-03-01T10:00:00Z");
                              ("dlpUserName", VStr "Administrator")]])]]
  /\ [Sample.full_entry] <> []
  /\ forallb carries_history_keys [Sample.full_entry] = true
  /\ exists k, In k history_keys
               /\ get_context_incident_history (P := Sample.platform)
                    (VList [Sample.full_entry; Sample.bare_entry])
                  = Raise (KeyError (VStr k)).
Proof.
  pose proof (incident_history_requirements (P := Sample.platform))
    as (_ & Hctx & Hkey & Hcmd).
  split; [reflexivity|].
  destruct (Hctx [Sample.full_entry] _ eq_refl) as [Hne Hall].
  split; [exact Hne|]. split; [exact Hall|].
  exact (Hkey Sample.full_entry [Sample.bare_entry] (Some 7%Z) eq_refl eq_refl eq_refl).
Defined.

(** With [limit = 1] the command succeeds on a vendor list whose second
    entry carries none of the keys; and an entry whose incident id is not a
    number makes the context builder raise from [arg_to_number], before any
    [pop]. *)
Lemma incident_history_beyond_limit :
  (exists results h',
     get_incident_history_command (P := Sample.platform) Sample.client
       [("incident_id", VInt 7); ("limit", VInt 1)]
       (Sample.start [Ok (VList [Sample.full_entry; Sample.bare_entry])])
     = (Ok results, h'))
  /\ forallb carries_history_keys [Sample.full_entry; Sample.bare_entry] = false
  /\ get_context_incident_history (P := Sample.platform)
       (VList [VDict [("incidentId", VStr "seven")]])
     = Raise (ValueError "not a valid number")
  /\ ~ history_success_as_claimed.
Proof.
  split; [eexists; eexists; reflexivity|].
  split; [reflexivity|]. split; [reflexivity|].
  intros H.
  destruct (H _ Sample.platform Sample.client
              [("incident_id", VInt 7); ("limit", VInt 1)]
              (Sample.start [Ok (VList [Sample.full_entry; Sample.bare_entry])])
              _ _ (VList [Sample.full_entry; Sample.bare_entry]) eq_refl eq_refl)
    as (entries & [= <-] & _ & Hall).
  discriminate Hall.
Qed.

End HistoryFacts.

(** ** Incident details during fetch *)

Module DetailsFacts.
Import Py.
Import SymantecDLPV2.
Import Notions.
Import PyFacts.
Import HostFacts.

Section WithPlatform.
Context {W : Type} {P : Platform W}.
Local Abbreviation M := (@M W).
Local Abbreviation host := (@host W).

(** The statements guarded by [try] in [get_incident_details_fetch], for an
    incident that is a dict. *)
Lemma details_requests_raise (client : Client) (d : dict) (h h' : host) (e : exn) :
  attributes_request_raises client (dict_get d "incidentId") h e h' ->
  bind (lift (get (VDict d) "incidentId")) (fun incident_id =>
    bind (lift (get_default (VDict d) "messageSource" (VStr ""))) (fun incident_type =>
      bind (get_incident_static_attributes_request client incident_id)
        (fun static_attributes =>
           bind (get_incident_editable_attributes_request client incident_id)
             (fun editable_attributes =>
                lift (get_common_incident_details static_attributes editable_attributes
                        (dict_of [("custom_attributes", VStr "all")])
                        incident_type true))))) h
  = (Raise e, h').
Proof.
  intros [Hs | (s & h0 & Hs & He)]; cbn [get get_default as_dict rbind];
    unfold bind at 1; cbn [lift]; unfold bind at 1; cbn [lift];
    unfold bind at 1; rewrite Hs.
  - reflexivity.
  - unfold bind. rewrite He. reflexivity.
Qed.

Lemma lookup_filter_truthy (k : string) (v : value) (d : dict) :
  lookup k d = Some v -> truthy v = true -> lookup k (dict_filter_truthy d) = Some v.
Proof.
  unfold dict_filter_truthy. induction d as [|[k0 v0] d IH]; cbn [lookup filter].
  - discriminate.
  - destruct (String.eqb k k0) eqn:E.
    + intros [= ->] Hv. cbn [snd]. rewrite Hv. cbn [lookup]. rewrite E. reflexivity.
    + intros Hk Hv. cbn [snd]. destruct (truthy v0); cbn [lookup]; [rewrite E|]; auto.
Qed.

(** The record built for an unauthorized incident carries the notice. *)
Lemma unauthorized_incident_notice (incident : value) (details : dict) :
  keeps_strings assign_params ->
  get_details_unauthorized_incident incident = Ok details ->
  lookup "errorMessage" details = Some (VStr partial_data_notice).
Proof.
  intros Hkeep H. unfold get_details_unauthorized_incident in H.
  apply rbind_Ok_inv in H as (data & _ & H).
  apply rbind_Ok_inv in H as (severityId & _ & H). injection H as <-.
  apply lookup_filter_truthy; [|reflexivity].
  apply Hkeep; [discriminate | reflexivity].
Qed.

(** C3: when fetching the static or editable attributes of an incident
    raises a [DemistoException] whose message contains "401",
    [get_incident_details_fetch] returns what
    [get_details_unauthorized_incident] produces for the incident, a record
    that carries the partial-data notice; when the requests raise any other
    exception, that exception is raised again unchanged. *)
Theorem get_incident_details_fetch_unauthorized
    (client : Client) (d : dict) (h h' : host) (e : exn) :
  attributes_request_raises client (dict_get d "incidentId") h e h' ->
  (forall message,
     e = DemistoException message -> contains "401" message = true ->
     get_incident_details_fetch client (VDict d) h
     = (get_details_unauthorized_incident (VDict d), h')
     /\ (keeps_strings assign_params ->
         forall details,
           get_details_unauthorized_incident (VDict d) = Ok details ->
           lookup "errorMessage" details = Some (VStr partial_data_notice)))
  /\ ((forall message, e = DemistoException message -> contains "401" message = false) ->
      get_incident_details_fetch client (VDict d) h = (Raise e, h')).
Proof.
  intros Hraise. apply details_requests_raise in Hraise.
  unfold get_incident_details_fetch, try_except_DemistoException. rewrite Hraise.
  split.
  - intros message -> H401. rewrite H401. split; [reflexivity|].
    intros Hkeep details Hd. exact (unauthorized_incident_notice _ _ Hkeep Hd).
  - intros Hother. destruct e as [message| | | | | | | | |]; try reflexivity.
    rewrite (Hother message eq_refl). reflexivity.
Qed.

End WithPlatform.

Lemma get_incident_details_fetch_unauthorized_witness :
  get_incident_details_fetch (P := Sample.platform) Sample.client (VDict Sample.listed_incident)
    (Sample.start [Raise (DemistoException "Error in API call [401] - Unauthorized")])
  = (Ok [("ID", VInt 42); ("creationDate", VStr "2022-03-01T10:00:00Z");
         ("severity", VStr "High"); ("messageSource", VStr "NETWORK");
         ("errorMessage", VStr partial_data_notice)],
     {| server := [];
        last_run_store := [];
        sent := [{| method := "GET";
                    url_suffix := "/ProtectManager/webservices/v2/incidents/42/staticAttributes";
                    json_data := None;
                    headers := _headers Sample.client |}] |})
  /\ get_incident_details_fetch (P := Sample.platform) Sample.client (VDict Sample.listed_incident)
       (Sample.start [Ok (VDict []); Raise (DemistoException "Error in API call [500]")])
     = (Raise (DemistoException "Error in API call [500]"),
        {| server := [];
           last_run_store := [];
           sent := [{| method := "GET";
                       url_suffix := "/ProtectManager/webservices/v2/incidents/42/staticAttributes";
                       json_data := None;
                       headers := _headers Sample.client |};
                    {| method := "GET";
                       url_suffix := "/ProtectManager/webservices/v2/incidents/42/editableAttributes";
                       json_data := None;
                       headers := _headers Sample.client |}] |}).
Proof.
  split.
  - exact (proj1 (proj1
      (get_incident_details_fetch_unauthorized (P := Sample.platform) Sample.client
         Sample.listed_incident
         (Sample.start [Raise (DemistoException "Error in API call [401] - Unauthorized")])
         _ _ (or_introl eq_refl))
      _ eq_refl eq_refl)).
  - refine (proj2
      (get_incident_details_fetch_unauthorized (P := Sample.platform) Sample.client
         Sample.listed_incident
         (Sample.start [Ok (VDict []); Raise (DemistoException "Error in API call [500]")])
         _ _ (or_intror (ex_intro _ _ (ex_intro _ _ (conj eq_refl eq_refl)))))
      _).
    intros message [= <-]. reflexivity.
Defined.

End DetailsFacts.

(** ** Connectivity test *)

Module TestModuleFacts.
Import Py.
Import SymantecDLPV2.
Import Notions.
Import HostFacts.

Section WithPlatform.
Context {W : Type} {P : Platform W}.
Local Abbreviation M := (@M W).
Local Abbreviation host := (@host W).

(** What the guarded statements run: the fetch in test mode when [isFetch]
    is set, a plain listing of incidents otherwise. *)
Lemma test_module_request_run (client : Client) (params : dict)
    (fetch_time fetch_limit incident_type incident_status_id incident_severity : value)
    (h : host) :
  test_module_request client params fetch_time fetch_limit
    incident_type incident_status_id incident_severity h
  = if truthy (dict_get params "isFetch") then
      match fetch_incidents client fetch_time fetch_limit []
              incident_type incident_status_id incident_severity true h with
      | (Ok _, h') => (Ok "ok", h')
      | (Raise e, h') => (Raise e, h')
      end
    else
      match get_incidents_request client VNone VNone VNone VNone
              (VInt MAX_PAGE_SIZE) VNone h with
      | (Ok _, h') => (Ok "ok", h')
      | (Raise e, h') => (Raise e, h')
      end.
Proof.
  unfold test_module_request. destruct (truthy (dict_get params "isFetch")).
  - unfold bind at 1. unfold bind at 1.
    destruct (fetch_incidents _ _ _ _ _ _ _ _ h) as [[r|e] h']; reflexivity.
  - unfold bind at 1. unfold bind at 1.
    destruct (get_incidents_request _ _ _ _ _ _ _ h) as [[r|e] h']; reflexivity.
Qed.

(** When the listing request of [fetch_incidents] raises, so does the run. *)
Lemma fetch_incidents_request_raises (client : Client) (fetch_time fetch_limit : value)
    (last_run : dict) (incident_types incident_status_id incident_severities : value)
    (is_test : bool) (severities types w0 : value) (e : exn) (h h' : host) :
  translated INCIDENT_SEVERITY_MAPPING incident_severities severities ->
  translated INCIDENT_TYPE_MAPPING incident_types types ->
  first_update_time fetch_time last_run h = (Ok w0, h) ->
  get_incidents_request client w0 incident_status_id severities types
    fetch_limit (VBool true) h = (Raise e, h') ->
  fetch_incidents client fetch_time fetch_limit last_run
    incident_types incident_status_id incident_severities is_test h = (Raise e, h').
Proof.
  unfold translated. intros Hsev Hty Hw0 Hreq. unfold fetch_incidents.
  set (first :=
         if truthy incident_severities
         then lift (map_through INCIDENT_SEVERITY_MAPPING incident_severities)
         else ret incident_severities).
  assert (Hfirst : first h = (Ok severities, h)).
  { subst first. destruct (truthy incident_severities); rewrite Hsev; reflexivity. }
  unfold bind at 1. rewrite Hfirst.
  set (second :=
         if truthy incident_types
         then lift (map_through INCIDENT_TYPE_MAPPING incident_types)
         else ret incident_types).
  assert (Hsecond : second h = (Ok types, h)).
  { subst second. destruct (truthy incident_types); rewrite Hty; reflexivity. }
  unfold bind at 1. rewrite Hsecond.
  unfold bind at 1. rewrite Hw0.
  unfold bind at 1. rewrite Hreq. reflexivity.
Qed.

(** *** The requests of a run and their replies *)

Lemma exchanges_app (calls calls' : list http_call) (w : W) :
  exchanges (calls ++ calls') w
  = exchanges calls w ++ exchanges calls' (server_after calls w).
Proof.
  revert w. induction calls as [|call calls IH]; intros w; cbn [app exchanges server_after].
  - reflexivity.
  - rewrite IH. reflexivity.
Qed.

Lemma server_after_app (calls calls' : list http_call) (w : W) :
  server_after (calls ++ calls') w = server_after calls' (server_after calls w).
Proof.
  revert w. induction calls as [|call calls IH]; intros w; cbn [app server_after].
  - reflexivity.
  - apply IH.
Qed.

Lemma skipn_length_app {A : Type} (l l' : list A) : skipn (length l) (l ++ l') = l'.
Proof. induction l as [|x l IH]; cbn [length app skipn]; [reflexivity | exact IH]. Qed.

Lemma stops_quiet {A : Type} (stops : http_call -> string -> bool) (m : M A) :
  (forall h, snd (m h) = h) -> stops_at_failure stops m.
Proof.
  intros Hm h. exists []. rewrite Hm, app_nil_r.
  split; [reflexivity|]. split; [reflexivity|]. intros call message [].
Qed.

Lemma stops_ret {A : Type} (stops : http_call -> string -> bool) (a : A) :
  stops_at_failure (W := W) stops (ret a).
Proof. apply stops_quiet. reflexivity. Qed.

Lemma stops_raise {A : Type} (stops : http_call -> string -> bool) (e : exn) :
  stops_at_failure (W := W) stops (raise (A := A) e).
Proof. apply stops_quiet. reflexivity. Qed.

Lemma stops_lift {A : Type} (stops : http_call -> string -> bool) (r : result A) :
  stops_at_failure (W := W) stops (lift r).
Proof. apply stops_quiet. reflexivity. Qed.

Lemma stops_parse_creation_date (stops : http_call -> string -> bool) (v : value) :
  stops_at_failure (W := W) stops (parse_creation_date v).
Proof.
  apply stops_quiet. intros h. unfold parse_creation_date.
  destruct (truthy v); reflexivity.
Qed.

Lemma stops_bind {A B : Type} (stops : http_call -> string -> bool)
    (m : M A) (k : A -> M B) :
  stops_at_failure stops m -> (forall a, stops_at_failure stops (k a)) ->
  stops_at_failure stops (bind m k).
Proof.
  intros Hm Hk h. unfold bind.
  destruct (Hm h) as (calls & Hsent & Hserver & Hstops).
  destruct (m h) as [[a|e] h1]; cbn [fst snd] in *.
  - destruct (Hk a h1) as (calls' & Hsent' & Hserver' & Hstops').
    exists (calls ++ calls').
    rewrite Hsent', Hsent, app_assoc. split; [reflexivity|].
    rewrite Hserver', Hserver, server_after_app. split; [reflexivity|].
    intros call message Hin Hstop. rewrite exchanges_app in Hin.
    apply in_app_or in Hin as [Hin | Hin].
    + discriminate (Hstops call message Hin Hstop).
    + rewrite <- Hserver in Hin. exact (Hstops' call message Hin Hstop).
  - exists calls. split; [exact Hsent|]. split; [exact Hserver|].
    intros call message Hin Hstop.
    injection (Hstops call message Hin Hstop) as ->. reflexivity.
Qed.

Lemma stops_http_request (stops : http_call -> string -> bool) (call : http_call) :
  stops_at_failure (W := W) stops (_http_request call).
Proof.
  intros h. exists [call]. unfold _http_request. cbn [exchanges server_after].
  destruct (http_request call (server h)) as [r w]. cbn [fst snd sent server].
  split; [reflexivity|]. split; [reflexivity|].
  intros call' message [[= _ ->] | []] _. reflexivity.
Qed.

(** A failed detail request ends [get_incident_details_fetch] with its
    exception unless the message contains '401'. *)
Lemma stops_get_incident_details_fetch (client : Client) (incident : value) :
  stops_at_failure (W := W) (fun call message => negb (absorbed call message))
    (get_incident_details_fetch client incident).
Proof.
  intros h.
  unfold get_incident_details_fetch, try_except_DemistoException,
    get_incident_static_attributes_request, get_incident_editable_attributes_request,
    bind, lift, ret, raise, _http_request.
  destruct (get incident "incidentId") as [incident_id|e0].
  2: { exists []. rewrite app_nil_r.
       destruct e0 as [message| | | | | | | | |];
         try (split; [reflexivity|]; split; [reflexivity|]; intros ? ? []).
       destruct (contains "401" message); cbn [fst snd];
         (split; [reflexivity|]; split; [reflexivity|]; intros ? ? []). }
  destruct (get_default incident "messageSource" (VStr "")) as [incident_type|e0].
  2: { exists []. rewrite app_nil_r.
       destruct e0 as [message| | | | | | | | |];
         try (split; [reflexivity|]; split; [reflexivity|]; intros ? ? []).
       destruct (contains "401" message); cbn [fst snd];
         (split; [reflexivity|]; split; [reflexivity|]; intros ? ? []). }
  match goal with
  | |- context [http_request ?c (server h)] => set (static := c)
  end.
  destruct (http_request static (server h)) as [[static_attributes|e1] w1] eqn:E1.
  2: { exists [static]. cbn [exchanges server_after]. rewrite E1. cbn [fst snd].
       destruct e1 as [message| | | | | | | | |];
         try (split; [reflexivity|]; split; [reflexivity|];
              intros ? ? [[= ] | []]).
       destruct (contains "401" message) eqn:E401; cbn [fst snd sent server];
         (split; [reflexivity|]; split; [reflexivity|]);
         intros call message' [[= <- <-] | []] Hstop.
       - unfold absorbed in Hstop. subst static. cbn [method] in Hstop.
         rewrite E401 in Hstop. discriminate Hstop.
       - reflexivity. }
  cbn [sent server last_run_store].
  match goal with
  | |- context [http_request ?c w1] => set (editable := c)
  end.
  destruct (http_request editable w1) as [[editable_attributes|e2] w2] eqn:E2.
  - exists [static; editable]. cbn [exchanges server_after]. rewrite E1. cbn [fst snd].
    rewrite E2. cbn [fst snd].
    destruct (get_common_incident_details static_attributes editable_attributes
                (dict_of [("custom_attributes", VStr "all")]) incident_type true)
      as [details|e3].
    + cbn [fst snd sent server]. rewrite <- app_assoc.
      split; [reflexivity|]. split; [reflexivity|].
      intros ? ? [[= ] | [[= ] | []]].
    + destruct e3 as [message| | | | | | | | |];
        try (cbn [fst snd sent server]; rewrite <- app_assoc;
             split; [reflexivity|]; split; [reflexivity|];
             intros ? ? [[= ] | [[= ] | []]]).
      destruct (contains "401" message); cbn [fst snd sent server];
        rewrite <- app_assoc;
        (split; [reflexivity|]; split; [reflexivity|];
         intros ? ? [[= ] | [[= ] | []]]).
  - exists [static; editable]. cbn [exchanges server_after]. rewrite E1. cbn [fst snd].
    rewrite E2. cbn [fst snd].
    destruct e2 as [message| | | | | | | | |];
      try (cbn [fst snd sent server]; rewrite <- app_assoc;
           split; [reflexivity|]; split; [reflexivity|];
           intros ? ? [[= ] | [[= ] | []]]).
    destruct (contains "401" message) eqn:E401; cbn [fst snd sent server];
      rewrite <- app_assoc;
      (split; [reflexivity|]; split; [reflexivity|]);
      intros call message' [[= ] | [[= <- <-] | []]] Hstop.
    + unfold absorbed in Hstop. subst editable. cbn [method] in Hstop.
      rewrite E401 in Hstop. discriminate Hstop.
    + reflexivity.
Qed.

Create HintDb stops.
#[local] Hint Resolve stops_ret stops_raise stops_lift stops_http_request
  stops_parse_creation_date stops_get_incident_details_fetch : stops.

(** Decomposes a sequence of steps into its steps. *)
Ltac stops :=
  repeat first
    [ solve [auto with stops]
    | apply stops_bind; [|intros ?]
    | progress cbv iota
    | match goal with
      | |- stops_at_failure _ (if ?b then _ else _) => destruct b
      end ].

Lemma stops_fetch_loop (client : Client) (incidents_data_list : value) :
  forall items incidents last_update_time,
    stops_at_failure (W := W) (fun call message => negb (absorbed call message))
      (fetch_loop client incidents_data_list items incidents last_update_time).
Proof.
  induction items as [|x items IH]; intros incidents last_update_time;
    cbn [fetch_loop].
  - apply stops_ret.
  - stops; auto.
Qed.

Lemma stops_test_module_request (client : Client) (params : dict)
    (fetch_time fetch_limit incident_type incident_status_id incident_severity : value) :
  stops_at_failure (W := W) (fun call message => negb (absorbed call message))
    (test_module_request client params fetch_time fetch_limit
       incident_type incident_status_id incident_severity).
Proof.
  unfold test_module_request, fetch_incidents, first_update_time, get_incidents_request.
  pose proof (stops_fetch_loop client). stops; auto.
Qed.

(** *** The kind of the requests *)

Lemma requests_quiet {A : Type} (kind : http_call -> Prop) (m : M A) :
  (forall h, snd (m h) = h) -> requests_are kind m.
Proof.
  intros Hm h. exists []. rewrite Hm, app_nil_r. split; [reflexivity | constructor].
Qed.

Lemma requests_ret {A : Type} (kind : http_call -> Prop) (a : A) :
  requests_are (W := W) kind (ret a).
Proof. apply requests_quiet. reflexivity. Qed.

Lemma requests_raise {A : Type} (kind : http_call -> Prop) (e : exn) :
  requests_are (W := W) kind (raise (A := A) e).
Proof. apply requests_quiet. reflexivity. Qed.

Lemma requests_lift {A : Type} (kind : http_call -> Prop) (r : result A) :
  requests_are (W := W) kind (lift r).
Proof. apply requests_quiet. reflexivity. Qed.

Lemma requests_parse_creation_date (kind : http_call -> Prop) (v : value) :
  requests_are (W := W) kind (parse_creation_date v).
Proof.
  apply requests_quiet. intros h. unfold parse_creation_date.
  destruct (truthy v); reflexivity.
Qed.

Lemma requests_bind {A B : Type} (kind : http_call -> Prop) (m : M A) (k : A -> M B) :
  requests_are kind m -> (forall a, requests_are kind (k a)) ->
  requests_are kind (bind m k).
Proof.
  intros Hm Hk h. unfold bind. destruct (Hm h) as (calls & Hsent & Hkind).
  destruct (m h) as [[a|e] h1]; cbn [snd] in Hsent.
  - destruct (Hk a h1) as (calls' & Hsent' & Hkind'). exists (calls ++ calls').
    rewrite Hsent', Hsent, app_assoc. split; [reflexivity|].
    apply Forall_app. split; assumption.
  - exists calls. split; assumption.
Qed.

Lemma requests_try {A : Type} (kind : http_call -> Prop)
    (body : M A) (handler : string -> M A) :
  requests_are kind body -> (forall message, requests_are kind (handler message)) ->
  requests_are kind (try_except_DemistoException body handler).
Proof.
  intros Hb Hh h. unfold try_except_DemistoException.
  destruct (Hb h) as (calls & Hsent & Hkind).
  destruct (body h) as [[a|e] h1]; cbn [snd] in Hsent.
  - exists calls. split; assumption.
  - destruct e as [message| | | | | | | | |]; try (exists calls; split; assumption).
    destruct (Hh message h1) as (calls' & Hsent' & Hkind'). exists (calls ++ calls').
    rewrite Hsent', Hsent, app_assoc. split; [reflexivity|].
    apply Forall_app. split; assumption.
Qed.

Lemma requests_http_request (kind : http_call -> Prop) (call : http_call) :
  kind call -> requests_are (W := W) kind (_http_request call).
Proof.
  intros Hkind h. exists [call]. unfold _http_request.
  destruct (http_request call (server h)). split; [reflexivity|].
  constructor; [exact Hkind | constructor].
Qed.

Lemma requests_get_incidents_request (self : Client)
    (creation_date status_id severity incident_type limit order_by : value) :
  requests_are (W := W) fetch_request
    (get_incidents_request self creation_date status_id severity incident_type
       limit order_by).
Proof.
  unfold get_incidents_request. apply requests_bind; [|intros ?; apply requests_ret].
  apply requests_http_request. left. split; reflexivity.
Qed.

Lemma requests_get_incident_details_fetch (client : Client) (incident : value) :
  requests_are (W := W) fetch_request (get_incident_details_fetch client incident).
Proof.
  unfold get_incident_details_fetch, get_incident_static_attributes_request,
    get_incident_editable_attributes_request.
  apply requests_try.
  - apply requests_bind; [apply requests_lift | intros incident_id].
    apply requests_bind; [apply requests_lift | intros incident_type].
    apply requests_bind; [|intros static_attributes].
    { apply requests_bind; [|intros ?; apply requests_ret].
      apply requests_http_request. right. split; [reflexivity|].
      exists incident_id. left. reflexivity. }
    apply requests_bind; [|intros editable_attributes; apply requests_lift].
    apply requests_bind; [|intros ?; apply requests_ret].
    apply requests_http_request. right. split; [reflexivity|].
    exists incident_id. right. reflexivity.
  - intros message. destruct (contains "401" message);
      [apply requests_lift | apply requests_raise].
Qed.

Create HintDb requests.
#[local] Hint Resolve requests_ret requests_raise requests_lift
  requests_parse_creation_date requests_get_incidents_request
  requests_get_incident_details_fetch : requests.

(** Decomposes a sequence of steps into its steps. *)
Ltac requests :=
  repeat first
    [ solve [auto with requests]
    | apply requests_bind; [|intros ?]
    | apply requests_try; [|intros ?]
    | progress cbv iota
    | match goal with
      | |- requests_are _ (if ?b then _ else _) => destruct b
      end ].

Lemma requests_fetch_loop (client : Client) (incidents_data_list : value) :
  forall items incidents last_update_time,
    requests_are (W := W) fetch_request
      (fetch_loop client incidents_data_list items incidents last_update_time).
Proof.
  induction items as [|x items IH]; intros incidents last_update_time;
    cbn [fetch_loop].
  - apply requests_ret.
  - requests; auto.
Qed.

Lemma requests_test_module (client : Client) (params : dict)
    (fetch_time fetch_limit incident_type incident_status_id incident_severity : value) :
  requests_are (W := W) fetch_request
    (test_module client params fetch_time fetch_limit
       incident_type incident_status_id incident_severity).
Proof.
  unfold test_module, test_module_request, fetch_incidents, first_update_time.
  pose proof (requests_fetch_loop client). requests; auto.
Qed.

Lemma exchanges_kind (kind : http_call -> Prop) (calls : list http_call) (w : W) :
  Forall kind calls -> Forall (fun exchange => kind (fst exchange)) (exchanges calls w).
Proof.
  intros H. revert w. induction H as [|call calls Hcall _ IH]; intros w; cbn [exchanges].
  - constructor.
  - constructor; [exact Hcall | apply IH].
Qed.

(** The handler of [test_module] does not touch the host. *)
Lemma test_module_state (client : Client) (params : dict)
    (fetch_time fetch_limit incident_type incident_status_id incident_severity : value)
    (h : host) :
  snd (test_module client params fetch_time fetch_limit
         incident_type incident_status_id incident_severity h)
  = snd (test_module_request client params fetch_time fetch_limit
           incident_type incident_status_id incident_severity h).
Proof.
  unfold test_module, try_except_DemistoException.
  destruct (test_module_request _ _ _ _ _ _ _ h) as [[r|e] h']; [reflexivity|].
  destruct e; try reflexivity.
  destruct (contains "Forbidden" message || contains "Unauthorized" message); reflexivity.
Qed.

(** C6 (amended): the requests of [test_module] are the listing of the
    incidents and, when [isFetch] is set, per-incident detail requests.  A
    request that fails with a [DemistoException], other than a detail request
    whose message contains '401', decides the outcome: the check-credentials
    message when the exception's message contains 'Forbidden' or
    'Unauthorized', and the same exception raised again otherwise.  When the
    guarded statements complete (the fetch in test mode when [isFetch] is
    set, the listing request otherwise) the function returns 'ok', and it
    returns nothing but 'ok' and the check-credentials message. *)
Theorem test_module_outcomes (client : Client) (params : dict)
    (fetch_time fetch_limit incident_type incident_status_id incident_severity : value)
    (h : host) :
  let tested :=
    test_module client params fetch_time fetch_limit
      incident_type incident_status_id incident_severity in
  Forall (fun exchange => fetch_request (fst exchange)) (exchanged tested h)
  /\ (forall call message,
        In (call, Raise (DemistoException message)) (exchanged tested h) ->
        absorbed call message = false ->
        fst (tested h)
        = if contains "Forbidden" message || contains "Unauthorized" message
          then Ok authorization_error
          else Raise (DemistoException message))
  /\ (truthy (dict_get params "isFetch") = true ->
      forall r h',
        fetch_incidents client fetch_time fetch_limit []
          incident_type incident_status_id incident_severity true h = (Ok r, h') ->
        tested h = (Ok "ok", h'))
  /\ (truthy (dict_get params "isFetch") = false ->
      forall response h',
        get_incidents_request client VNone VNone VNone VNone (VInt MAX_PAGE_SIZE) VNone h
        = (Ok response, h') ->
        tested h = (Ok "ok", h'))
  /\ (forall s h', tested h = (Ok s, h') -> s = "ok" \/ s = authorization_error).
Proof.
  cbn zeta. split; [|split; [|split; [|split]]].
  - unfold exchanged.
    destruct (requests_test_module client params fetch_time fetch_limit
                incident_type incident_status_id incident_severity h)
      as (calls & -> & Hkind).
    rewrite skipn_length_app. apply exchanges_kind. exact Hkind.
  - intros call message Hin Habsorbed. unfold exchanged in Hin.
    rewrite test_module_state in Hin.
    destruct (stops_test_module_request client params fetch_time fetch_limit
                incident_type incident_status_id incident_severity h)
      as (calls & Hsent & _ & Hstops).
    rewrite Hsent, skipn_length_app in Hin.
    assert (Hstop : negb (absorbed call message) = true) by (rewrite Habsorbed; reflexivity).
    specialize (Hstops call message Hin Hstop).
    unfold test_module, try_except_DemistoException.
    destruct (test_module_request _ _ _ _ _ _ _ h) as [r h'].
    cbn [fst] in Hstops. subst r.
    destruct (contains "Forbidden" message || contains "Unauthorized" message);
      reflexivity.
  - intros HisFetch r h' H. unfold test_module, try_except_DemistoException.
    rewrite test_module_request_run, HisFetch, H. reflexivity.
  - intros HisFetch response h' H. unfold test_module, try_except_DemistoException.
    rewrite test_module_request_run, HisFetch, H. reflexivity.
  - intros s h'. unfold test_module, try_except_DemistoException.
    rewrite test_module_request_run.
    destruct (truthy (dict_get params "isFetch")).
    + destruct (fetch_incidents _ _ _ _ _ _ _ _ h) as [[r|e] h1].
      * intros [= <- _]. left. reflexivity.
      * destruct e; try discriminate.
        destruct (contains "Forbidden" message || contains "Unauthorized" message);
          [|discriminate].
        intros [= <- _]. right. reflexivity.
    + destruct (get_incidents_request _ _ _ _ _ _ _ h) as [[r|e] h1].
      * intros [= <- _]. left. reflexivity.
      * destruct e; try discriminate.
        destruct (contains "Forbidden" message || contains "Unauthorized" message);
          [|discriminate].
        intros [= <- _]. right. reflexivity.
Qed.

End WithPlatform.

Lemma test_module_outcomes_witness :
  fst (test_module (P := Sample.platform) Sample.client [("isFetch", VBool true)]
         (VStr "2022-01-01T00:00:00Z") (VInt 10) VNone VNone VNone
         (Sample.start
            [Ok (VDict [("incidents", VList [VDict Sample.listed_incident])]);
             Raise (DemistoException "Error in API call [403] - Forbidden")]))
  = Ok authorization_error
  /\ fst (test_module (P := Sample.platform) Sample.client [] (VStr "3 days") (VInt 10)
            VNone VNone VNone (Sample.start [Raise (DemistoException "Error [500]")]))
     = Raise (DemistoException "Error [500]")
  /\ fst (test_module (P := Sample.platform) Sample.client [] (VStr "3 days") (VInt 10)
            VNone VNone VNone (Sample.start [Ok (VDict [("incidents", VList [])])]))
     = Ok "ok".
Proof.
  split; [|split].
  - refine (proj1 (proj2
      (test_module_outcomes (P := Sample.platform) Sample.client [("isFetch", VBool true)]
         (VStr "2022-01-01T00:00:00Z") (VInt 10) VNone VNone VNone
         (Sample.start
            [Ok (VDict [("incidents", VList [VDict Sample.listed_incident])]);
             Raise (DemistoException "Error in API call [403] - Forbidden")])))
      {| method := "GET";
         url_suffix := "/ProtectManager/webservices/v2/incidents/42/staticAttributes";
         json_data := None;
         headers := _headers Sample.client |}
      "Error in API call [403] - Forbidden" _ eq_refl).
    vm_compute. right. left. reflexivity.
  - refine (proj1 (proj2
      (test_module_outcomes (P := Sample.platform) Sample.client []
         (VStr "3 days") (VInt 10) VNone VNone VNone
         (Sample.start [Raise (DemistoException "Error [500]")])))
      {| method := "POST";
         url_suffix := "/ProtectManager/webservices/v2/incidents";
         json_data := Some (VDict [("limit", VInt 50); ("select", INCIDENTS_LIST_BODY)]);
         headers := _headers Sample.client |}
      "Error [500]" _ eq_refl).
    vm_compute. left. reflexivity.
  - exact (f_equal fst (proj1 (proj2 (proj2 (proj2
      (test_module_outcomes (P := Sample.platform) Sample.client []
         (VStr "3 days") (VInt 10) VNone VNone VNone
         (Sample.start [Ok (VDict [("incidents", VList [])])])))))
      eq_refl _ _ eq_refl)).
Defined.

(** With [isFetch] set, a detail request of a listed incident that fails
    with 'Error in API call [401] - Unauthorized' does not leave
    [fetch_incidents]: the incident is kept with partial data, and the test
    reports 'ok' although a request of its run failed with 'Unauthorized'. *)
Lemma unauthorized_detail_request_gives_ok :
  let h :=
    Sample.start
      [Ok (VDict [("incidents", VList [VDict Sample.listed_incident])]);
       Raise (DemistoException "Error in API call [401] - Unauthorized")] in
  let tested :=
    test_module (P := Sample.platform) Sample.client [("isFetch", VBool true)]
      (VStr "2022-01-01T00:00:00Z") (VInt 10) VNone VNone VNone in
  In ({| method := "GET";
         url_suffix := "/ProtectManager/webservices/v2/incidents/42/staticAttributes";
         json_data := None;
         headers := _headers Sample.client |},
      Raise (DemistoException "Error in API call [401] - Unauthorized"))
     (exchanged (P := Sample.platform) tested h)
  /\ contains "Unauthorized" "Error in API call [401] - Unauthorized" = true
  /\ fst (tested h) = Ok "ok"
  /\ ~ test_module_as_claimed.
Proof.
  cbn zeta. split; [vm_compute; right; left; reflexivity|].
  split; [reflexivity|]. split; [reflexivity|].
  intros H.
  specialize (H _ Sample.platform Sample.client [("isFetch", VBool true)]
                (VStr "2022-01-01T00:00:00Z") (VInt 10) VNone VNone VNone
                (Sample.start
                   [Ok (VDict [("incidents", VList [VDict Sample.listed_incident])]);
                    Raise (DemistoException "Error in API call [401] - Unauthorized")])
                {| method := "GET";
                   url_suffix :=
                     "/ProtectManager/webservices/v2/incidents/42/staticAttributes";
                   json_data := None;
                   headers := _headers Sample.client |}
                "Error in API call [401] - Unauthorized").
  assert (Hin : In ({| method := "GET";
                       url_suffix :=
                         "/ProtectManager/webservices/v2/incidents/42/staticAttributes";
                       json_data := None;
                       headers := _headers Sample.client |},
                    Raise (DemistoException "Error in API call [401] - Unauthorized"))
                   (exchanged (P := Sample.platform)
                      (test_module (P := Sample.platform) Sample.client
                         [("isFetch", VBool true)] (VStr "2022-01-01T00:00:00Z")
                         (VInt 10) VNone VNone VNone)
                      (Sample.start
                         [Ok (VDict [("incidents",
                                      VList [VDict Sample.listed_incident])]);
                          Raise (DemistoException
                                   "Error in API call [401] - Unauthorized")]))).
  { vm_compute. right. left. reflexivity. }
  specialize (H Hin eq_refl). vm_compute in H. discriminate H.
Qed.

End TestModuleFacts.

(** ** The order on timestamps *)

Module StringOrder.

Lemma ascii_compare_refl (c : ascii) : Ascii.compare c c = Eq.
Proof. apply N.compare_refl. Qed.

Lemma ascii_compare_lt_trans (a b c : ascii) :
  Ascii.compare a b = Lt -> Ascii.compare b c = Lt -> Ascii.compare a c = Lt.
Proof.
  unfold Ascii.compare. rewrite !N.compare_lt_iff. apply N.lt_trans.
Qed.

Lemma compare_refl (s : string) : String.compare s s = Eq.
Proof.
  induction s as [|c s IH]; cbn [String.compare].
  - reflexivity.
  - rewrite ascii_compare_refl. exact IH.
Qed.

Lemma compare_lt_trans (a : string) :
  forall b c,
    String.compare a b = Lt -> String.compare b c = Lt -> String.compare a c = Lt.
Proof.
  induction a as [|x a IH]; intros [|y b] [|z c]; cbn [String.compare];
    try discriminate; try reflexivity.
  destruct (Ascii.compare x y) eqn:Exy; try discriminate.
  - apply Ascii.compare_eq_iff in Exy as ->.
    destruct (Ascii.compare y z); try discriminate; [apply IH | reflexivity].
  - intros _. destruct (Ascii.compare y z) eqn:Eyz; try discriminate.
    + apply Ascii.compare_eq_iff in Eyz as <-. rewrite Exy. reflexivity.
    + intros _. rewrite (ascii_compare_lt_trans _ _ _ Exy Eyz). reflexivity.
Qed.

Lemma ltb_compare (a b : string) : String.ltb a b = true <-> String.compare a b = Lt.
Proof.
  unfold String.ltb. destruct (String.compare a b); split; congruence.
Qed.

Lemma leb_refl (a : string) : String.leb a a = true.
Proof. unfold String.leb. rewrite compare_refl. reflexivity. Qed.

Lemma ltb_leb (a b : string) : String.ltb a b = true -> String.leb a b = true.
Proof.
  unfold String.ltb, String.leb. destruct (String.compare a b); congruence.
Qed.

Lemma ltb_trans (a b c : string) :
  String.ltb a b = true -> String.ltb b c = true -> String.ltb a c = true.
Proof. rewrite !ltb_compare. apply compare_lt_trans. Qed.

Lemma leb_ltb_trans (a b c : string) :
  String.leb a b = true -> String.ltb b c = true -> String.ltb a c = true.
Proof.
  unfold String.leb. destruct (String.compare a b) eqn:E; try discriminate; intros _.
  - apply String.compare_eq_iff in E as ->. auto.
  - apply ltb_trans. apply ltb_compare. exact E.
Qed.

Lemma leb_trans (a b c : string) :
  String.leb a b = true -> String.leb b c = true -> String.leb a c = true.
Proof.
  intros Hab. unfold String.leb at 1.
  destruct (String.compare b c) eqn:E; try discriminate; intros _.
  - apply String.compare_eq_iff in E as <-. exact Hab.
  - apply ltb_leb. apply (leb_ltb_trans a b c Hab). apply ltb_compare. exact E.
Qed.

Lemma ltb_not_leb (a b : string) :
  String.ltb a b = true -> String.leb b a = true -> False.
Proof.
  rewrite ltb_compare. intros H. unfold String.leb.
  rewrite (String.compare_antisym b a), H. discriminate.
Qed.

Lemma leb_empty (s : string) : String.leb "" s = true.
Proof. destruct s; reflexivity. Qed.

Lemma leb_not_empty (a b : string) : a <> "" -> String.leb a b = true -> b <> "".
Proof.
  intros Ha Hab ->. destruct a; [contradiction | discriminate].
Qed.

End StringOrder.

(** ** The fetch loop and its watermark *)

Module FetchFacts.
Import Py.
Import SymantecDLPV2.
Import Notions.
Import PyFacts.
Import HostFacts.
Import StringOrder.

Section WithPlatform.
Context {W : Type} {P : Platform W}.
Local Abbreviation M := (@M W).
Local Abbreviation host := (@host W).

Lemma parse_creation_date_state (v : value) (h h' : host) (r : result value) :
  parse_creation_date v h = (r, h') -> h' = h.
Proof.
  unfold parse_creation_date. destruct (truthy v).
  - intros [= _ <-]. reflexivity.
  - intros [= _ <-]. reflexivity.
Qed.

Lemma first_update_time_state (fetch_time : value) (last_run : dict)
    (h h' : host) (r : result value) :
  first_update_time fetch_time last_run h = (r, h') -> h' = h.
Proof.
  unfold first_update_time. destruct (truthy (VDict last_run)).
  - intros [= _ <-]. reflexivity.
  - apply parse_creation_date_state.
Qed.

Lemma delivered_after_weaken (a b : string) (p : value * incident) :
  String.leb a b = true -> delivered_after b p -> delivered_after a p.
Proof.
  intros Hab (incident_id & c & Hid & Hc & Hlt & Hname).
  exists incident_id, c. repeat split; try assumption.
  exact (leb_ltb_trans _ _ _ Hab Hlt).
Qed.

Lemma ltb_not_empty (b s : string) : String.ltb b s = true -> s <> "".
Proof. intros H ->. destruct b; discriminate. Qed.

(** The loop, started from a watermark that is a non-empty string [b]: the
    watermark it ends with is a string not before [b], and the records it adds
    were produced, in order, for listed incidents created strictly after
    [b]. *)
Lemma fetch_loop_after (client : Client) (incidents_data_list : value) :
  forall (items : list value) (incidents : list incident) (b : string)
         (h h' : host) (out : list incident) (w' : value),
    b <> "" ->
    fetch_loop client incidents_data_list items incidents (VStr b) h
    = (Ok (out, w'), h') ->
    exists b' delivered,
      w' = VStr b'
      /\ String.leb b b' = true
      /\ out = incidents ++ map snd delivered
      /\ subsequence (map fst delivered) items
      /\ Forall (delivered_after b) delivered.
Proof.
  induction items as [|x items IH]; intros incidents b h h' out w' Hb H.
  - injection H as <- <- _. exists b, []. cbn [map]. rewrite app_nil_r.
    repeat split; [apply leb_refl | constructor | constructor].
  - cbn [fetch_loop] in H.
    apply bind_Ok_inv in H as (incident_id & h0 & Hid & H).
    apply lift_inv in Hid as [Hid ->].
    apply bind_Ok_inv in H as (c & h0 & Hc & H).
    apply lift_inv in Hc as [Hc ->].
    apply bind_Ok_inv in H as (fetched & h0 & Hf & H).
    apply lift_inv in Hf as [Hf ->].
    unfold is_incident_already_fetched_in_previous_fetch in Hf.
    assert (Ht : truthy (VStr b) = true).
    { cbn. destruct (String.eqb_spec b ""); [contradiction | reflexivity]. }
    rewrite Ht in Hf. destruct c as [| | |s| |]; try discriminate Hf.
    unfold py_ge in Hf. cbn [py_cmp rbind] in Hf.
    destruct (String.compare b s) eqn:Ecmp; injection Hf as <-; cbn [truthy] in H.
    + destruct (IH _ _ _ _ _ _ Hb H) as (b' & delivered & -> & Hle & -> & Hsub & Hall).
      exists b', delivered. repeat split; try assumption.
      apply subsequence_skip. exact Hsub.
    + apply bind_Ok_inv in H as (details & h1 & _ & H).
      apply bind_Ok_inv in H as (raw & h0 & Hraw & H).
      apply lift_inv in Hraw as [_ ->].
      apply bind_Ok_inv in H as (occurred_at & h2 & _ & H).
      apply bind_Ok_inv in H as (last & h0 & Hlast & H).
      apply lift_inv in Hlast as [_ ->].
      apply bind_Ok_inv in H as (last_creation & h0 & Hlc & H).
      apply lift_inv in Hlc as [_ ->].
      assert (Hlt : String.ltb b s = true) by (apply ltb_compare; exact Ecmp).
      set (record := {| rawJSON := raw;
                        name := "Symantec DLP Incident ID " ++ format_value incident_id;
                        occurred := occurred_at |}) in H.
      assert (Hx : delivered_after b (x, record)).
      { exists incident_id, s. repeat split; assumption. }
      destruct (py_eq (VStr s) last_creation).
      * destruct (IH _ _ _ _ _ _ (ltb_not_empty _ _ Hlt) H)
          as (b' & delivered & -> & Hle & -> & Hsub & Hall).
        exists b', ((x, record) :: delivered). cbn [map fst snd].
        rewrite <- app_assoc. cbn [app].
        repeat split.
        -- exact (leb_trans _ _ _ (ltb_leb _ _ Hlt) Hle).
        -- apply subsequence_take. exact Hsub.
        -- constructor; [exact Hx|].
           eapply Forall_impl; [|exact Hall].
           intros p. apply delivered_after_weaken. exact (ltb_leb _ _ Hlt).
      * destruct (IH _ _ _ _ _ _ Hb H)
          as (b' & delivered & -> & Hle & -> & Hsub & Hall).
        exists b', ((x, record) :: delivered). cbn [map fst snd].
        rewrite <- app_assoc. cbn [app].
        repeat split; try assumption.
        -- apply subsequence_take. exact Hsub.
        -- constructor; assumption.
    + destruct (IH _ _ _ _ _ _ Hb H) as (b' & delivered & -> & Hle & -> & Hsub & Hall).
      exists b', delivered. repeat split; try assumption.
      apply subsequence_skip. exact Hsub.
Qed.

(** The steps of a run of [fetch_incidents] that returns. *)
Lemma fetch_incidents_inv (client : Client) (fetch_time fetch_limit : value)
    (last_run : dict) (incident_types incident_status_id incident_severities : value)
    (is_test : bool) (h h' : host) (r : option (list incident)) :
  fetch_incidents client fetch_time fetch_limit last_run
    incident_types incident_status_id incident_severities is_test h = (Ok r, h') ->
  exists severities types w0 response incidents_data_list listed out w' h1 h2,
    translated INCIDENT_SEVERITY_MAPPING incident_severities severities
    /\ translated INCIDENT_TYPE_MAPPING incident_types types
    /\ first_update_time fetch_time last_run h = (Ok w0, h)
    /\ get_incidents_request client w0 incident_status_id severities types
         fetch_limit (VBool true) h = (Ok response, h1)
    /\ get_default response "incidents" (VList []) = Ok incidents_data_list
    /\ iterate incidents_data_list = Ok listed
    /\ fetch_loop client incidents_data_list listed [] w0 h1 = (Ok (out, w'), h2)
    /\ (if is_test then r = None /\ h' = h2
        else r = Some (sorted_by_name out)
             /\ h' = {| server := server h2;
                        last_run_store := dict_of [(last_run_key, w')];
                        sent := sent h2 |}).
Proof.
  intros H. unfold fetch_incidents in H.
  apply bind_Ok_inv in H as (severities & h0 & Hsev & H).
  assert (Hsev' : translated INCIDENT_SEVERITY_MAPPING incident_severities severities
                  /\ h0 = h).
  { unfold translated. destruct (truthy incident_severities).
    - apply lift_inv in Hsev as [? ->]. split; [assumption | reflexivity].
    - apply ret_inv in Hsev as [[= ->] ->]. split; reflexivity. }
  destruct Hsev' as [Hseverities ->]. clear Hsev.
  apply bind_Ok_inv in H as (types & h0 & Hty & H).
  assert (Hty' : translated INCIDENT_TYPE_MAPPING incident_types types /\ h0 = h).
  { unfold translated. destruct (truthy incident_types).
    - apply lift_inv in Hty as [? ->]. split; [assumption | reflexivity].
    - apply ret_inv in Hty as [[= ->] ->]. split; reflexivity. }
  destruct Hty' as [Htypes ->]. clear Hty.
  apply bind_Ok_inv in H as (w0 & h0 & Hw0 & H).
  pose proof (first_update_time_state _ _ _ _ _ Hw0) as ->.
  apply bind_Ok_inv in H as (response & h1 & Hreq & H).
  apply bind_Ok_inv in H as (incidents_data_list & h0 & Hlist & H).
  apply lift_inv in Hlist as [Hlist ->].
  apply bind_Ok_inv in H as (listed & h0 & Hiter & H).
  apply lift_inv in Hiter as [Hiter ->].
  apply bind_Ok_inv in H as ([out w'] & h2 & Hloop & H).
  exists severities, types, w0, response, incidents_data_list, listed, out, w', h1, h2.
  repeat (split; [assumption|]).
  cbn [fst snd] in H. destruct is_test.
  - apply ret_inv in H as [[= <-] ->]. split; reflexivity.
  - unfold bind, setLastRun, ret in H. injection H as <- <-. split; reflexivity.
Qed.

(** C1: when [fetch_incidents] completes a run that is not a test, the value
    it has stored under 'last_incident_creation_time' is, as a creation
    timestamp, greater than or equal to the watermark the run started from
    (the stored watermark of [last_run], or the parsed first-fetch time when
    [last_run] is empty). *)
Theorem watermark_non_decreasing (client : Client) (fetch_time fetch_limit : value)
    (last_run : dict) (incident_types incident_status_id incident_severities : value)
    (h h' : host) (r : option (list incident)) :
  fetch_incidents client fetch_time fetch_limit last_run
    incident_types incident_status_id incident_severities false h = (Ok r, h') ->
  exists w0 w',
    first_update_time fetch_time last_run h = (Ok w0, h)
    /\ last_run_store h' = [(last_run_key, w')]
    /\ timestamp_le w0 w'.
Proof.
  intros H. apply fetch_incidents_inv in H
    as (severities & types & w0 & response & lst & listed & out & w' & h1 & h2
        & _ & _ & Hw0 & _ & _ & _ & Hloop & _ & ->).
  exists w0, w'. split; [exact Hw0|]. split; [reflexivity|].
  unfold timestamp_le.
  destruct w0 as [| | |a| |]; try apply leb_empty.
  destruct (String.eqb_spec a "") as [->|Ha]; [apply leb_empty|].
  destruct (fetch_loop_after _ _ _ _ _ _ _ _ _ Ha Hloop) as (b' & _ & -> & Hle & _).
  exact Hle.
Qed.

(** C2: when a run starts from a watermark that is a non-empty string [a],
    the incidents returned by [fetch_incidents] are, sorted by name, the
    records produced for a subsequence of the incidents listed by the vendor,
    each with a creation date strictly greater than [a]; a listed incident
    whose creation date is less than or equal to [a] is not among them. *)
Theorem fetch_excludes_delivered (client : Client) (fetch_time fetch_limit : value)
    (last_run : dict) (incident_types incident_status_id incident_severities : value)
    (a : string) (h h' : host) (returned : list incident) :
  first_update_time fetch_time last_run h = (Ok (VStr a), h) ->
  a <> "" ->
  fetch_incidents client fetch_time fetch_limit last_run
    incident_types incident_status_id incident_severities false h
  = (Ok (Some returned), h') ->
  exists call response incidents_data_list listed delivered,
    fst (http_request call (server h)) = Ok response
    /\ get_default response "incidents" (VList []) = Ok incidents_data_list
    /\ iterate incidents_data_list = Ok listed
    /\ subsequence (map fst delivered) listed
    /\ Forall (delivered_after a) delivered
    /\ returned = sorted_by_name (map snd delivered)
    /\ (forall incident_data creation_date,
          In incident_data listed ->
          get incident_data "creationDate" = Ok (VStr creation_date) ->
          String.leb creation_date a = true ->
          ~ In incident_data (map fst delivered)).
Proof.
  intros Hstart Ha H. apply fetch_incidents_inv in H
    as (severities & types & w0 & response & lst & listed & out & w' & h1 & h2
        & _ & _ & Hw0 & Hreq & Hlst & Hlisted & Hloop & [= ->] & _).
  rewrite Hstart in Hw0. injection Hw0 as <-.
  destruct (fetch_loop_after _ _ _ _ _ _ _ _ _ Ha Hloop)
    as (b' & delivered & _ & _ & -> & Hsub & Hall).
  unfold get_incidents_request in Hreq.
  apply bind_Ok_inv in Hreq as (response' & h0 & Hreq & Hret).
  apply ret_inv in Hret as [[= <-] ->].
  unfold _http_request in Hreq.
  match type of Hreq with
  | context [http_request ?c _] => set (call := c) in Hreq
  end.
  destruct (http_request call (server h)) as [r0 w0] eqn:Ehttp.
  injection Hreq as -> _.
  exists call, response, lst, listed, delivered. rewrite Ehttp.
  repeat (split; [first [assumption | reflexivity]|]).
  intros incident_data creation_date _ Hdate Hle Hin.
  apply in_map_iff in Hin as (p & <- & Hp).
  rewrite Forall_forall in Hall.
  destruct (Hall p Hp) as (incident_id & c & _ & Hc & Hlt & _).
  rewrite Hdate in Hc. injection Hc as ->.
  exact (ltb_not_leb _ _ Hlt Hle).
Qed.

(** *** The requests sent by a run *)

Lemma extends_ret {A : Type} (a : A) : extends_sent (W := W) (ret a).
Proof. intros h. exists []. cbn. rewrite app_nil_r. reflexivity. Qed.

Lemma extends_raise {A : Type} (e : exn) :
  extends_sent (W := W) (raise (A := A) e).
Proof. intros h. exists []. cbn. rewrite app_nil_r. reflexivity. Qed.

Lemma extends_lift {A : Type} (r : result A) : extends_sent (W := W) (lift r).
Proof. intros h. exists []. cbn. rewrite app_nil_r. reflexivity. Qed.

Lemma extends_bind {A B : Type} (m : M A) (k : A -> M B) :
  extends_sent (W := W) m -> (forall a, extends_sent (W := W) (k a)) ->
  extends_sent (W := W) (bind m k).
Proof.
  intros Hm Hk h. unfold bind. destruct (Hm h) as (more & Hmore).
  destruct (m h) as [[a|e] h1]; cbn [snd] in Hmore.
  - destruct (Hk a h1) as (more' & Hmore'). exists (more ++ more').
    rewrite Hmore', Hmore, app_assoc. reflexivity.
  - exists more. exact Hmore.
Qed.

Lemma extends_try {A : Type} (body : M A) (handler : string -> M A) :
  extends_sent (W := W) body ->
  (forall message, extends_sent (W := W) (handler message)) ->
  extends_sent (W := W) (try_except_DemistoException body handler).
Proof.
  intros Hb Hh h. unfold try_except_DemistoException.
  destruct (Hb h) as (more & Hmore).
  destruct (body h) as [[a|e] h1]; cbn [snd] in Hmore.
  - exists more. exact Hmore.
  - destruct e as [message| | | | | | | | |]; try (exists more; exact Hmore).
    destruct (Hh message h1) as (more' & Hmore'). exists (more ++ more').
    rewrite Hmore', Hmore, app_assoc. reflexivity.
Qed.

Lemma extends_http_request (call : http_call) :
  extends_sent (W := W) (_http_request call).
Proof.
  intros h. exists [call]. unfold _http_request.
  destruct (http_request call (server h)). reflexivity.
Qed.

Lemma extends_parse_creation_date (v : value) :
  extends_sent (W := W) (parse_creation_date v).
Proof.
  unfold parse_creation_date. destruct (truthy v); [|apply extends_ret].
  intros h. exists []. cbn. rewrite app_nil_r. reflexivity.
Qed.

Lemma extends_setLastRun (obj : dict) : extends_sent (W := W) (setLastRun obj).
Proof. intros h. exists []. cbn. rewrite app_nil_r. reflexivity. Qed.

Create HintDb sent.
#[local] Hint Resolve extends_ret extends_raise extends_lift extends_http_request
  extends_parse_creation_date extends_setLastRun : sent.

(** Decomposes a sequence of steps into its steps. *)
Ltac extends :=
  repeat first
    [ solve [auto with sent]
    | apply extends_bind; [|intros ?]
    | apply extends_try; [|intros ?]
    | match goal with
      | |- extends_sent (if ?b then _ else _) => destruct b
      end ].

Lemma extends_get_incident_details_fetch (client : Client) (incident : value) :
  extends_sent (W := W) (get_incident_details_fetch client incident).
Proof.
  unfold get_incident_details_fetch, get_incident_static_attributes_request,
    get_incident_editable_attributes_request.
  extends.
Qed.

Lemma extends_fetch_loop (client : Client) (incidents_data_list : value) :
  forall items incidents last_update_time,
    extends_sent (W := W)
      (fetch_loop client incidents_data_list items incidents last_update_time).
Proof.
  induction items as [|x items IH]; intros incidents last_update_time;
    cbn [fetch_loop].
  - apply extends_ret.
  - pose proof (extends_get_incident_details_fetch client x).
    extends; auto.
Qed.

(** A run started from a stored watermark first sends the listing request
    made from that watermark. *)
Lemma fetch_incidents_first_request (client : Client) (fetch_time fetch_limit : value)
    (w : value) (incident_types incident_status_id incident_severities : value)
    (is_test : bool) (severities types : value) (h : host) :
  translated INCIDENT_SEVERITY_MAPPING incident_severities severities ->
  translated INCIDENT_TYPE_MAPPING incident_types types ->
  exists more,
    sent (snd (fetch_incidents client fetch_time fetch_limit [(last_run_key, w)]
                 incident_types incident_status_id incident_severities is_test h))
    = sent h ++ listing_call client w incident_status_id severities types fetch_limit
               :: more.
Proof.
  unfold translated. intros Hsev Hty. unfold fetch_incidents.
  set (first :=
         if truthy incident_severities
         then lift (map_through INCIDENT_SEVERITY_MAPPING incident_severities)
         else ret incident_severities).
  assert (Hfirst : first h = (Ok severities, h)).
  { subst first. destruct (truthy incident_severities);
      [rewrite Hsev | rewrite Hsev]; reflexivity. }
  unfold bind at 1. rewrite Hfirst.
  set (second :=
         if truthy incident_types
         then lift (map_through INCIDENT_TYPE_MAPPING incident_types)
         else ret incident_types).
  assert (Hsecond : second h = (Ok types, h)).
  { subst second. destruct (truthy incident_types);
      [rewrite Hty | rewrite Hty]; reflexivity. }
  unfold bind at 1. rewrite Hsecond.
  unfold bind at 1. cbn [first_update_time truthy ret].
  change (dict_get [(last_run_key, w)] last_run_key) with w.
  unfold bind at 1. unfold get_incidents_request at 1.
  unfold bind at 1. unfold _http_request at 1.
  fold (listing_call client w incident_status_id severities types fetch_limit).
  destruct (http_request
              (listing_call client w incident_status_id severities types fetch_limit)
              (server h)) as [[response|e] w1].
  - cbn [ret].
    match goal with
    | |- context [snd (?k ?h1)] =>
        assert (Hk : extends_sent k)
    end.
    { pose proof (extends_fetch_loop client). extends; auto. }
    match goal with
    | |- context [snd (?k ?h1)] => destruct (Hk h1) as (more & ->)
    end.
    exists more. cbn [sent]. rewrite <- app_assoc. reflexivity.
  - exists []. reflexivity.
Qed.

(** The body of a listing request made from a non-empty watermark filters
    on it. *)
Lemma listing_call_filters (client : Client)
    (creation_date status_id severity incident_type limit : value) :
  truthy creation_date = true ->
  filters_on_creation_date
    (listing_call client creation_date status_id severity incident_type limit)
    creation_date.
Proof.
  intros Ht. unfold filters_on_creation_date, listing_call. cbn [json_data].
  eexists. eexists. split; [reflexivity|].
  unfold incidents_request_data. rewrite Ht. cbn. reflexivity.
Qed.

(** The body of a listing request made from an empty watermark has no
    condition on the creation date. *)
Lemma listing_call_no_filter (client : Client)
    (creation_date status_id severity incident_type limit : value) :
  truthy creation_date = false ->
  no_creation_date_filter
    (listing_call client creation_date status_id severity incident_type limit).
Proof.
  intros Ht.
  unfold no_creation_date_filter, conditions_of, listing_call, incidents_request_data.
  cbn [json_data]. rewrite Ht.
  destruct (truthy status_id); destruct (truthy severity);
    destruct (truthy incident_type); reflexivity.
Qed.

(** C4 (amended): a completed run that is not a test has stored, under
    'last_incident_creation_time', the last update time with which it left
    its loop over the incidents listed by the server; an invocation with that
    stored value as [last_run] first sends the listing request made with the
    stored value as its [creation_date]; when the stored value is non-empty
    the body of that request carries the filter [creationDate GT value], and
    when it is empty the body has no condition on the creation date. *)
Theorem stored_watermark_filters_next_poll
    (client : Client) (fetch_time fetch_limit : value) (last_run : dict)
    (incident_types incident_status_id incident_severities : value)
    (h h' : host) (r : option (list incident)) :
  fetch_incidents client fetch_time fetch_limit last_run
    incident_types incident_status_id incident_severities false h = (Ok r, h') ->
  exists w0 out w' h2,
    run_ends_with client fetch_time fetch_limit last_run
      incident_types incident_status_id incident_severities h w0 out w' h2
    /\ r = Some (sorted_by_name out)
    /\ h' = {| server := server h2;
               last_run_store := [(last_run_key, w')];
               sent := sent h2 |}
    /\ forall fetch_time' fetch_limit' incident_types' incident_status_id'
              incident_severities' is_test severities types (next : host),
         translated INCIDENT_SEVERITY_MAPPING incident_severities' severities ->
         translated INCIDENT_TYPE_MAPPING incident_types' types ->
         let call :=
           listing_call client w' incident_status_id' severities types fetch_limit' in
         (exists more,
            sent (snd (fetch_incidents client fetch_time' fetch_limit' (last_run_store h')
                         incident_types' incident_status_id' incident_severities'
                         is_test next))
            = sent next ++ call :: more)
         /\ (truthy w' = true -> filters_on_creation_date call w')
         /\ (truthy w' = false -> no_creation_date_filter call).
Proof.
  intros H. apply fetch_incidents_inv in H
    as (severities0 & types0 & w0 & response & lst & listed & out & w' & h1 & h2
        & Hsev0 & Hty0 & Hw0 & Hreq & Hlst & Hlisted & Hloop & -> & ->).
  exists w0, out, w', h2. split; [|split; [reflexivity|split; [reflexivity|]]].
  - exists severities0, types0, response, lst, listed, h1.
    repeat (split; [assumption|]). split; [|split; [|split]]; try assumption.
    unfold get_incidents_request in Hreq.
    apply bind_Ok_inv in Hreq as (response' & h0 & Hreq & Hret).
    apply ret_inv in Hret as [[= <-] ->]. exact Hreq.
  - intros fetch_time' fetch_limit' incident_types' incident_status_id'
      incident_severities' is_test severities types next Hsev Hty.
    cbn zeta. cbn [last_run_store].
    split; [|split].
    + exact (fetch_incidents_first_request client fetch_time' fetch_limit' w'
               incident_types' incident_status_id' incident_severities' is_test
               severities types next Hsev Hty).
    + apply listing_call_filters.
    + apply listing_call_no_filter.
Qed.

End WithPlatform.

Lemma watermark_non_decreasing_witness :
  exists w0 w',
    first_update_time (P := Sample.platform) (VStr "3 days") Sample.stored_last_run
      Sample.polled = (Ok w0, Sample.polled)
    /\ last_run_store
         (snd (fetch_incidents (P := Sample.platform) Sample.client (VStr "3 days")
                 (VInt 10) Sample.stored_last_run VNone VNone VNone false Sample.polled))
       = [(last_run_key, w')]
    /\ timestamp_le w0 w'.
Proof.
  refine (watermark_non_decreasing (P := Sample.platform) Sample.client
            (VStr "3 days") (VInt 10) Sample.stored_last_run VNone VNone VNone
            Sample.polled _ _ _).
  vm_compute. reflexivity.
Defined.

Lemma fetch_excludes_delivered_witness :
  exists returned h',
    fetch_incidents (P := Sample.platform) Sample.client (VStr "3 days") (VInt 10)
      Sample.stored_last_run VNone VNone VNone false Sample.polled
    = (Ok (Some returned), h')
    /\ exists call response incidents_data_list listed delivered,
         fst (http_request (Platform := Sample.platform) call (server Sample.polled))
         = Ok response
         /\ get_default response "incidents" (VList []) = Ok incidents_data_list
         /\ iterate incidents_data_list = Ok listed
         /\ subsequence (map fst delivered) listed
         /\ Forall (delivered_after (P := Sample.platform) "2022-03-01T10:00:00Z") delivered
         /\ returned = sorted_by_name (map snd delivered)
         /\ (forall incident_data creation_date,
               In incident_data listed ->
               get incident_data "creationDate" = Ok (VStr creation_date) ->
               String.leb creation_date "2022-03-01T10:00:00Z" = true ->
               ~ In incident_data (map fst delivered)).
Proof.
  eexists. eexists. split.
  - vm_compute. reflexivity.
  - refine (fetch_excludes_delivered (P := Sample.platform) Sample.client
              (VStr "3 days") (VInt 10) Sample.stored_last_run VNone VNone VNone
              "2022-03-01T10:00:00Z" Sample.polled _ _ eq_refl _ _).
    + discriminate.
    + vm_compute. reflexivity.
Defined.

Lemma stored_watermark_filters_next_poll_witness :
  exists w0 out h2,
    run_ends_with (P := Sample.platform) Sample.client (VStr "3 days") (VInt 10)
      Sample.stored_last_run VNone VNone VNone Sample.polled
      w0 out (VStr "2022-03-02T08:30:00Z") h2
    /\ last_run_store
         (snd (fetch_incidents (P := Sample.platform) Sample.client (VStr "3 days")
                 (VInt 10) Sample.stored_last_run VNone VNone VNone false Sample.polled))
       = [(last_run_key, VStr "2022-03-02T08:30:00Z")]
    /\ (exists more,
          sent (snd (fetch_incidents (P := Sample.platform) Sample.client
                       (VStr "3 days") (VInt 10)
                       [(last_run_key, VStr "2022-03-02T08:30:00Z")]
                       VNone VNone VNone false Sample.nothing_listed))
          = sent Sample.nothing_listed
            ++ listing_call Sample.client (VStr "2022-03-02T08:30:00Z")
                 VNone VNone VNone (VInt 10) :: more)
    /\ filters_on_creation_date
         (listing_call Sample.client (VStr "2022-03-02T08:30:00Z")
            VNone VNone VNone (VInt 10))
         (VStr "2022-03-02T08:30:00Z").
Proof.
  destruct (stored_watermark_filters_next_poll (P := Sample.platform) Sample.client
              (VStr "3 days") (VInt 10) Sample.stored_last_run VNone VNone VNone
              Sample.polled
              (snd (fetch_incidents (P := Sample.platform) Sample.client (VStr "3 days")
                      (VInt 10) Sample.stored_last_run VNone VNone VNone false
                      Sample.polled))
              (match fst (fetch_incidents (P := Sample.platform) Sample.client
                            (VStr "3 days") (VInt 10) Sample.stored_last_run
                            VNone VNone VNone false Sample.polled) with
               | Ok r => r
               | Raise _ => None
               end)
              eq_refl) as (w0 & out & w' & h2 & Hrun & _ & Hstore & Hnext).
  assert (Hw' : w' = VStr "2022-03-02T08:30:00Z").
  { apply (f_equal last_run_store) in Hstore. cbn in Hstore.
    injection Hstore as <-. reflexivity. }
  subst w'. exists w0, out, h2. split; [exact Hrun|].
  split; [rewrite Hstore; reflexivity|].
  destruct (Hnext (VStr "3 days") (VInt 10) VNone VNone VNone false VNone VNone
              Sample.nothing_listed eq_refl eq_refl) as (Hsent & Hfilter & _).
  rewrite Hstore in Hsent. cbn [last_run_store] in Hsent.
  split; [exact Hsent|]. apply Hfilter. reflexivity.
Defined.

(** A first run with an empty first-fetch time and nothing listed stores the
    empty string; the next invocation passes it on, and the listing request
    then has no filter at all. *)
Lemma empty_watermark_is_no_filter :
  fetch_incidents (P := Sample.platform) Sample.client (VStr "") (VInt 10) []
    VNone VNone VNone false Sample.nothing_listed
  = (Ok (Some []),
     {| server := [];
        last_run_store := [(last_run_key, VStr "")];
        sent := [listing_call Sample.client (VStr "") VNone VNone VNone (VInt 10)] |})
  /\ sent (snd (fetch_incidents (P := Sample.platform) Sample.client (VStr "") (VInt 10)
                  [(last_run_key, VStr "")] VNone VNone VNone false
                  Sample.nothing_listed))
     = [listing_call Sample.client (VStr "") VNone VNone VNone (VInt 10)]
  /\ json_data (listing_call Sample.client (VStr "") VNone VNone VNone (VInt 10))
     = Some (VDict [("limit", VInt 10); ("select", INCIDENTS_LIST_BODY);
                    ("orderBy",
                     VList [VDict [("order", VStr "ASC");
                                   ("field", VDict [("name", VStr "creationDate")])]])])
  /\ ~ next_poll_as_claimed.
Proof.
  split; [reflexivity|]. split; [reflexivity|]. split; [reflexivity|].
  intros H.
  destruct (H _ Sample.platform Sample.client (VStr "") (VInt 10) VNone VNone VNone []
              Sample.nothing_listed _ Sample.nothing_listed _ eq_refl)
    as (w' & call & more & Hstore & Hsent & data & others & Hdata & Hfilter).
  injection Hstore as <-.
  vm_compute in Hsent. injection Hsent as <- _.
  injection Hdata as <-. discriminate Hfilter.
Qed.

End FetchFacts.

(** * Further properties *)

(** ** The hex decoder: case, white space, concatenation *)

Module HexExtras.
Import Py.
Import DecodersHex.
Import Notions.
Import PyFacts.
Import DecodersHexFacts.

Lemma is_space_upper (c : ascii) : is_space (ascii_upper_char c) = is_space c.
Proof. destruct c as [[] [] [] [] [] [] [] []]; reflexivity. Qed.

Lemma hex_digit_value_upper (c : ascii) :
  hex_digit_value (ascii_upper_char c) = hex_digit_value c.
Proof. destruct c as [[] [] [] [] [] [] [] []]; reflexivity. Qed.

(** One step of [fromhex]. *)
Lemma fromhex_step (c : ascii) (s : string) :
  fromhex (String c s)
  = if is_space c then fromhex s
    else
      match hex_digit_value c, s with
      | Some hi, String c' s' =>
          match hex_digit_value c' with
          | Some lo => rbind (fromhex s') (fun bs => Ok (byte_of_nibbles hi lo :: bs))
          | None => Raise non_hex
          end
      | _, _ => Raise non_hex
      end.
Proof. reflexivity. Qed.

Lemma fromhex_upper (s : string) :
  fromhex (ascii_upper s) = fromhex s
  /\ forall c, fromhex (ascii_upper (String c s)) = fromhex (String c s).
Proof.
  induction s as [|c0 s [IH1 IH2]].
  - split; [reflexivity|]. intros c. cbn [ascii_upper].
    rewrite !fromhex_step, is_space_upper, hex_digit_value_upper. reflexivity.
  - split; [apply IH2|]. intros c. cbn [ascii_upper].
    rewrite (fromhex_step (ascii_upper_char c)), (fromhex_step c).
    rewrite is_space_upper, hex_digit_value_upper.
    destruct (is_space c); [exact (IH2 c0)|].
    destruct (hex_digit_value c); [|reflexivity].
    rewrite hex_digit_value_upper, IH1. reflexivity.
Qed.

(** X1: the case of the hexadecimal digits does not matter: with any
    encoding, given or left out, [decoders_hex] gives the same outcome on a
    string and on the string with its letters in upper case. *)
Theorem decoders_hex_ignores_case other_codec (s : string) (to : option value) :
  decoders_hex other_codec (VStr (ascii_upper s)) to
  = decoders_hex other_codec (VStr s) to.
Proof.
  unfold decoders_hex. cbn [bytes_fromhex].
  rewrite (proj1 (fromhex_upper s)). reflexivity.
Qed.

(** [fromhex] raises nothing but its [ValueError]. *)
Lemma fromhex_Raise (s : string) :
  (forall e, fromhex s = Raise e -> e = non_hex)
  /\ forall c e, fromhex (String c s) = Raise e -> e = non_hex.
Proof.
  induction s as [|c0 s [IH1 IH2]].
  - split; [discriminate|]. intros c e. rewrite fromhex_step.
    destruct (is_space c); [discriminate|].
    destruct (hex_digit_value c); intros [= <-]; reflexivity.
  - split; [apply IH2|]. intros c e. rewrite fromhex_step.
    destruct (is_space c); [apply IH2|].
    destruct (hex_digit_value c); [|intros [= <-]; reflexivity].
    destruct (hex_digit_value c0); [|intros [= <-]; reflexivity].
    destruct (fromhex s) as [bs|e'] eqn:E; cbn [rbind]; [discriminate|].
    intros [= <-]. apply IH1. reflexivity.
Qed.

(** The digits of a string that [fromhex] accepts come in pairs. *)
Lemma fromhex_digit_count (s : string) :
  (forall bs, fromhex s = Ok bs -> digit_count s = 2 * length bs)
  /\ forall c bs, fromhex (String c s) = Ok bs ->
                  digit_count (String c s) = 2 * length bs.
Proof.
  induction s as [|c0 s [IH1 IH2]].
  - split; [intros bs [= <-]; reflexivity|]. intros c bs.
    rewrite fromhex_step. cbn [digit_count]. destruct (is_space c).
    + intros [= <-]. reflexivity.
    + destruct (hex_digit_value c); discriminate.
  - split; [apply IH2|]. intros c bs. rewrite fromhex_step.
    cbn [digit_count]. destruct (is_space c) eqn:Ec.
    + intros H. apply IH2 in H. cbn [digit_count] in H. exact H.
    + destruct (hex_digit_value c); [|discriminate].
      destruct (hex_digit_value c0) eqn:E0; [|discriminate].
      assert (Hs : is_space c0 = false).
      { destruct c0 as [[] [] [] [] [] [] [] []]; try reflexivity; discriminate E0. }
      rewrite Hs. intros H. apply rbind_Ok_inv in H as (bs' & Hbs' & [= <-]).
      rewrite (IH1 _ Hbs'). cbn [length]. lia.
Qed.

(** X2: a string with an odd number of characters other than white space is
    rejected: [decoders_hex] raises the [ValueError] of [bytes.fromhex],
    whatever the encoding. *)
Theorem decoders_hex_odd_digits other_codec (s : string) (to : option value) :
  Nat.odd (digit_count s) = true ->
  decoders_hex other_codec (VStr s) to = Raise non_hex.
Proof.
  intros Hodd. unfold decoders_hex. cbn [bytes_fromhex].
  destruct (fromhex s) as [bs|e] eqn:E.
  - apply (proj1 (fromhex_digit_count s)) in E. rewrite E in Hodd.
    rewrite Nat.odd_mul in Hodd. discriminate Hodd.
  - apply (proj1 (fromhex_Raise s)) in E as ->. reflexivity.
Qed.

Lemma decoders_hex_odd_digits_witness :
  decoders_hex (fun _ _ => Raise LookupError) (VStr "68 6") None = Raise non_hex.
Proof.
  exact (decoders_hex_odd_digits (fun _ _ => Raise LookupError) "68 6" None eq_refl).
Defined.

Lemma fromhex_app (s1 s2 : string) :
  (forall b1, fromhex s1 = Ok b1 ->
     fromhex (s1 ++ s2) = rbind (fromhex s2) (fun b2 => Ok (b1 ++ b2)))
  /\ forall c b1, fromhex (String c s1) = Ok b1 ->
       fromhex (String c s1 ++ s2) = rbind (fromhex s2) (fun b2 => Ok (b1 ++ b2)).
Proof.
  induction s1 as [|c0 s1 [IH1 IH2]].
  - split.
    + intros b1 [= <-]. cbn [String.append]. destruct (fromhex s2); reflexivity.
    + intros c b1. cbn [String.append]. rewrite !fromhex_step.
      destruct (is_space c).
      * intros [= <-]. destruct (fromhex s2); reflexivity.
      * destruct (hex_digit_value c); discriminate.
  - split; [apply IH2|]. intros c b1. cbn [String.append].
    rewrite (fromhex_step c (String c0 s1)), (fromhex_step c (String c0 (s1 ++ s2))).
    destruct (is_space c); [exact (IH2 c0 b1)|].
    destruct (hex_digit_value c); [|discriminate].
    destruct (hex_digit_value c0); [|discriminate].
    intros H. apply rbind_Ok_inv in H as (bs & Hbs & [= <-]).
    rewrite (IH1 _ Hbs). destruct (fromhex s2); reflexivity.
Qed.

(** One step of the UTF-8 decoder. *)
Lemma utf8_decode_step (b0 : byte) (r0 : list byte) :
  utf8_decode (b0 :: r0)
  = let n0 := Byte.to_N b0 in
    if (n0 <? 128)%N then
      rbind (utf8_decode r0) (fun t => Ok (n0 :: t))
    else if between 194 n0 223 then
      match r0 with
      | b1 :: r1 =>
          let n1 := Byte.to_N b1 in
          if is_cont n1 then
            rbind (utf8_decode r1)
              (fun t => Ok (((n0 - 192) * 64 + (n1 - 128))%N :: t))
          else Raise UnicodeDecodeError
      | _ => Raise UnicodeDecodeError
      end
    else if between 224 n0 239 then
      match r0 with
      | b1 :: b2 :: r2 =>
          let n1 := Byte.to_N b1 in
          let n2 := Byte.to_N b2 in
          if second_byte_ok n0 n1 && is_cont n2 then
            rbind (utf8_decode r2)
              (fun t => Ok (((n0 - 224) * 4096 + (n1 - 128) * 64 + (n2 - 128))%N :: t))
          else Raise UnicodeDecodeError
      | _ => Raise UnicodeDecodeError
      end
    else if between 240 n0 244 then
      match r0 with
      | b1 :: b2 :: b3 :: r3 =>
          let n1 := Byte.to_N b1 in
          let n2 := Byte.to_N b2 in
          let n3 := Byte.to_N b3 in
          if second_byte_ok n0 n1 && is_cont n2 && is_cont n3 then
            rbind (utf8_decode r3)
              (fun t => Ok (((n0 - 240) * 262144 + (n1 - 128) * 4096
                             + (n2 - 128) * 64 + (n3 - 128))%N :: t))
          else Raise UnicodeDecodeError
      | _ => Raise UnicodeDecodeError
      end
    else Raise UnicodeDecodeError.
Proof. reflexivity. Qed.

(** Decoding is compatible with concatenation at a character boundary. *)
Lemma utf8_decode_app (b2 : list byte) :
  forall (n : nat) (b1 : list byte) (t1 : text),
    length b1 <= n ->
    utf8_decode b1 = Ok t1 ->
    utf8_decode (b1 ++ b2) = rbind (utf8_decode b2) (fun t2 => Ok (t1 ++ t2)).
Proof.
  assert (Hend : forall (r : list byte) (t' : text) (c : N),
             utf8_decode (r ++ b2) = rbind (utf8_decode b2) (fun t2 => Ok (t' ++ t2)) ->
             rbind (utf8_decode (r ++ b2)) (fun t => Ok (c :: t))
             = rbind (utf8_decode b2) (fun t2 => Ok ((c :: t') ++ t2))).
  { intros r t' c ->. destruct (utf8_decode b2); reflexivity. }
  induction n as [|n IH]; intros b1 t1 Hlen H.
  - destruct b1; [|cbn in Hlen; lia]. injection H as <-.
    cbn [app]. destruct (utf8_decode b2); reflexivity.
  - destruct b1 as [|b0 r0].
    + injection H as <-. cbn [app]. destruct (utf8_decode b2); reflexivity.
    + cbn [length] in Hlen. rewrite utf8_decode_step in H.
      change ((b0 :: r0) ++ b2) with (b0 :: (r0 ++ b2)). rewrite utf8_decode_step.
      cbn zeta in *.
      destruct (Byte.to_N b0 <? 128)%N.
      { apply rbind_Ok_inv in H as (t' & Ht' & [= <-]).
        apply Hend. apply IH; [lia | exact Ht']. }
      destruct (between 194 (Byte.to_N b0) 223).
      { destruct r0 as [|b1' r1]; [discriminate|]. cbn [app length] in *.
        destruct (is_cont (Byte.to_N b1')); [|discriminate].
        apply rbind_Ok_inv in H as (t' & Ht' & [= <-]).
        apply Hend. apply IH; [lia | exact Ht']. }
      destruct (between 224 (Byte.to_N b0) 239).
      { destruct r0 as [|b1' [|b2' r2]]; try discriminate. cbn [app length] in *.
        destruct (second_byte_ok (Byte.to_N b0) (Byte.to_N b1')
                  && is_cont (Byte.to_N b2')); [|discriminate].
        apply rbind_Ok_inv in H as (t' & Ht' & [= <-]).
        apply Hend. apply IH; [lia | exact Ht']. }
      destruct (between 240 (Byte.to_N b0) 244); [|discriminate].
      destruct r0 as [|b1' [|b2' [|b3' r3]]]; try discriminate. cbn [app length] in *.
      destruct (second_byte_ok (Byte.to_N b0) (Byte.to_N b1')
                && is_cont (Byte.to_N b2') && is_cont (Byte.to_N b3')); [|discriminate].
      apply rbind_Ok_inv in H as (t' & Ht' & [= <-]).
      apply Hend. apply IH; [lia | exact Ht'].
Qed.

(** X3: decoding as UTF-8 is compatible with concatenation: when two hex
    strings both decode, their concatenation decodes to the concatenation of
    the two texts. *)
Theorem decoders_hex_concatenation other_codec (s1 s2 : string) (t1 t2 : text)
    (to : option value) :
  to = None \/ to = Some (VStr "utf-8") ->
  decoders_hex other_codec (VStr s1) to = Ok t1 ->
  decoders_hex other_codec (VStr s2) to = Ok t2 ->
  decoders_hex other_codec (VStr (s1 ++ s2)) to = Ok (t1 ++ t2).
Proof.
  intros Hto H1 H2.
  assert (E : forall s, decoders_hex other_codec (VStr s) to
                        = rbind (fromhex s) utf8_decode).
  { intros s. unfold decoders_hex. cbn [bytes_fromhex].
    destruct Hto as [-> | ->]; destruct (fromhex s) as [b|e]; cbn;
      try reflexivity; destruct (utf8_decode b); reflexivity. }
  rewrite E in *.
  apply rbind_Ok_inv in H1 as (b1 & Hb1 & Hd1).
  apply rbind_Ok_inv in H2 as (b2 & Hb2 & Hd2).
  rewrite (proj1 (fromhex_app s1 s2) _ Hb1), Hb2. cbn [rbind].
  rewrite (utf8_decode_app b2 (length b1) b1 t1 (le_n _) Hd1), Hd2. reflexivity.
Qed.

Lemma decoders_hex_concatenation_witness :
  decoders_hex (fun _ _ => Raise LookupError) (VStr ("c3a9" ++ " 6f")) None
  = Ok ([233%N] ++ [111%N]).
Proof.
  exact (decoders_hex_concatenation (fun _ _ => Raise LookupError)
           "c3a9" " 6f" [233%N] [111%N] None (or_introl eq_refl) eq_refl eq_refl).
Defined.

(** X4: the command, given the hex dump of a non-empty byte string that is
    valid UTF-8 and the encoding 'utf-8', returns the decoded text together
    with its input, under the prefix 'Decoders'; the dump of the empty byte
    string is refused as a missing argument. *)
Theorem decoders_hex_command_roundtrip other_codec (args : dict)
    (bs : list byte) (t : text) :
  dict_get_default args "encoded" VNone = VStr (bytes_hex bs) ->
  dict_get_default args "to" VNone = VStr "utf-8" ->
  utf8_decode bs = Ok t ->
  (bs <> [] ->
   decoders_hex_command other_codec args
   = Ok {| outputs_prefix := "Decoders";
           outputs_key_field := "";
           outputs := {| Decoded := t;
                         Encoded := VStr (bytes_hex bs);
                         Encoder := "HEX";
                         Decoded_To := VStr "utf-8" |} |})
  /\ (bs = [] ->
      decoders_hex_command other_codec args
      = Raise (ValueError "Encoded text not specified")).
Proof.
  intros Henc Hto Ht. unfold decoders_hex_command. rewrite Henc, Hto. split.
  - intros Hne. destruct bs as [|b bs]; [contradiction|].
    cbn [bytes_hex truthy String.eqb negb].
    change (String (hex_char (Byte.to_N b / 16))
              (String (hex_char (Byte.to_N b mod 16)) (bytes_hex bs)))
      with (bytes_hex (b :: bs)).
    unfold decoders_hex. cbn [bytes_fromhex]. rewrite fromhex_bytes_hex.
    cbn [rbind bytes_decode String.eqb Ascii.eqb Bool.eqb]. rewrite Ht. reflexivity.
  - intros ->. reflexivity.
Qed.

Lemma decoders_hex_command_roundtrip_witness :
  decoders_hex_command (fun _ _ => Raise LookupError)
    [("encoded", VStr "e282ac"); ("to", VStr "utf-8")]
  = Ok {| outputs_prefix := "Decoders";
          outputs_key_field := "";
          outputs := {| Decoded := [8364%N];
                        Encoded := VStr "e282ac";
                        Encoder := "HEX";
                        Decoded_To := VStr "utf-8" |} |}.
Proof.
  refine (proj1 (decoders_hex_command_roundtrip (fun _ _ => Raise LookupError)
                   [("encoded", VStr "e282ac"); ("to", VStr "utf-8")]
                   [xe2; x82; xac] [8364%N] eq_refl eq_refl eq_refl) _).
  discriminate.
Defined.

End HexExtras.

(** ** Dictionaries *)

Module DictFacts.
Import Py.

Lemma lookup_dict_set (d : dict) (k k' : string) (v : value) :
  lookup k (dict_set d k' v) = if String.eqb k k' then Some v else lookup k d.
Proof.
  induction d as [|[k0 v0] d IH]; cbn [dict_set lookup].
  - rewrite (String.eqb_sym k k'). destruct (String.eqb k' k); reflexivity.
  - destruct (String.eqb_spec k' k0) as [->|Hne]; cbn [lookup].
    + destruct (String.eqb k k0); reflexivity.
    + rewrite IH. destruct (String.eqb_spec k k0) as [->|Hne'].
      * destruct (String.eqb_spec k0 k') as [->|_]; [contradiction | reflexivity].
      * reflexivity.
Qed.

Lemma lookup_dict_update_one (d : dict) (k k' : string) (v : value) :
  lookup k (dict_update d (dict_of [(k', v)]))
  = if String.eqb k k' then Some v else lookup k d.
Proof. cbn. apply lookup_dict_set. Qed.

End DictFacts.

(** ** The body of the listing request and the severity names *)

Module RequestExtras.
Import Py.
Import SymantecDLPV2.
Import Notions.

(** X5: the body of a listing request always carries the limit and the
    selected fields; it asks for an ordering exactly when [order_by] is set;
    it has a filter exactly when one of the four filter arguments is
    non-empty, and then the filter holds one condition per non-empty
    argument, each one made from that argument. *)
Theorem incidents_request_data_filters
    (creation_date status_id severity incident_type limit order_by : value) :
  let data := incidents_request_data creation_date status_id severity
                incident_type limit order_by in
  let given := [truthy creation_date; truthy status_id; truthy severity;
                truthy incident_type] in
  lookup "limit" data = Some limit
  /\ lookup "select" data = Some INCIDENTS_LIST_BODY
  /\ (lookup "orderBy" data = None <-> truthy order_by = false)
  /\ exists conditions,
       lookup "filter" data
       = bound_when (existsb (fun b => b) given)
           (VDict [("booleanOperator", VStr "AND");
                   ("filterType", VStr "booleanLogic");
                   ("filters", VList conditions)])
       /\ length conditions = count_true given
       /\ (In (creation_date_filter creation_date) conditions
           <-> truthy creation_date = true)
       /\ (In (status_filter status_id) conditions <-> truthy status_id = true)
       /\ (In (severity_filter severity) conditions <-> truthy severity = true)
       /\ (In (type_filter incident_type) conditions <-> truthy incident_type = true).
Proof.
  cbn zeta.
  assert (Hdiff : forall a b c d,
             creation_date_filter a <> status_filter b
             /\ creation_date_filter a <> severity_filter c
             /\ creation_date_filter a <> type_filter d
             /\ status_filter b <> severity_filter c
             /\ status_filter b <> type_filter d
             /\ severity_filter c <> type_filter d).
  { intros a b c d. repeat split; discriminate. }
  destruct (Hdiff creation_date status_id severity incident_type)
    as (D12 & D13 & D14 & D23 & D24 & D34).
  split; [unfold incidents_request_data; destruct (truthy order_by);
          destruct (truthy creation_date || truthy status_id || truthy severity
                    || truthy incident_type); reflexivity|].
  split; [unfold incidents_request_data; destruct (truthy order_by);
          destruct (truthy creation_date || truthy status_id || truthy severity
                    || truthy incident_type); reflexivity|].
  split.
  { unfold incidents_request_data. destruct (truthy order_by);
      destruct (truthy creation_date || truthy status_id || truthy severity
                || truthy incident_type); cbn; split; congruence. }
  exists ((if truthy creation_date then [creation_date_filter creation_date] else [])
          ++ (if truthy status_id then [status_filter status_id] else [])
          ++ (if truthy severity then [severity_filter severity] else [])
          ++ (if truthy incident_type then [type_filter incident_type] else [])).
  split.
  { unfold incidents_request_data, creation_date_filter, status_filter,
      severity_filter, type_filter.
    destruct (truthy order_by); destruct (truthy creation_date);
      destruct (truthy status_id); destruct (truthy severity);
      destruct (truthy incident_type); reflexivity. }
  destruct (truthy creation_date); destruct (truthy status_id);
    destruct (truthy severity); destruct (truthy incident_type);
    (split; [reflexivity|]); cbn [In app];
    repeat split; intros H; try reflexivity; try discriminate H; auto;
    repeat (destruct H as [H|H]; [congruence|]); try contradiction.
Qed.

Lemma severity_table :
  INCIDENT_SEVERITY_MAPPING
  = [("Info", VInt 4); ("Low", VInt 3); ("Medium", VInt 2); ("High", VInt 1)].
Proof. reflexivity. Qed.

Lemma get_severity_name_by_id_cases (v : value) :
  get_severity_name_by_id v
  = if py_eq (VInt 4) v then VStr "Info"
    else if py_eq (VInt 3) v then VStr "Low"
    else if py_eq (VInt 2) v then VStr "Medium"
    else if py_eq (VInt 1) v then VStr "High"
    else VNone.
Proof.
  unfold get_severity_name_by_id. rewrite severity_table. cbn [find snd].
  destruct (py_eq (VInt 4) v); [reflexivity|].
  destruct (py_eq (VInt 3) v); [reflexivity|].
  destruct (py_eq (VInt 2) v); [reflexivity|].
  destruct (py_eq (VInt 1) v); reflexivity.
Qed.

(** X6: [get_severity_name_by_id] inverts the severity table: the number
    bound to a name is mapped back to that name; a name that is returned is
    bound to a number equal to the argument; and [None] is returned exactly
    for the arguments equal to none of the four numbers. *)
Theorem severity_name_inverts_table :
  (forall severity_name v,
     lookup severity_name INCIDENT_SEVERITY_MAPPING = Some v ->
     get_severity_name_by_id v = VStr severity_name)
  /\ (forall v severity_name,
        get_severity_name_by_id v = VStr severity_name ->
        exists n, lookup severity_name INCIDENT_SEVERITY_MAPPING = Some (VInt n)
                  /\ py_eq (VInt n) v = true)
  /\ (forall v,
        get_severity_name_by_id v = VNone
        <-> forall severity_name n,
              lookup severity_name INCIDENT_SEVERITY_MAPPING = Some (VInt n) ->
              py_eq (VInt n) v = false).
Proof.
  split; [|split].
  - intros severity_name v. rewrite severity_table. cbn [lookup].
    destruct (String.eqb_spec severity_name "Info") as [->|_]; [intros [= <-]; reflexivity|].
    destruct (String.eqb_spec severity_name "Low") as [->|_]; [intros [= <-]; reflexivity|].
    destruct (String.eqb_spec severity_name "Medium") as [->|_];
      [intros [= <-]; reflexivity|].
    destruct (String.eqb_spec severity_name "High") as [->|_];
      [intros [= <-]; reflexivity | discriminate].
  - intros v severity_name. rewrite get_severity_name_by_id_cases.
    destruct (py_eq (VInt 4) v) eqn:E4; [intros [= <-]; exists 4%Z; auto|].
    destruct (py_eq (VInt 3) v) eqn:E3; [intros [= <-]; exists 3%Z; auto|].
    destruct (py_eq (VInt 2) v) eqn:E2; [intros [= <-]; exists 2%Z; auto|].
    destruct (py_eq (VInt 1) v) eqn:E1; [intros [= <-]; exists 1%Z; auto|].
    discriminate.
  - intros v. rewrite get_severity_name_by_id_cases. split.
    + destruct (py_eq (VInt 4) v) eqn:E4; [discriminate|].
      destruct (py_eq (VInt 3) v) eqn:E3; [discriminate|].
      destruct (py_eq (VInt 2) v) eqn:E2; [discriminate|].
      destruct (py_eq (VInt 1) v) eqn:E1; [discriminate|].
      intros _ severity_name n. rewrite severity_table. cbn [lookup].
      destruct (String.eqb severity_name "Info"); [intros [= <-]; exact E4|].
      destruct (String.eqb severity_name "Low"); [intros [= <-]; exact E3|].
      destruct (String.eqb severity_name "Medium"); [intros [= <-]; exact E2|].
      destruct (String.eqb severity_name "High"); [intros [= <-]; exact E1|].
      discriminate.
    + intros H.
      rewrite (H "Info" 4%Z eq_refl), (H "Low" 3%Z eq_refl),
        (H "Medium" 2%Z eq_refl), (H "High" 1%Z eq_refl).
      reflexivity.
Qed.

Lemma severity_name_inverts_table_witness :
  get_severity_name_by_id (VInt 2) = VStr "Medium"
  /\ get_severity_name_by_id (VBool true) = VStr "High"
  /\ get_severity_name_by_id (VStr "2") = VNone.
Proof.
  destruct severity_name_inverts_table as (H1 & _ & H3).
  split; [exact (H1 "Medium" (VInt 2) eq_refl)|].
  split; [reflexivity|].
  apply H3. intros severity_name n _. reflexivity.
Defined.

End RequestExtras.

(** ** Context entries of listed incidents and of the history *)

Module ContextExtras.
Import Py.
Import SymantecDLPV2.
Import Notions.
Import PyFacts.
Import DictFacts.
Import HistoryFacts.

Section WithPlatform.
Context {W : Type} {P : Platform W}.

Lemma dict_pop_inv (d : dict) (k : string) (r : value * dict) :
  dict_pop d k = Ok r -> lookup k d <> None /\ snd r = remove k d.
Proof.
  unfold dict_pop. destruct (lookup k d); [|discriminate].
  intros [= <-]. split; [discriminate | reflexivity].
Qed.

Lemma map_result_Ok_In {A B : Type} (f : A -> result B) (l : list A) (r : list B)
    (x : A) :
  map_result f l = Ok r -> In x l -> exists y, f x = Ok y.
Proof.
  intros H. apply map_result_Ok_inv in H.
  induction H as [|a b l l' Hab _ IH]; intros Hin.
  - contradiction.
  - destruct Hin as [<- | Hin]; [eauto | auto].
Qed.

Lemma context_incident_Ok (incident changed : value) :
  context_incident incident = Ok changed -> context_of incident changed.
Proof.
  unfold context_incident. intros H.
  apply rbind_Ok_inv in H as (d & Hd & H).
  destruct incident as [| | | | |d0]; try discriminate Hd. injection Hd as <-.
  apply rbind_Ok_inv in H as (severityId & Hsev & H).
  apply rbind_Ok_inv in H as (p1 & Hp1 & H).
  apply rbind_Ok_inv in H as (p2 & Hp2 & [= <-]).
  apply dict_pop_inv in Hp1 as [_ E1]. apply dict_pop_inv in Hp2 as [_ E2].
  exists d0, (dict_update (dict_update (snd p2) (dict_of [("ID", dict_get d0 "incidentId")]))
                (dict_of [("severity",
                           get_severity_name_by_id (of_optint severityId))])),
    severityId.
  repeat split; [exact Hsev|].
  intros k. rewrite !lookup_dict_update_one, E2, E1, !lookup_remove.
  unfold context_lookup.
  destruct (String.eqb k "severity"); [reflexivity|].
  destruct (String.eqb k "ID"); [reflexivity|].
  destruct (String.eqb k "incidentId"); [reflexivity|].
  destruct (String.eqb k "severityId"); reflexivity.
Qed.

(** X7: when [get_context_incidents_list] returns, it returns one entry per
    listed incident, in order; each entry binds 'ID' to the incident's
    'incidentId' and 'severity' to the name of its 'severityId', no longer
    binds 'incidentId' or 'severityId', and binds every other key as the
    incident did.  An incident that lacks 'severityId' or 'incidentId' makes
    it raise the [KeyError] of [pop]. *)
Theorem get_context_incidents_list_mapping (incidents : list value) :
  (forall changed,
     get_context_incidents_list (VList incidents) = Ok changed ->
     exists entries, changed = VList entries /\ Forall2 context_of incidents entries)
  /\ (forall d severityId k,
        In (VDict d) incidents ->
        arg_to_number (dict_get d "severityId") = Ok severityId ->
        (k = "severityId" \/ k = "incidentId") ->
        lookup k d = None ->
        exists k', (k' = "severityId" \/ k' = "incidentId")
                   /\ context_incident (VDict d) = Raise (KeyError (VStr k'))
                   /\ exists e, get_context_incidents_list (VList incidents) = Raise e).
Proof.
  split.
  - intros changed H. unfold get_context_incidents_list in H. cbn [iterate rbind] in H.
    apply rbind_Ok_inv in H as (entries & Hentries & [= <-]).
    exists entries. split; [reflexivity|].
    apply map_result_Ok_inv in Hentries.
    eapply Forall2_impl; [|exact Hentries].
    intros a b. apply context_incident_Ok.
  - intros d severityId k Hin Hsev Hk Hmissing.
    assert (Hraise : exists k', (k' = "severityId" \/ k' = "incidentId")
                                /\ context_incident (VDict d) = Raise (KeyError (VStr k'))).
    { unfold context_incident. cbn [as_dict rbind]. rewrite Hsev. cbn [rbind].
      unfold dict_pop at 1. destruct (lookup "severityId" d) eqn:E1.
      - cbn [rbind snd]. unfold dict_pop. rewrite lookup_remove.
        cbn [String.eqb Ascii.eqb Bool.eqb].
        destruct Hk as [-> | ->]; [congruence|]. rewrite Hmissing.
        exists "incidentId". split; [right; reflexivity | reflexivity].
      - exists "severityId". split; [left; reflexivity | reflexivity]. }
    destruct Hraise as (k' & Hk' & Hraise). exists k'. repeat split; try assumption.
    unfold get_context_incidents_list. cbn [iterate rbind].
    destruct (map_result context_incident incidents) as [entries|e] eqn:E.
    + destruct (map_result_Ok_In _ _ _ _ E Hin) as (y & Hy). congruence.
    + eexists. reflexivity.
Qed.

Lemma pop_history_keys_Ok_entry (entry popped : value) :
  pop_history_keys entry = Ok popped -> history_entry_of entry popped.
Proof.
  destruct entry as [| | | | |d]; try discriminate.
  rewrite pop_history_keys_dict.
  destruct (lookup "incidentId" d); [|discriminate].
  destruct (lookup "incidentHistoryActionI18nKey" d); [|discriminate].
  destruct (lookup "internationalized" d); [|discriminate].
  intros [= <-]. eexists. eexists. repeat split.
  intros k. rewrite !lookup_remove. cbn [existsb history_keys].
  destruct (String.eqb k "internationalized");
    destruct (String.eqb k "incidentHistoryActionI18nKey");
    destruct (String.eqb k "incidentId"); reflexivity.
Qed.

(** X8: when [get_context_incident_history] returns, it returns a single
    record that binds 'ID' to the number read from the first entry's
    'incidentId' and 'incidentHistory' to the entries, in order, each
    without the three popped keys and with every other key as it was. *)
Theorem get_context_incident_history_form (entries context : list value) :
  get_context_incident_history (VList entries) = Ok context ->
  exists first incident_id popped,
    hd_error entries = Some first
    /\ rbind (get first "incidentId") arg_to_number = Ok incident_id
    /\ context = [VDict [("ID", of_optint incident_id);
                         ("incidentHistory", VList popped)]]
    /\ Forall2 history_entry_of entries popped.
Proof.
  intros H. unfold get_context_incident_history in H.
  destruct entries as [|first entries]; [discriminate|].
  cbn [index_first rbind] in H.
  apply rbind_Ok_inv in H as (first_id & Hget & H).
  apply rbind_Ok_inv in H as (incident_id & Hid & H).
  cbn [iterate rbind] in H.
  apply rbind_Ok_inv in H as (popped & Hpop & [= <-]).
  exists first, incident_id, popped.
  split; [reflexivity|]. split; [rewrite Hget; exact Hid|].
  split; [reflexivity|].
  apply map_result_Ok_inv in Hpop.
  eapply Forall2_impl; [|exact Hpop].
  intros a b. apply pop_history_keys_Ok_entry.
Qed.

End WithPlatform.

Lemma get_context_incidents_list_mapping_witness :
  get_context_incidents_list (P := Sample.platform)
    (VList [VDict Sample.listed_incident])
  = Ok (VList [VDict [("creationDate", VStr "2022-03-01T10:00:00Z");
                      ("messageSource", VStr "NETWORK");
                      ("ID", VInt 42); ("severity", VStr "High")]])
  /\ exists k',
       (k' = "severityId" \/ k' = "incidentId")
       /\ context_incident (P := Sample.platform) (VDict [("incidentId", VInt 1)])
          = Raise (KeyError (VStr k'))
       /\ exists e,
            get_context_incidents_list (P := Sample.platform)
              (VList [VDict [("incidentId", VInt 1)]]) = Raise e.
Proof.
  split; [reflexivity|].
  exact (proj2 (get_context_incidents_list_mapping (P := Sample.platform)
                  [VDict [("incidentId", VInt 1)]])
           [("incidentId", VInt 1)] None "severityId"
           (or_introl eq_refl) eq_refl (or_introl eq_refl) eq_refl).
Defined.

Lemma get_context_incident_history_form_witness :
  exists first incident_id popped,
    hd_error [Sample.full_entry] = Some first
    /\ rbind (get first "incidentId") (arg_to_number (Platform := Sample.platform))
       = Ok incident_id
    /\ [VDict [("ID", VInt 7);
               ("incidentHistory",
                VList [VDict [("incidentHistoryDate", VStr "2022-03-01T10:00:00Z");
                              ("dlpUserName", VStr "Administrator")]])]]
       = [VDict [("ID", of_optint incident_id); ("incidentHistory", VList popped)]]
    /\ Forall2 history_entry_of [Sample.full_entry] popped.
Proof.
  exact (get_context_incident_history_form (P := Sample.platform)
           [Sample.full_entry] _ eq_refl).
Defined.

End ContextExtras.

(** ** Updating incidents *)

Module UpdateExtras.
Import Py.
Import SymantecDLPV2.
Import Notions.
Import PyFacts.
Import DictFacts.
Import CustomAttributeFacts.

Lemma custom_attribute_update_Ok (attribute : string) (r : value) :
  custom_attribute_update attribute = Ok r ->
  well_formed_attribute attribute = true
  /\ decimal_index attribute = true
  /\ r = attribute_record attribute.
Proof.
  unfold custom_attribute_update, well_formed_attribute, decimal_index, attribute_record.
  fold (index_part attribute). fold (value_part attribute).
  destruct (Nat.eqb (length (split ":" attribute)) 2); [|discriminate].
  destruct (isdigit (index_part attribute)); [|discriminate].
  cbn [negb andb]. unfold int_of_str.
  destruct (negb (String.eqb (index_part attribute) "")); [|discriminate].
  destruct (all_chars is_decimal (index_part attribute)); [|discriminate].
  destruct (Z.of_nat (String.length (index_part attribute)) <=? max_str_digits)%Z;
    [|discriminate].
  cbn [andb rbind]. intros [= <-]. repeat split.
Qed.

(** X9: on attributes over the code points U+0000..U+00FF,
    [build_custom_attributes_update] returns exactly on the lists whose
    attributes all split on [':'] into two parts with an index written with
    1 to 4300 of the decimal digits 0 to 9, and what it returns is one record
    per attribute, in the order of the input. *)
Theorem build_custom_attributes_update_returns
    (custom_attributes : list string) (records : list value) :
  build_custom_attributes_update custom_attributes = Ok records
  <-> forallb well_formed_attribute custom_attributes = true
      /\ forallb decimal_index custom_attributes = true
      /\ records = map attribute_record custom_attributes.
Proof.
  split.
  - unfold build_custom_attributes_update. revert records.
    induction custom_attributes as [|a l IH]; cbn [map_result forallb map]; intros records H.
    + injection H as <-. repeat split.
    + apply rbind_Ok_inv in H as (r & Hr & H).
      apply rbind_Ok_inv in H as (rs & Hrs & [= <-]).
      destruct (custom_attribute_update_Ok _ _ Hr) as (-> & -> & ->).
      destruct (IH _ Hrs) as (-> & -> & ->). repeat split.
  - intros (Hwf & Hdec & ->).
    exact (build_custom_attributes_update_decimal _ Hwf Hdec).
Qed.

Section WithPlatform.
Context {W : Type} {P : Platform W}.
Local Abbreviation M := (@M W).
Local Abbreviation host := (@host W).

(** On strings the two versions of the parser agree. *)
Lemma build_custom_attributes_update_of_strings (custom_attributes : list string) :
  build_custom_attributes_update_of (map VStr custom_attributes)
  = build_custom_attributes_update custom_attributes.
Proof.
  unfold build_custom_attributes_update_of, build_custom_attributes_update.
  induction custom_attributes as [|a l IH]; cbn [map map_result].
  - reflexivity.
  - rewrite IH. reflexivity.
Qed.

(** X10: provided [assign_params] binds no key of its own, the body built by
    [create_update_body] binds 'incidentCustomAttributes' exactly when some
    custom attribute is given, to the parsed attributes, and 'incidentNotes'
    exactly when the note is non-empty, to a one-note list; all other keys are
    those chosen by [assign_params]; and when the attributes do not parse, no
    body is built and the parser's exception is raised. *)
Theorem create_update_body_optional_keys (incident_ids : value)
    (data_owner_email data_owner_name note incident_status_id
     remediation_status_name remediation_location severity : value)
    (custom_attributes : list value) :
  invents_no_key assign_params ->
  let built :=
    create_update_body incident_ids data_owner_email data_owner_name note
      incident_status_id remediation_status_name remediation_location severity
      custom_attributes in
  let chosen :=
    assign_params (dict_of
      [("incidentIds", incident_ids); ("dataOwnerEmail", data_owner_email);
       ("dataOwnerName", data_owner_name); ("incidentStatusId", incident_status_id);
       ("preventOrProtectStatus", remediation_status_name);
       ("remediationLocation", remediation_location); ("severity", severity)]) in
  (forall e, build_custom_attributes_update_of custom_attributes = Raise e ->
             built = Raise e)
  /\ (forall parsed,
        build_custom_attributes_update_of custom_attributes = Ok parsed ->
        exists data,
          built = Ok data
          /\ lookup "incidentCustomAttributes" data
             = bound_when (truthy (VList parsed)) (VList parsed)
          /\ lookup "incidentNotes" data
             = bound_when (truthy note) (VList [VDict [("note", note)]])
          /\ forall k, k <> "incidentCustomAttributes" -> k <> "incidentNotes" ->
                       lookup k data = lookup k chosen).
Proof.
  intros Hassign. cbn zeta. unfold create_update_body. split.
  - intros e ->. reflexivity.
  - intros parsed ->. cbn [rbind]. eexists. split; [reflexivity|].
    match goal with
    | |- context [assign_params ?kw] => set (chosen := assign_params kw);
        assert (Hc : forall k, k = "incidentCustomAttributes" \/ k = "incidentNotes" ->
                               lookup k chosen = None)
    end.
    { intros k Hk. subst chosen. apply Hassign. destruct Hk as [-> | ->]; reflexivity. }
    repeat split.
    + destruct (truthy note); destruct (truthy (VList parsed));
        rewrite ?lookup_dict_set; cbn [String.eqb Ascii.eqb Bool.eqb bound_when];
        rewrite ?lookup_dict_set; cbn [String.eqb Ascii.eqb Bool.eqb];
        try reflexivity; apply Hc; left; reflexivity.
    + destruct (truthy note); destruct (truthy (VList parsed));
        rewrite ?lookup_dict_set; cbn [String.eqb Ascii.eqb Bool.eqb bound_when];
        rewrite ?lookup_dict_set; cbn [String.eqb Ascii.eqb Bool.eqb];
        try reflexivity; apply Hc; right; reflexivity.
    + intros k Hk1 Hk2.
      apply String.eqb_neq in Hk1. apply String.eqb_neq in Hk2.
      destruct (truthy note); destruct (truthy (VList parsed));
        rewrite ?lookup_dict_set, ?Hk2, ?lookup_dict_set, ?Hk1; reflexivity.
Qed.


End WithPlatform.

Lemma invents_no_key_sample : invents_no_key Sample.keep_params.
Proof.
  intros kwargs k. unfold Sample.keep_params.
  induction kwargs as [|[k0 v0] d IH]; cbn [lookup filter]; [reflexivity|].
  destruct (String.eqb k k0) eqn:E; [discriminate|].
  intros H. cbn [snd]. destruct (negb (Sample.ignored v0)); cbn [lookup];
    [rewrite E|]; auto.
Qed.

Lemma build_custom_attributes_update_returns_witness :
  build_custom_attributes_update ["1:test"; "12:two words"]
  = Ok (map attribute_record ["1:test"; "12:two words"]).
Proof.
  apply (proj2 (build_custom_attributes_update_returns
                  ["1:test"; "12:two words"] _)).
  repeat split.
Defined.

Lemma create_update_body_optional_keys_witness :
  exists data,
    create_update_body (P := Sample.platform) (VList [VStr "7"]) (VStr "") (VStr "")
      (VStr "reviewed") (VStr "") (VStr "") (VStr "") (VStr "") [VStr "1:test"]
    = Ok data
    /\ lookup "incidentCustomAttributes" data
       = Some (VList [VDict [("columnIndex", VInt 1); ("value", VStr "test")]])
    /\ lookup "incidentNotes" data
       = Some (VList [VDict [("note", VStr "reviewed")]])
    /\ lookup "dataOwnerEmail" data = None.
Proof.
  destruct (proj2 (create_update_body_optional_keys (P := Sample.platform)
                     (VList [VStr "7"]) (VStr "") (VStr "") (VStr "reviewed") (VStr "")
                     (VStr "") (VStr "") (VStr "") [VStr "1:test"] invents_no_key_sample)
              _ eq_refl) as (data & Hdata & Hattrs & Hnotes & Hother).
  exists data. split; [exact Hdata|]. split; [exact Hattrs|]. split; [exact Hnotes|].
  rewrite Hother by discriminate. reflexivity.
Defined.


End UpdateExtras.

(** ** Custom attributes and the details of an incident *)

Module CustomAttributeExtras.
Import Py.
Import SymantecDLPV2.
Import Notions.
Import PyFacts.
Import DictFacts.

Section WithPlatform.
Context {W : Type} {P : Platform W}.

Lemma custom_attribute_of_Ok (raw attribute : value) :
  custom_attribute_of raw = Ok attribute -> attribute_of raw attribute.
Proof.
  unfold custom_attribute_of, get. intros H.
  destruct raw as [| | | | |d]; try discriminate H. cbn [as_dict rbind] in H.
  injection H as <-. eexists. eexists. split; [reflexivity|]. split; [reflexivity|].
  destruct (truthy (dict_get d "value")); cbn [bound_when];
    rewrite ?lookup_dict_set; repeat split.
Qed.

Lemma get_all_group_custom_attributes_Ok (group entry : value) :
  get_all_group_custom_attributes group = Ok entry -> group_of group entry.
Proof.
  unfold get_all_group_custom_attributes. intros H.
  apply rbind_Ok_inv in H as (group_name & Hname & H).
  apply rbind_Ok_inv in H as (raw & Hraw & H).
  apply rbind_Ok_inv in H as (raws & Hraws & H).
  apply rbind_Ok_inv in H as (attributes & Hattrs & [= <-]).
  exists group_name, raws, attributes.
  split; [exact Hname|]. split; [unfold raw_attributes; rewrite Hraw; exact Hraws|].
  split; [reflexivity|].
  apply map_result_Ok_inv in Hattrs.
  eapply Forall2_impl; [|exact Hattrs]. intros a b. apply custom_attribute_of_Ok.
Qed.

(** X12: with the flag 'all', [parse_custom_attribute] returns one entry per
    group, in order: the group's name with its custom attributes, each
    attribute with its name and index, and with its value exactly when the
    value is not empty. *)
Theorem parse_custom_attribute_all (custom_attribute_group_list : value)
    (args : dict) (parsed : list value) :
  dict_get args "custom_attributes" = VStr "all" ->
  parse_custom_attribute custom_attribute_group_list args = Ok parsed ->
  exists groups,
    iterate custom_attribute_group_list = Ok groups
    /\ Forall2 group_of groups parsed.
Proof.
  intros Hflag H. unfold parse_custom_attribute in H. rewrite Hflag in H.
  cbn [py_eq String.eqb Ascii.eqb Bool.eqb] in H.
  apply rbind_Ok_inv in H as (groups & Hgroups & H).
  exists groups. split; [exact Hgroups|].
  apply map_result_Ok_inv in H.
  eapply Forall2_impl; [|exact H]. intros a b. apply get_all_group_custom_attributes_Ok.
Qed.

Lemma map_result_concat_Forall {A B : Type} (f : A -> result (list B))
    (Q : B -> Prop) (l : list A) (r : list (list B)) :
  (forall x y, f x = Ok y -> Forall Q y) ->
  map_result f l = Ok r -> Forall Q (concat r).
Proof.
  intros Hf H. apply map_result_Ok_inv in H.
  induction H as [|x y l l' Hxy _ IH]; cbn [concat].
  - constructor.
  - apply Forall_app. split; [exact (Hf _ _ Hxy) | exact IH].
Qed.

Lemma specific_attribute_of_Ok (group : value) (names : list value)
    (raw : value) (found : list value) :
  specific_attribute_of group names raw = Ok found ->
  Forall (chosen_attribute names) found.
Proof.
  unfold specific_attribute_of. intros H.
  apply rbind_Ok_inv in H as (attribute_name & Hname & H).
  destruct (py_in attribute_name names) eqn:Ein.
  - apply rbind_Ok_inv in H as (v & _ & H).
    apply rbind_Ok_inv in H as (index & _ & H).
    apply rbind_Ok_inv in H as (group_name & _ & [= <-]).
    constructor; [|constructor].
    eexists. eexists. exists attribute_name. split; [reflexivity|].
    split; [|exact Ein].
    rewrite lookup_dict_set. cbn [String.eqb Ascii.eqb Bool.eqb].
    destruct (truthy v); rewrite ?lookup_dict_set; reflexivity.
  - injection H as <-. constructor.
Qed.

(** X13: the two selective flags return only what was asked for: with
    'specific attributes' every entry is a custom attribute whose name is in
    the list made from [custom_data], and with 'custom attribute group name'
    every entry is a group whose name is in that list; without [custom_data]
    both raise a [DemistoException]; and any flag other than 'all' and these
    two gives the empty list, whatever the groups are. *)
Theorem parse_custom_attribute_selective (custom_attribute_group_list : value)
    (args : dict) :
  let flag := dict_get args "custom_attributes" in
  let custom_data := dict_get args "custom_data" in
  let names := argToList custom_data "," in
  let parsed := parse_custom_attribute custom_attribute_group_list args in
  (flag = VStr "specific attributes" ->
   (truthy custom_data = false -> exists message, parsed = Raise (DemistoException message))
   /\ forall entries, parsed = Ok entries -> Forall (chosen_attribute names) entries)
  /\ (flag = VStr "custom attribute group name" ->
      (truthy custom_data = false ->
       exists message, parsed = Raise (DemistoException message))
      /\ forall entries, parsed = Ok entries -> Forall (chosen_group names) entries)
  /\ (py_eq flag (VStr "all") = false ->
      py_eq flag (VStr "custom attribute group name") = false ->
      py_eq flag (VStr "specific attributes") = false ->
      parsed = Ok []).
Proof.
  cbn zeta. unfold parse_custom_attribute. split; [|split].
  - intros ->. cbn [py_eq String.eqb Ascii.eqb Bool.eqb]. split.
    + intros ->. eexists. reflexivity.
    + intros entries H.
      destruct (truthy (dict_get args "custom_data")); [|discriminate H].
      cbn [negb] in H.
      apply rbind_Ok_inv in H as (groups & _ & H).
      apply rbind_Ok_inv in H as (chosen & Hchosen & [= <-]).
      eapply map_result_concat_Forall; [|exact Hchosen].
      intros group found Hfound. cbn beta in Hfound.
      apply rbind_Ok_inv in Hfound as (raw & _ & Hfound).
      apply rbind_Ok_inv in Hfound as (raws & _ & Hfound).
      apply rbind_Ok_inv in Hfound as (each & Heach & [= <-]).
      eapply map_result_concat_Forall; [|exact Heach].
      intros raw0 y. apply specific_attribute_of_Ok.
  - intros ->. cbn [py_eq String.eqb Ascii.eqb Bool.eqb]. split.
    + intros ->. eexists. reflexivity.
    + intros entries H.
      destruct (truthy (dict_get args "custom_data")); [|discriminate H].
      cbn [negb] in H.
      apply rbind_Ok_inv in H as (groups & _ & H).
      apply rbind_Ok_inv in H as (chosen & Hchosen & [= <-]).
      eapply map_result_concat_Forall; [|exact Hchosen].
      intros group found Hfound. cbn beta in Hfound.
      apply rbind_Ok_inv in Hfound as (group_name & Hname & Hfound).
      destruct (py_in group_name (argToList (dict_get args "custom_data") ","))
        eqn:Ein.
      * apply rbind_Ok_inv in Hfound as (g & Hg & [= <-]).
        constructor; [|constructor].
        apply get_all_group_custom_attributes_Ok in Hg
          as (group_name' & raws & attributes & Hname' & _ & -> & _).
        exists group_name. split; [|exact Ein].
        rewrite Hname in Hname'. injection Hname' as <-. reflexivity.
      * injection Hfound as <-. constructor.
  - intros -> -> ->. reflexivity.
Qed.

(** X14: the details that depend on the type of the incident: a type other
    than NETWORK, DISCOVER and ENDPOINT adds nothing and never raises; a
    NETWORK incident without 'recipientInfo' raises a [TypeError], and one
    with an empty list of recipients an [IndexError]; so for such an incident
    [get_common_incident_details] raises in the fetch, although it returns
    when used by the details command. *)
Theorem get_details_for_specific_type_edges (incident_info_map_static : dict) :
  (forall incident_type,
     py_eq incident_type (VStr "NETWORK") = false ->
     py_eq incident_type (VStr "DISCOVER") = false ->
     py_eq incident_type (VStr "ENDPOINT") = false ->
     get_details_for_specific_type incident_type incident_info_map_static = Ok [])
  /\ (lookup "recipientInfo" incident_info_map_static = None ->
      get_details_for_specific_type (VStr "NETWORK") incident_info_map_static
      = Raise TypeError)
  /\ (lookup "recipientInfo" incident_info_map_static = Some (VList []) ->
      get_details_for_specific_type (VStr "NETWORK") incident_info_map_static
      = Raise IndexError)
  /\ (forall static_attributes editable_attributes args details e,
        get_default static_attributes "infoMap" (VDict [])
        = Ok (VDict incident_info_map_static) ->
        get_details_for_specific_type (VStr "NETWORK") incident_info_map_static
        = Raise e ->
        get_common_incident_details static_attributes editable_attributes args
          (VStr "NETWORK") false = Ok details ->
        get_common_incident_details static_attributes editable_attributes args
          (VStr "NETWORK") true = Raise e).
Proof.
  split; [|split; [|split]].
  - intros incident_type H1 H2 H3. unfold get_details_for_specific_type.
    rewrite H1, H2, H3. reflexivity.
  - intros H. unfold get_details_for_specific_type, dict_get.
    cbn [py_eq String.eqb Ascii.eqb Bool.eqb]. rewrite H. reflexivity.
  - intros H. unfold get_details_for_specific_type, dict_get.
    cbn [py_eq String.eqb Ascii.eqb Bool.eqb]. rewrite H. reflexivity.
  - intros static_attributes editable_attributes args details e Hinfo Hraise H.
    unfold get_common_incident_details in *.
    apply rbind_Ok_inv in H as (ime & -> & H). cbn [rbind].
    rewrite Hinfo in *. cbn [rbind] in *.
    apply rbind_Ok_inv in H as (groups & -> & H). cbn [rbind].
    apply rbind_Ok_inv in H as (ID & -> & H). cbn [rbind as_dict] in *.
    apply rbind_Ok_inv in H as (editable & -> & H). cbn [rbind].
    apply rbind_Ok_inv in H as (severityId & -> & H). cbn [rbind].
    apply rbind_Ok_inv in H as (parsed & -> & H). cbn [rbind].
    rewrite Hraise. reflexivity.
Qed.

End WithPlatform.

Lemma parse_custom_attribute_all_witness :
  parse_custom_attribute (P := Sample.platform) Sample.attribute_groups
    [("custom_attributes", VStr "all")]
  = Ok [VDict [("name", VStr "Resolution");
               ("customAttribute",
                VList [VDict [("name", VStr "Owner"); ("index", VInt 1);
                              ("value", VStr "alice")];
                       VDict [("name", VStr "Reason"); ("index", VInt 2)]])]]
  /\ exists groups,
       iterate Sample.attribute_groups = Ok groups
       /\ Forall2 group_of groups
            [VDict [("name", VStr "Resolution");
                    ("customAttribute",
                     VList [VDict [("name", VStr "Owner"); ("index", VInt 1);
                                   ("value", VStr "alice")];
                            VDict [("name", VStr "Reason"); ("index", VInt 2)]])]].
Proof.
  split; [reflexivity|].
  exact (parse_custom_attribute_all (P := Sample.platform) Sample.attribute_groups
           [("custom_attributes", VStr "all")] _ eq_refl eq_refl).
Defined.

Lemma parse_custom_attribute_selective_witness :
  parse_custom_attribute (P := Sample.platform) Sample.attribute_groups
    [("custom_attributes", VStr "specific attributes"); ("custom_data", VStr "Owner")]
  = Ok [VDict [("name", VStr "Resolution");
               ("customAttribute",
                VDict [("name", VStr "Owner"); ("value", VStr "alice");
                       ("index", VInt 1)])]]
  /\ Forall (chosen_attribute [VStr "Owner"])
       [VDict [("name", VStr "Resolution");
               ("customAttribute",
                VDict [("name", VStr "Owner"); ("value", VStr "alice");
                       ("index", VInt 1)])]]
  /\ (exists message,
        parse_custom_attribute (P := Sample.platform) Sample.attribute_groups
          [("custom_attributes", VStr "custom attribute group name")]
        = Raise (DemistoException message))
  /\ parse_custom_attribute (P := Sample.platform) VNone
       [("custom_attributes", VStr "specific_attributes")] = Ok [].
Proof.
  split; [reflexivity|]. split; [|split].
  - exact (proj2 (proj1 (parse_custom_attribute_selective (P := Sample.platform)
                           Sample.attribute_groups
                           [("custom_attributes", VStr "specific attributes");
                            ("custom_data", VStr "Owner")]) eq_refl) _ eq_refl).
  - exact (proj1 (proj1 (proj2 (parse_custom_attribute_selective (P := Sample.platform)
                                  Sample.attribute_groups
                                  [("custom_attributes",
                                    VStr "custom attribute group name")])) eq_refl)
             eq_refl).
  - exact (proj2 (proj2 (parse_custom_attribute_selective (P := Sample.platform) VNone
                           [("custom_attributes", VStr "specific_attributes")]))
             eq_refl eq_refl eq_refl).
Defined.

Lemma get_details_for_specific_type_edges_witness :
  get_common_incident_details (P := Sample.platform) Sample.network_static
    Sample.editable_attributes [("custom_attributes", VStr "all")] (VStr "NETWORK") true
  = Raise TypeError
  /\ exists details,
       get_common_incident_details (P := Sample.platform) Sample.network_static
         Sample.editable_attributes [("custom_attributes", VStr "all")]
         (VStr "NETWORK") false = Ok details.
Proof.
  split; [|eexists; reflexivity].
  refine (proj2 (proj2 (proj2
            (get_details_for_specific_type_edges (P := Sample.platform)
               [("creationDate", VStr "2022-03-03T09:00:00Z");
                ("messageSource", VStr "NETWORK");
                ("messageSubject", VStr "quarterly figures")])))
            Sample.network_static Sample.editable_attributes
            [("custom_attributes", VStr "all")] _ TypeError eq_refl eq_refl eq_refl).
Defined.

End CustomAttributeExtras.

(** ** The fetch: what is stored, what is returned *)

Module FetchExtras.
Import Py.
Import SymantecDLPV2.
Import Notions.
Import PyFacts.
Import HostFacts.
Import FetchFacts.

Section WithPlatform.
Context {W : Type} {P : Platform W}.
Local Abbreviation M := (@M W).
Local Abbreviation host := (@host W).

(** *** What is stored *)

Lemma keeps_ret {A : Type} (a : A) : keeps_store (W := W) (ret a).
Proof. intros h. reflexivity. Qed.

Lemma keeps_raise {A : Type} (e : exn) : keeps_store (W := W) (raise (A := A) e).
Proof. intros h. reflexivity. Qed.

Lemma keeps_lift {A : Type} (r : result A) : keeps_store (W := W) (lift r).
Proof. intros h. reflexivity. Qed.

Lemma keeps_bind {A B : Type} (m : M A) (k : A -> M B) :
  keeps_store (W := W) m -> (forall a, keeps_store (W := W) (k a)) ->
  keeps_store (W := W) (bind m k).
Proof.
  intros Hm Hk h. unfold bind. specialize (Hm h).
  destruct (m h) as [[a|e] h1]; cbn [snd] in Hm.
  - rewrite Hk. exact Hm.
  - exact Hm.
Qed.

Lemma keeps_try {A : Type} (body : M A) (handler : string -> M A) :
  keeps_store (W := W) body ->
  (forall message, keeps_store (W := W) (handler message)) ->
  keeps_store (W := W) (try_except_DemistoException body handler).
Proof.
  intros Hb Hh h. unfold try_except_DemistoException. specialize (Hb h).
  destruct (body h) as [[a|e] h1]; cbn [snd] in Hb; [exact Hb|].
  destruct e; try exact Hb. rewrite Hh. exact Hb.
Qed.

Lemma keeps_http_request (call : http_call) : keeps_store (W := W) (_http_request call).
Proof.
  intros h. unfold _http_request. destruct (http_request call (server h)). reflexivity.
Qed.

Lemma keeps_parse_creation_date (v : value) :
  keeps_store (W := W) (parse_creation_date v).
Proof. unfold parse_creation_date. destruct (truthy v); intros h; reflexivity. Qed.

Create HintDb store.
#[local] Hint Resolve keeps_ret keeps_raise keeps_lift keeps_http_request
  keeps_parse_creation_date : store.

(** Decomposes a sequence of steps into its steps. *)
Ltac keeps :=
  repeat first
    [ solve [auto with store]
    | apply keeps_bind; [|intros ?]
    | apply keeps_try; [|intros ?]
    | progress cbv iota
    | match goal with
      | |- keeps_store (if ?b then _ else _) => destruct b
      end ].

Lemma keeps_get_incident_details_fetch (client : Client) (incident : value) :
  keeps_store (W := W) (get_incident_details_fetch client incident).
Proof.
  unfold get_incident_details_fetch, get_incident_static_attributes_request,
    get_incident_editable_attributes_request.
  keeps.
Qed.

Lemma keeps_fetch_loop (client : Client) (incidents_data_list : value) :
  forall items incidents last_update_time,
    keeps_store (W := W)
      (fetch_loop client incidents_data_list items incidents last_update_time).
Proof.
  induction items as [|x items IH]; intros incidents last_update_time;
    cbn [fetch_loop].
  - apply keeps_ret.
  - pose proof (keeps_get_incident_details_fetch client x).
    keeps; auto.
Qed.

Lemma keeps_fetch_incidents_test (client : Client) (fetch_time fetch_limit : value)
    (last_run : dict) (incident_types incident_status_id incident_severities : value) :
  keeps_store (W := W)
    (fetch_incidents client fetch_time fetch_limit last_run
       incident_types incident_status_id incident_severities true).
Proof.
  unfold fetch_incidents, first_update_time, get_incidents_request.
  pose proof (keeps_fetch_loop client). keeps; auto.
Qed.

Lemma raising_of_keeps {A : Type} (m : M A) :
  keeps_store (W := W) m -> keeps_store_when_raising (W := W) m.
Proof. intros H h _. apply H. Qed.

Lemma raising_bind {A B : Type} (m : M A) (k : A -> M B) :
  keeps_store (W := W) m ->
  (forall a, keeps_store_when_raising (W := W) (k a)) ->
  keeps_store_when_raising (W := W) (bind m k).
Proof.
  intros Hm Hk h. unfold bind. specialize (Hm h).
  destruct (m h) as [[a|e] h1]; cbn [snd] in Hm.
  - intros He. rewrite (Hk a h1 He). exact Hm.
  - intros _. exact Hm.
Qed.

(** X15: the stored last run is only changed by a run of [fetch_incidents]
    that is not a test and returns: a test run, and a run that raises, at
    whatever point, leave it as it was. *)
Theorem fetch_incidents_stores_on_success_only
    (client : Client) (fetch_time fetch_limit : value) (last_run : dict)
    (incident_types incident_status_id incident_severities : value)
    (is_test : bool) (h : host) :
  let outcome :=
    fetch_incidents client fetch_time fetch_limit last_run
      incident_types incident_status_id incident_severities is_test h in
  is_test = true \/ (exists e, fst outcome = Raise e) ->
  last_run_store (snd outcome) = last_run_store h.
Proof.
  cbn zeta. intros [-> | Hraise].
  - apply keeps_fetch_incidents_test.
  - revert h Hraise.
    change (keeps_store_when_raising (W := W)
              (fetch_incidents client fetch_time fetch_limit last_run
                 incident_types incident_status_id incident_severities is_test)).
    unfold fetch_incidents, first_update_time, get_incidents_request.
    pose proof (keeps_fetch_loop client).
    repeat (apply raising_bind; [keeps; auto | intros ?]).
    destruct is_test.
    + apply raising_of_keeps, keeps_ret.
    + intros h [e He]. discriminate He.
Qed.

(** X16: [test_module] never changes the stored last run, whatever the
    parameters are and however the requests end. *)
Theorem test_module_keeps_last_run (client : Client) (params : dict)
    (fetch_time fetch_limit incident_type incident_status_id incident_severity : value)
    (h : host) :
  last_run_store
    (snd (test_module client params fetch_time fetch_limit
            incident_type incident_status_id incident_severity h))
  = last_run_store h.
Proof.
  revert h.
  change (keeps_store (W := W)
            (test_module client params fetch_time fetch_limit
               incident_type incident_status_id incident_severity)).
  unfold test_module, test_module_request, get_incidents_request.
  pose proof (keeps_fetch_incidents_test client fetch_time fetch_limit []
                incident_type incident_status_id incident_severity).
  keeps; auto.
Qed.

(** *** What is returned *)

(** The loop from any watermark: the records it adds were produced, in
    order, for listed incidents, and the watermark it ends with is the one it
    started from or the creation date of one of those incidents, equal to
    that of the last element of the listing. *)
Lemma fetch_loop_delivers (client : Client) (incidents_data_list : value) :
  forall (items : list value) (incidents : list incident) (w : value)
         (h h' : host) (out : list incident) (w' : value),
    fetch_loop client incidents_data_list items incidents w h = (Ok (out, w'), h') ->
    exists delivered,
      out = incidents ++ map snd delivered
      /\ subsequence (map fst delivered) items
      /\ Forall produced_for delivered
      /\ (w' = w \/ moved_to_last incidents_data_list (map fst delivered) w').
Proof.
  induction items as [|x items IH]; intros incidents w h h' out w' H.
  - injection H as <- <- _. exists []. cbn [map]. rewrite app_nil_r.
    repeat split; [constructor | constructor | left; reflexivity].
  - cbn [fetch_loop] in H.
    apply bind_Ok_inv in H as (incident_id & h0 & Hid & H).
    apply lift_inv in Hid as [Hid ->].
    apply bind_Ok_inv in H as (c & h0 & Hc & H).
    apply lift_inv in Hc as [Hc ->].
    apply bind_Ok_inv in H as (fetched & h0 & Hf & H).
    apply lift_inv in Hf as [_ ->].
    destruct (truthy fetched).
    + destruct (IH _ _ _ _ _ _ H) as (delivered & -> & Hsub & Hall & Hw).
      exists delivered. repeat split; try assumption.
      apply subsequence_skip. exact Hsub.
    + apply bind_Ok_inv in H as (details & h1 & _ & H).
      apply bind_Ok_inv in H as (raw & h0 & Hraw & H).
      apply lift_inv in Hraw as [_ ->].
      apply bind_Ok_inv in H as (occurred_at & h2 & _ & H).
      apply bind_Ok_inv in H as (last & h0 & Hlast & H).
      apply lift_inv in Hlast as [Hlast ->].
      apply bind_Ok_inv in H as (last_creation & h0 & Hlc & H).
      apply lift_inv in Hlc as [Hlc ->].
      set (record := {| rawJSON := raw;
                        name := "Symantec DLP Incident ID " ++ format_value incident_id;
                        occurred := occurred_at |}) in H.
      destruct (IH _ _ _ _ _ _ H) as (delivered & -> & Hsub & Hall & Hw).
      exists ((x, record) :: delivered). cbn [map fst snd].
      rewrite <- app_assoc. cbn [app].
      split; [reflexivity|]. split; [apply subsequence_take; exact Hsub|].
      split; [constructor; [exists incident_id; split; [exact Hid | reflexivity]
                           | exact Hall]|].
      destruct Hw as [-> | (inc & l & lc & Hin & Hget & Hl & Hlc' & Heq)].
      * destruct (py_eq c last_creation) eqn:Eeq; [|left; reflexivity].
        right. exists x, last, last_creation.
        repeat split; try assumption. left. reflexivity.
      * right. exists inc, l, lc. repeat split; try assumption. right. exact Hin.
Qed.

Lemma subsequence_length {A : Type} (l l' : list A) :
  subsequence l l' -> length l <= length l'.
Proof. induction 1; cbn [length]; lia. Qed.

Lemma insert_by_name_permutation (x : incident) (l : list incident) :
  Permutation (x :: l) (insert_by_name x l).
Proof.
  induction l as [|y l IH]; cbn [insert_by_name].
  - apply Permutation_refl.
  - destruct (String.leb (name x) (name y)).
    + apply Permutation_refl.
    + eapply perm_trans; [apply perm_swap|]. apply perm_skip. exact IH.
Qed.

Lemma sorted_by_name_permutation (l : list incident) :
  Permutation l (sorted_by_name l).
Proof.
  unfold sorted_by_name. induction l as [|x l IH]; cbn [fold_right].
  - apply perm_nil.
  - eapply perm_trans; [apply perm_skip; exact IH|].
    apply insert_by_name_permutation.
Qed.

Lemma insert_by_name_sorted (x : incident) (l : list incident) :
  Sorted name_le l -> Sorted name_le (insert_by_name x l).
Proof.
  induction l as [|y l IH]; cbn [insert_by_name]; intros Hs.
  - repeat constructor.
  - destruct (String.leb (name x) (name y)) eqn:E.
    + constructor; [exact Hs|]. constructor. exact E.
    + assert (Hyx : name_le y x).
      { unfold name_le. destruct (String.leb_total (name x) (name y)); congruence. }
      inversion Hs as [|? ? Hs' Hhd]; subst.
      constructor; [exact (IH Hs')|].
      destruct l as [|z l]; cbn [insert_by_name].
      * constructor. exact Hyx.
      * destruct (String.leb (name x) (name z)); constructor;
          [exact Hyx | inversion Hhd; assumption].
Qed.

Lemma sorted_by_name_sorted (l : list incident) : Sorted name_le (sorted_by_name l).
Proof.
  unfold sorted_by_name. induction l as [|x l IH]; cbn [fold_right].
  - constructor.
  - apply insert_by_name_sorted. exact IH.
Qed.

(** X17: the incidents returned by [fetch_incidents] are in non-decreasing
    order of their names; they are, up to that order, the records produced
    for a subsequence of the listed incidents, each named after the id of its
    incident, so there are never more of them than incidents listed. *)
Theorem fetch_incidents_returns_sorted
    (client : Client) (fetch_time fetch_limit : value) (last_run : dict)
    (incident_types incident_status_id incident_severities : value)
    (h h' : host) (returned : list incident) :
  fetch_incidents client fetch_time fetch_limit last_run
    incident_types incident_status_id incident_severities false h
  = (Ok (Some returned), h') ->
  Sorted name_le returned
  /\ exists call response incidents_data_list listed delivered,
       fst (http_request call (server h)) = Ok response
       /\ get_default response "incidents" (VList []) = Ok incidents_data_list
       /\ iterate incidents_data_list = Ok listed
       /\ subsequence (map fst delivered) listed
       /\ Forall produced_for delivered
       /\ Permutation (map snd delivered) returned
       /\ length returned <= length listed.
Proof.
  intros H. apply fetch_incidents_inv in H
    as (severities & types & w0 & response & lst & listed & out & w' & h1 & h2
        & _ & _ & _ & Hreq & Hlst & Hlisted & Hloop & [= ->] & _).
  split; [apply sorted_by_name_sorted|].
  destruct (fetch_loop_delivers _ _ _ _ _ _ _ _ _ Hloop)
    as (delivered & -> & Hsub & Hall & _).
  unfold get_incidents_request in Hreq.
  apply bind_Ok_inv in Hreq as (response' & h0 & Hreq & Hret).
  apply ret_inv in Hret as [[= <-] ->].
  unfold _http_request in Hreq.
  match type of Hreq with
  | context [http_request ?c _] => set (call := c) in Hreq
  end.
  destruct (http_request call (server h)) as [r0 w1] eqn:Ehttp.
  injection Hreq as -> _.
  exists call, response, lst, listed, delivered. rewrite Ehttp. cbn [app].
  repeat (split; [first [assumption | reflexivity]|]).
  split; [apply sorted_by_name_permutation|].
  rewrite <- (Permutation_length (sorted_by_name_permutation (map snd delivered))).
  rewrite length_map, <- (length_map fst). apply subsequence_length. exact Hsub.
Qed.

(** X18: the watermark stored by a completed run is either the one the run
    started from, or the creation date of an incident that the server listed
    in reply to the run's listing request and that the run delivered, equal
    to the creation date of the last listed incident. *)
Theorem stored_watermark_is_start_or_last
    (client : Client) (fetch_time fetch_limit : value) (last_run : dict)
    (incident_types incident_status_id incident_severities : value)
    (h h' : host) (r : option (list incident)) :
  fetch_incidents client fetch_time fetch_limit last_run
    incident_types incident_status_id incident_severities false h = (Ok r, h') ->
  exists severities types w0 w' response incidents_data_list listed delivered,
    translated INCIDENT_SEVERITY_MAPPING incident_severities severities
    /\ translated INCIDENT_TYPE_MAPPING incident_types types
    /\ first_update_time fetch_time last_run h = (Ok w0, h)
    /\ fst (http_request
              (listing_call client w0 incident_status_id severities types fetch_limit)
              (server h)) = Ok response
    /\ get_default response "incidents" (VList []) = Ok incidents_data_list
    /\ iterate incidents_data_list = Ok listed
    /\ subsequence (map fst delivered) listed
    /\ Forall produced_for delivered
    /\ r = Some (sorted_by_name (map snd delivered))
    /\ last_run_store h' = [(last_run_key, w')]
    /\ (w' = w0 \/ moved_to_last incidents_data_list (map fst delivered) w').
Proof.
  intros H. apply fetch_incidents_inv in H
    as (severities & types & w0 & response & lst & listed & out & w' & h1 & h2
        & Hsev & Hty & Hw0 & Hreq & Hlst & Hlisted & Hloop & -> & ->).
  destruct (fetch_loop_delivers _ _ _ _ _ _ _ _ _ Hloop)
    as (delivered & -> & Hsub & Hall & Hw').
  exists severities, types, w0, w', response, lst, listed, delivered.
  repeat (split; [assumption|]).
  split.
  { unfold get_incidents_request in Hreq.
    apply bind_Ok_inv in Hreq as (response' & h0 & Hreq & Hret).
    apply ret_inv in Hret as [[= <-] ->].
    unfold _http_request in Hreq.
    fold (listing_call client w0 incident_status_id severities types fetch_limit) in Hreq.
    destruct (http_request
                (listing_call client w0 incident_status_id severities types fetch_limit)
                (server h)) as [r0 w1].
    injection Hreq as -> _. reflexivity. }
  repeat (split; [first [assumption | reflexivity]|]).
  exact Hw'.
Qed.

End WithPlatform.

Lemma fetch_incidents_stores_on_success_only_witness :
  last_run_store
    (snd (fetch_incidents (P := Sample.platform) Sample.client (VStr "3 days") (VInt 10)
            Sample.stored_last_run VNone VNone VNone false
            {| server := [Ok Sample.listing;
                          Raise (DemistoException "Error in API call [500]")];
               last_run_store := Sample.stored_last_run;
               sent := [] |}))
  = Sample.stored_last_run.
Proof.
  refine (fetch_incidents_stores_on_success_only (P := Sample.platform) Sample.client
            (VStr "3 days") (VInt 10) Sample.stored_last_run VNone VNone VNone false
            {| server := [Ok Sample.listing;
                          Raise (DemistoException "Error in API call [500]")];
               last_run_store := Sample.stored_last_run;
               sent := [] |} (or_intror (ex_intro _ _ _))).
  reflexivity.
Defined.

Lemma fetch_incidents_returns_sorted_witness :
  exists returned h',
    fetch_incidents (P := Sample.platform) Sample.client (VStr "3 days") (VInt 10)
      Sample.stored_last_run VNone VNone VNone false Sample.polled
    = (Ok (Some returned), h')
    /\ Sorted name_le returned
    /\ length returned <= 2.
Proof.
  eexists. eexists. split; [vm_compute; reflexivity|].
  destruct (fetch_incidents_returns_sorted (P := Sample.platform) Sample.client
              (VStr "3 days") (VInt 10) Sample.stored_last_run VNone VNone VNone
              Sample.polled _ _ eq_refl) as (Hsorted & _).
  split; [exact Hsorted|]. cbn. lia.
Defined.

Lemma stored_watermark_is_start_or_last_witness :
  exists response incidents_data_list listed (delivered : list (value * incident)),
    fst (http_request (Platform := Sample.platform)
           (listing_call Sample.client (VStr "2022-03-01T10:00:00Z")
              VNone VNone VNone (VInt 10))
           (server Sample.polled)) = Ok response
    /\ get_default response "incidents" (VList []) = Ok incidents_data_list
    /\ iterate incidents_data_list = Ok listed
    /\ subsequence (map fst delivered) listed
    /\ last_run_store
         (snd (fetch_incidents (P := Sample.platform) Sample.client (VStr "3 days")
                 (VInt 10) Sample.stored_last_run VNone VNone VNone false Sample.polled))
       = [(last_run_key, VStr "2022-03-02T08:30:00Z")]
    /\ moved_to_last incidents_data_list (map fst delivered)
         (VStr "2022-03-02T08:30:00Z").
Proof.
  destruct (stored_watermark_is_start_or_last (P := Sample.platform) Sample.client
              (VStr "3 days") (VInt 10) Sample.stored_last_run VNone VNone VNone
              Sample.polled
              (snd (fetch_incidents (P := Sample.platform) Sample.client (VStr "3 days")
                      (VInt 10) Sample.stored_last_run VNone VNone VNone false
                      Sample.polled))
              (match fst (fetch_incidents (P := Sample.platform) Sample.client
                            (VStr "3 days") (VInt 10) Sample.stored_last_run
                            VNone VNone VNone false Sample.polled) with
               | Ok r => r
               | Raise _ => None
               end)
              eq_refl)
    as (severities & types & w0 & w' & response & lst & listed & delivered
        & Hsev & Hty & Hw0 & Hreq & Hlst & Hlisted & Hsub & _ & _ & Hstore & Hw').
  cbn in Hsev, Hty. subst severities types.
  injection Hw0 as <-. injection Hstore as <-.
  exists response, lst, listed, delivered.
  repeat (split; [assumption|]). split; [reflexivity|].
  destruct Hw' as [Hw' | Hw']; [discriminate Hw' | exact Hw'].
Defined.

End FetchExtras.

(** ** Listing incidents *)

Module ListExtras.
Import Py.
Import SymantecDLPV2.
Import Notions.
Import PyFacts.
Import HostFacts.
Import FetchFacts.
Import PaginationFacts.

Section WithPlatform.
Context {W : Type} {P : Platform W}.
Local Abbreviation M := (@M W).
Local Abbreviation host := (@host W).



End WithPlatform.


End ListExtras.

(** ** Status ids and consecutive pages *)

Module PagingExtras.
Import Py.
Import SymantecDLPV2.
Import Notions.
Import PyFacts.
Local Open Scope Z_scope.

Lemma all_isdigit_true (l : list value) :
  all_isdigit l = Ok true <-> forallb digit_string l = true.
Proof.
  induction l as [|v l IH]; cbn [all_isdigit forallb].
  - split; reflexivity.
  - destruct v as [| | |s| |]; cbn [digit_string andb];
      try (split; discriminate).
    destruct (isdigit s); cbn [andb]; [exact IH | split; discriminate].
Qed.

(** X20: [check_status_ids_type] returns exactly when every status id is a
    string of digits, and then it returns the list it was given. *)
Theorem check_status_ids_type_returns (status_ids_list checked : list value) :
  check_status_ids_type status_ids_list = Ok checked
  <-> forallb digit_string status_ids_list = true /\ checked = status_ids_list.
Proof.
  unfold check_status_ids_type. rewrite <- all_isdigit_true. split.
  - intros H. apply rbind_Ok_inv in H as (digits & Hdigits & H).
    destruct digits; cbn [negb] in H; [|discriminate].
    injection H as <-. split; [exact Hdigits | reflexivity].
  - intros [-> ->]. reflexivity.
Qed.

Lemma check_status_ids_type_returns_witness :
  check_status_ids_type [VStr "1"; VStr "42"] = Ok [VStr "1"; VStr "42"].
Proof.
  apply (proj2 (check_status_ids_type_returns [VStr "1"; VStr "42"] _)).
  split; reflexivity.
Defined.

Lemma firstn_split_at {A : Type} (l : list A) :
  forall a b : nat,
    (a <= b)%nat -> firstn b l = firstn a l ++ firstn (b - a) (skipn a l).
Proof.
  induction l as [|x l IH]; intros a b Hab.
  - rewrite skipn_nil, !firstn_nil. reflexivity.
  - destruct a as [|a].
    + cbn [firstn skipn app]. rewrite Nat.sub_0_r. reflexivity.
    + destruct b as [|b]; [lia|]. cbn [firstn skipn app Nat.sub].
      rewrite (IH a b) by lia. reflexivity.
Qed.

Lemma py_slice_firstn_skipn {A : Type} (a b : Z) (l : list A) :
  0 <= a <= b ->
  py_slice (Some a) (Some b) l
  = firstn (Z.to_nat b - Z.to_nat a) (skipn (Z.to_nat a) l).
Proof.
  intros Hab. unfold py_slice, clamp.
  destruct (Z.ltb_spec a 0) as [?|_]; [lia|].
  destruct (Z.ltb_spec b 0) as [?|_]; [lia|].
  set (n := Z.of_nat (length l)).
  destruct (Z.le_gt_cases n a) as [Hn|Hn].
  - rewrite (skipn_all2 (n := Z.to_nat (Z.min a n))) by lia.
    rewrite (skipn_all2 (n := Z.to_nat a)) by lia.
    rewrite !firstn_nil. reflexivity.
  - replace (Z.min a n) with a by lia.
    destruct (Z.le_gt_cases b n) as [Hbn|Hbn].
    + replace (Z.min b n) with b by lia. f_equal. lia.
    + replace (Z.min b n) with n by lia.
      rewrite !firstn_all2; [reflexivity | |]; rewrite length_skipn; lia.
Qed.

(** X21: consecutive pages tile the list: for a [page_size] that is not
    negative, the incidents before page [page] followed by the page itself
    are the first [page * page_size] incidents, so no incident is lost or
    shown twice from one page to the next. *)
Theorem pages_tile_the_list {A : Type} (limit : option Z) (page page_size : Z)
    (incidents_list shown : list A) :
  1 <= page -> 0 <= page_size ->
  get_incidents_of_current_page limit (Some page) (Some page_size) incidents_list
  = Ok shown ->
  firstn (Z.to_nat (page * page_size)) incidents_list
  = firstn (Z.to_nat ((page - 1) * page_size)) incidents_list ++ shown.
Proof.
  intros Hp Hps H. unfold get_incidents_of_current_page in H.
  destruct (Z.leb_spec page 0) as [?|_]; [lia|]. injection H as <-.
  rewrite py_slice_firstn_skipn by nia.
  apply firstn_split_at. nia.
Qed.

Lemma pages_tile_the_list_witness :
  firstn (Z.to_nat (2 * 2)) [10; 20; 30; 40; 50]
  = firstn (Z.to_nat ((2 - 1) * 2)) [10; 20; 30; 40; 50] ++ [30; 40].
Proof.
  exact (pages_tile_the_list None 2 2 [10; 20; 30; 40; 50] [30; 40]
           ltac:(lia) ltac:(lia) eq_refl).
Defined.

End PagingExtras.
